(** * Worker supervision and scan-session protocol of the Electron shell

    A shallow embedding of
      - [src/electron-main.js]  (main process: worker life cycle, IPC handlers),
      - its preload bridge      ([window.api], same file),
      - [src/renderer/renderer.js] and [src/unnamed/part_000]
                                (the two renderer scripts),
    followed by the properties of the specification that concern them. *)

From Stdlib Require Import ZArith QArith Bool Ascii String List Lia DecimalString.
From Stdlib Require DecimalFacts DecimalPos.
From stdpp Require Import base list.
Import ListNotations.

#[local] Set Warnings "-register-all".

Local Open Scope string_scope.
Local Open Scope Z_scope.
Local Open Scope list_scope.

(* ===================================================================== *)
(** ** Characters and strings as the scripts use them *)
(* ===================================================================== *)

Module Str.

Definition code (c : ascii) : nat := nat_of_ascii c.

(** The double quote and the backslash, by code. *)
Definition dquote : ascii := ascii_of_nat 34.
Definition backslash : ascii := ascii_of_nat 92.

(** The strings of the model are byte strings: a JavaScript string stands
    as its UTF-8 encoding, the form in which it crosses the pipes of the
    worker.

    [String.prototype.trim] removes the code points of WhiteSpace and
    LineTerminator (ECMA-262, 12.2 and 12.3). Those of one byte are TAB,
    LF, VT, FF, CR and SPACE. *)
Definition is_space (c : ascii) : bool :=
  let n := code c in
  (Nat.leb 9 n && Nat.leb n 13) || Nat.eqb n 32.

(** The one of two bytes: U+00A0 (C2 A0). *)
Definition is_space2 (a b : ascii) : bool :=
  Nat.eqb (code a) 194 && Nat.eqb (code b) 160.

(** Those of three bytes: U+1680 (E1 9A 80), U+2000 to U+200A (E2 80 80
    to E2 80 8A), U+2028 and U+2029 (E2 80 A8, E2 80 A9), U+202F
    (E2 80 AF), U+205F (E2 81 9F), U+3000 (E3 80 80) and U+FEFF
    (EF BB BF). *)
Definition is_space3 (a b c : ascii) : bool :=
  let x := code a in
  let y := code b in
  let z := code c in
  (Nat.eqb x 225 && Nat.eqb y 154 && Nat.eqb z 128)
  || (Nat.eqb x 226 && Nat.eqb y 128
      && ((Nat.leb 128 z && Nat.leb z 138)
          || Nat.eqb z 168 || Nat.eqb z 169 || Nat.eqb z 175))
  || (Nat.eqb x 226 && Nat.eqb y 129 && Nat.eqb z 159)
  || (Nat.eqb x 227 && Nat.eqb y 128 && Nat.eqb z 128)
  || (Nat.eqb x 239 && Nat.eqb y 187 && Nat.eqb z 191).

(** The code points [trim] removes, as numbers. *)
Definition white_space : list N :=
  [9; 10; 11; 12; 13; 32; 160; 5760; 8192; 8193; 8194; 8195; 8196; 8197;
   8198; 8199; 8200; 8201; 8202; 8232; 8233; 8239; 8287; 12288; 65279]%N.

(** U+00A0, the no-break space, as its two bytes. *)
Definition nbsp : string :=
  String (ascii_of_nat 194) (String (ascii_of_nat 160) EmptyString).

(** One white space character taken from the front of [s]: what follows
    it, or nothing when [s] does not start with white space. *)
Definition strip_space (s : string) : option string :=
  match s with
  | String a r1 =>
      if is_space a then Some r1 else
      match r1 with
      | String b r2 =>
          if is_space2 a b then Some r2 else
          match r2 with
          | String c r3 => if is_space3 a b c then Some r3 else None
          | EmptyString => None
          end
      | EmptyString => None
      end
  | EmptyString => None
  end.

(** [s] is one white space character. *)
Definition is_space_char (s : string) : bool :=
  match strip_space s with
  | Some EmptyString => true
  | _ => false
  end.

Fixpoint trim_start (s : string) : string :=
  match s with
  | String a r1 =>
      if is_space a then trim_start r1 else
      match r1 with
      | String b r2 =>
          if is_space2 a b then trim_start r2 else
          match r2 with
          | String c r3 => if is_space3 a b c then trim_start r3 else s
          | EmptyString => s
          end
      | EmptyString => s
      end
  | EmptyString => EmptyString
  end.

(** [trim_end] removes the trailing white space: a byte is dropped when
    everything from it to the end of the string is white space, that is
    when it and the bytes kept after it are one white space character. *)
Fixpoint trim_end (s : string) : string :=
  match s with
  | String c rest =>
      let kept := String c (trim_end rest) in
      if is_space_char kept then EmptyString else kept
  | EmptyString => EmptyString
  end.

(** [s.trim()] *)
Definition trim (s : string) : string := trim_end (trim_start s).

(** The string holds white space only (or nothing). *)
Fixpoint all_space (s : string) : bool :=
  match s with
  | String a r1 =>
      if is_space a then all_space r1 else
      match r1 with
      | String b r2 =>
          if is_space2 a b then all_space r2 else
          match r2 with
          | String c r3 => is_space3 a b c && all_space r3
          | EmptyString => false
          end
      | EmptyString => false
      end
  | EmptyString => true
  end.

(** Truthiness of a string: [!s] holds exactly of the empty string. *)
Definition is_empty (s : string) : bool :=
  match s with EmptyString => true | String _ _ => false end.

(** [s.includes(p)] *)
Fixpoint includes (p s : string) : bool :=
  String.prefix p s ||
  match s with
  | String _ rest => includes p rest
  | EmptyString => false
  end.

(** Decimal rendering of an integer, as in a template literal or in
    [JSON.stringify]. *)
Definition of_Z (z : Z) : string := NilZero.string_of_int (Z.to_int z).

End Str.

(* ===================================================================== *)
(** ** JSON values, [JSON.parse] and [JSON.stringify] *)
(* ===================================================================== *)

Module JSON.

(** A JSON value. A number keeps its exact decimal value
    [m * 10 ^ e]; the rounding to a double is outside the model. The
    members of an object are kept in the order of the text. *)
Inductive json : Type :=
| JNull
| JBool (b : bool)
| JNum (m e : Z)
| JStr (s : string)
| JArr (items : list json)
| JObj (members : list (string * json)).

Definition is_ws (c : ascii) : bool :=
  let n := Str.code c in
  Nat.eqb n 32 || Nat.eqb n 9 || Nat.eqb n 10 || Nat.eqb n 13.

Fixpoint skip_ws (s : string) : string :=
  match s with
  | String c rest => if is_ws c then skip_ws rest else s
  | EmptyString => EmptyString
  end.

Definition is_digit (c : ascii) : bool :=
  let n := Str.code c in Nat.leb 48 n && Nat.leb n 57.

Definition digit_val (c : ascii) : Z := Z.of_nat (Str.code c) - 48.

Definition hex_val (c : ascii) : option nat :=
  let n := Str.code c in
  if Nat.leb 48 n && Nat.leb n 57 then Some (n - 48)%nat
  else if Nat.leb 65 n && Nat.leb n 70 then Some (n - 55)%nat
  else if Nat.leb 97 n && Nat.leb n 102 then Some (n - 87)%nat
  else None.

(** UTF-8 bytes of a code unit below [0x10000] (the strings of the model
    are byte strings). *)
Definition utf8 (u : nat) : string :=
  if Nat.ltb u 128 then String (ascii_of_nat u) EmptyString
  else if Nat.ltb u 2048 then
    String (ascii_of_nat (192 + u / 64)%nat)
      (String (ascii_of_nat (128 + u mod 64)%nat) EmptyString)
  else
    String (ascii_of_nat (224 + u / 4096)%nat)
      (String (ascii_of_nat (128 + (u / 64) mod 64)%nat)
         (String (ascii_of_nat (128 + u mod 64)%nat) EmptyString)).

(** The simple escapes: the character after a backslash and what it
    stands for. *)
Definition unescape (c : ascii) : option ascii :=
  let n := Str.code c in
  if Nat.eqb n 34 then Some Str.dquote
  else if Nat.eqb n 92 then Some Str.backslash
  else if Nat.eqb n 47 then Some (ascii_of_nat 47)
  else if Nat.eqb n 98 then Some (ascii_of_nat 8)
  else if Nat.eqb n 102 then Some (ascii_of_nat 12)
  else if Nat.eqb n 110 then Some (ascii_of_nat 10)
  else if Nat.eqb n 114 then Some (ascii_of_nat 13)
  else if Nat.eqb n 116 then Some (ascii_of_nat 9)
  else None.

(** The characters of a string literal, after its opening quote: the
    decoded string and the input left after the closing quote. *)
Fixpoint parse_chars (s : string) : option (string * string) :=
  match s with
  | EmptyString => None
  | String c rest =>
      if Nat.eqb (Str.code c) 34 then Some (EmptyString, rest)
      else if Nat.eqb (Str.code c) 92 then
        match rest with
        | String e rest1 =>
            if Nat.eqb (Str.code e) 117 then
              match rest1 with
              | String h1 (String h2 (String h3 (String h4 rest2))) =>
                  match hex_val h1, hex_val h2, hex_val h3, hex_val h4 with
                  | Some a, Some b, Some c', Some d =>
                      match parse_chars rest2 with
                      | Some (str, out) =>
                          Some ((utf8 (((a * 16 + b) * 16 + c') * 16 + d)%nat ++ str)%string, out)
                      | None => None
                      end
                  | _, _, _, _ => None
                  end
              | _ => None
              end
            else
              match unescape e with
              | Some c' =>
                  match parse_chars rest1 with
                  | Some (str, out) => Some (String c' str, out)
                  | None => None
                  end
              | None => None
              end
        | EmptyString => None
        end
      else if Nat.ltb (Str.code c) 32 then None
      else
        match parse_chars rest with
        | Some (str, out) => Some (String c str, out)
        | None => None
        end
  end.

(** A run of digits: its value continued from [acc], how many digits it
    has, and the input left. *)
Fixpoint digits (acc : Z) (s : string) : Z * nat * string :=
  match s with
  | String c rest =>
      if is_digit c then
        let '(v, n, out) := digits (acc * 10 + digit_val c) rest in (v, S n, out)
      else (acc, O, s)
  | EmptyString => (acc, O, s)
  end.

(** [int frac? exp?] after the optional sign. *)
Definition parse_unsigned (s : string) : option (Z * Z * string) :=
  match s with
  | String c rest =>
      if negb (is_digit c) then None
      else
        let '(ip, after_int) :=
          if Nat.eqb (Str.code c) 48 then (0, rest)
          else let '(v, _, out) := digits 0 s in (v, out) in
        let frac :=
          match after_int with
          | String dot rest1 =>
              if Nat.eqb (Str.code dot) 46 then
                let '(v, n, out) := digits ip rest1 in
                if Nat.eqb n 0 then None else Some (v, - Z.of_nat n, out)
              else Some (ip, 0, after_int)
          | EmptyString => Some (ip, 0, after_int)
          end in
        match frac with
        | None => None
        | Some (m, e, after_frac) =>
            match after_frac with
            | String ex rest2 =>
                if Nat.eqb (Str.code ex) 101 || Nat.eqb (Str.code ex) 69 then
                  let '(neg, rest3) :=
                    match rest2 with
                    | String sg r =>
                        if Nat.eqb (Str.code sg) 45 then (true, r)
                        else if Nat.eqb (Str.code sg) 43 then (false, r)
                        else (false, rest2)
                    | EmptyString => (false, rest2)
                    end in
                  let '(v, n, out) := digits 0 rest3 in
                  if Nat.eqb n 0 then None
                  else Some (m, e + (if neg then - v else v), out)
                else Some (m, e, after_frac)
            | EmptyString => Some (m, e, after_frac)
            end
        end
  | EmptyString => None
  end.

Definition parse_number (s : string) : option (json * string) :=
  match s with
  | String c rest =>
      if Nat.eqb (Str.code c) 45 then
        match parse_unsigned rest with
        | Some (m, e, out) => Some (JNum (- m) e, out)
        | None => None
        end
      else
        match parse_unsigned s with
        | Some (m, e, out) => Some (JNum m e, out)
        | None => None
        end
  | EmptyString => None
  end.

(** [strip p s]: [s] without its prefix [p], when it has it. *)
Fixpoint strip (p s : string) : option string :=
  match p, s with
  | EmptyString, _ => Some s
  | String a p', String b s' => if Ascii.eqb a b then strip p' s' else None
  | String _ _, EmptyString => None
  end.

(** Recursive descent over the JSON grammar. [fuel] bounds the number of
    nested calls; [parse] below supplies more than any input can use. *)
Fixpoint parse_value (fuel : nat) (s : string) : option (json * string) :=
  match fuel with
  | O => None
  | S fuel =>
      match skip_ws s with
      | EmptyString => None
      | String c rest as s0 =>
          let n := Str.code c in
          if Nat.eqb n 123 then
            match skip_ws rest with
            | String c1 rest1 as body =>
                if Nat.eqb (Str.code c1) 125 then Some (JObj [], rest1)
                else
                  match parse_members fuel body with
                  | Some (ms, out) => Some (JObj ms, out)
                  | None => None
                  end
            | EmptyString => None
            end
          else if Nat.eqb n 91 then
            match skip_ws rest with
            | String c1 rest1 as body =>
                if Nat.eqb (Str.code c1) 93 then Some (JArr [], rest1)
                else
                  match parse_elements fuel body with
                  | Some (vs, out) => Some (JArr vs, out)
                  | None => None
                  end
            | EmptyString => None
            end
          else if Nat.eqb n 34 then
            match parse_chars rest with
            | Some (str, out) => Some (JStr str, out)
            | None => None
            end
          else if Nat.eqb n 116 then
            match strip "true" s0 with Some out => Some (JBool true, out) | None => None end
          else if Nat.eqb n 102 then
            match strip "false" s0 with Some out => Some (JBool false, out) | None => None end
          else if Nat.eqb n 110 then
            match strip "null" s0 with Some out => Some (JNull, out) | None => None end
          else parse_number s0
      end
  end
with parse_elements (fuel : nat) (s : string) : option (list json * string) :=
  match fuel with
  | O => None
  | S fuel =>
      match parse_value fuel s with
      | Some (v, rest) =>
          match skip_ws rest with
          | String c rest1 =>
              if Nat.eqb (Str.code c) 44 then
                match parse_elements fuel rest1 with
                | Some (vs, out) => Some (v :: vs, out)
                | None => None
                end
              else if Nat.eqb (Str.code c) 93 then Some ([v], rest1)
              else None
          | EmptyString => None
          end
      | None => None
      end
  end
with parse_members (fuel : nat) (s : string)
  : option (list (string * json) * string) :=
  match fuel with
  | O => None
  | S fuel =>
      match skip_ws s with
      | String q rest =>
          if Nat.eqb (Str.code q) 34 then
            match parse_chars rest with
            | Some (key, after_key) =>
                match skip_ws after_key with
                | String colon rest1 =>
                    if Nat.eqb (Str.code colon) 58 then
                      match parse_value fuel rest1 with
                      | Some (v, rest2) =>
                          match skip_ws rest2 with
                          | String c rest3 =>
                              if Nat.eqb (Str.code c) 44 then
                                match parse_members fuel rest3 with
                                | Some (ms, out) => Some ((key, v) :: ms, out)
                                | None => None
                                end
                              else if Nat.eqb (Str.code c) 125 then
                                Some ([(key, v)], rest3)
                              else None
                          | EmptyString => None
                          end
                      | None => None
                      end
                    else None
                | EmptyString => None
                end
            | None => None
            end
          else None
      | EmptyString => None
      end
  end.

(** [JSON.parse(text)]: [None] stands for the [SyntaxError] it throws.
    The whole text must be one value, white space around it apart. *)
Definition parse (text : string) : option json :=
  match parse_value (2 * String.length text + 2)%nat text with
  | Some (v, rest) =>
      match skip_ws rest with
      | EmptyString => Some v
      | String _ _ => None
      end
  | None => None
  end.

(** [QuoteJSONString]: the string between double quotes, with the quote,
    the backslash and the control characters escaped. *)
Definition hex_digit (n : nat) : ascii :=
  if Nat.ltb n 10 then ascii_of_nat (48 + n)%nat else ascii_of_nat (87 + n)%nat.

Fixpoint escape (s : string) : string :=
  match s with
  | EmptyString => EmptyString
  | String c rest =>
      let n := Str.code c in
      let two (e : nat) := String Str.backslash (String (ascii_of_nat e) (escape rest)) in
      if Nat.eqb n 34 then two 34%nat
      else if Nat.eqb n 92 then two 92%nat
      else if Nat.eqb n 8 then two 98%nat
      else if Nat.eqb n 9 then two 116%nat
      else if Nat.eqb n 10 then two 110%nat
      else if Nat.eqb n 12 then two 102%nat
      else if Nat.eqb n 13 then two 114%nat
      else if Nat.ltb n 32 then
        String Str.backslash
          (String "u" (String "0" (String "0"
             (String (hex_digit (n / 16)%nat) (String (hex_digit (n mod 16)%nat) (escape rest))))))
      else String c (escape rest)
  end.

Definition quote (s : string) : string :=
  String Str.dquote (escape s ++ String Str.dquote EmptyString)%string.

(** The text holds JSON white space only (or nothing). *)
Fixpoint all_ws (s : string) : bool :=
  match s with
  | String c rest => is_ws c && all_ws rest
  | EmptyString => true
  end.

(** The value a run of decimal digits stands for, continued from [acc]. *)
Fixpoint uint_value (acc : Z) (d : Decimal.uint) : Z :=
  match d with
  | Decimal.Nil => acc
  | Decimal.D0 d => uint_value (acc * 10) d
  | Decimal.D1 d => uint_value (acc * 10 + 1) d
  | Decimal.D2 d => uint_value (acc * 10 + 2) d
  | Decimal.D3 d => uint_value (acc * 10 + 3) d
  | Decimal.D4 d => uint_value (acc * 10 + 4) d
  | Decimal.D5 d => uint_value (acc * 10 + 5) d
  | Decimal.D6 d => uint_value (acc * 10 + 6) d
  | Decimal.D7 d => uint_value (acc * 10 + 7) d
  | Decimal.D8 d => uint_value (acc * 10 + 8) d
  | Decimal.D9 d => uint_value (acc * 10 + 9) d
  end.

(** What may follow a number in a text: nothing, or a character that
    cannot continue it. *)
Definition ends_number (rest : string) : bool :=
  match rest with
  | EmptyString => true
  | String c _ =>
      let n := Str.code c in
      negb (is_digit c || Nat.eqb n 46 || Nat.eqb n 101 || Nat.eqb n 69)
  end.

(** Every character of the string has a code of 32 or more. *)
Fixpoint printable (s : string) : bool :=
  match s with
  | EmptyString => true
  | String c rest => Nat.leb 32 (Str.code c) && printable rest
  end.

End JSON.

(* ===================================================================== *)
(** ** The main process: [src/electron-main.js] *)
(* ===================================================================== *)

Module Main.
Import JSON.

(** The command objects the handlers build. *)
Inductive Command : Type :=
| CmdScan (source output : string) (threshold : Z)
| CmdCancel
| CmdQuit.

Definition member (key value : string) : string :=
  (quote key ++ ":" ++ value)%string.

(** [JSON.stringify(cmd)] on the three command objects, members in the
    order of the object literal. *)
Definition stringify (cmd : Command) : string :=
  match cmd with
  | CmdScan source output threshold =>
      ("{" ++ member "cmd" (quote "scan") ++ "," ++ member "source" (quote source)
         ++ "," ++ member "output" (quote output)
         ++ "," ++ member "threshold" (Str.of_Z threshold) ++ "}")%string
  | CmdCancel => ("{" ++ member "cmd" (quote "cancel") ++ "}")%string
  | CmdQuit => ("{" ++ member "cmd" (quote "quit") ++ "}")%string
  end.

Definition newline : string := String (ascii_of_nat 10) EmptyString.

(** One line of the wire protocol: [JSON.stringify(cmd) + newline]. *)
Definition encode (cmd : Command) : string := (stringify cmd ++ newline)%string.

(** A child process object, as far as the script touches it. The objects
    live in a table indexed by their order of creation; the variable
    [pythonProcess] holds an index into it, so that the script's variable
    and the runtime's event sources share one object. *)
Record ChildProcess : Type := mkChild {
  stdin_writable : bool;        (* [stdin.writable] *)
  stdin_data : list string;     (* chunks accepted by [stdin.write], oldest first *)
  kills : nat;                  (* calls of [kill()] *)
  closed : bool                 (* the [close] event has been emitted *)
}.

(** A child is named by its position in the table. *)
Abbreviation pid := nat (only parsing).

Record BrowserWindow : Type := mkWindow {
  isDestroyed : bool
}.

Record state : Type := mkState {
  mainWindow : option BrowserWindow;   (* [let mainWindow], unset or null is [None] *)
  pythonProcess : option pid;          (* [let pythonProcess = null] *)
  children : list ChildProcess;        (* every child spawned so far *)
  timers : list Z;                     (* deadlines (ms) of the pending [setTimeout] callbacks *)
  now : Z;                             (* the clock, in ms *)
  sent : list json;                    (* messages given to [webContents.send] on [backend-event] *)
  quitting : bool                      (* [app.quit()] has been called *)
}.

Definition set_mainWindow (w : option BrowserWindow) (st : state) : state :=
  mkState w (pythonProcess st) (children st) (timers st) (now st) (sent st) (quitting st).
Definition set_pythonProcess (p : option pid) (st : state) : state :=
  mkState (mainWindow st) p (children st) (timers st) (now st) (sent st) (quitting st).
Definition set_children (cs : list ChildProcess) (st : state) : state :=
  mkState (mainWindow st) (pythonProcess st) cs (timers st) (now st) (sent st) (quitting st).
Definition set_timers (ts : list Z) (st : state) : state :=
  mkState (mainWindow st) (pythonProcess st) (children st) ts (now st) (sent st) (quitting st).
Definition set_now (t : Z) (st : state) : state :=
  mkState (mainWindow st) (pythonProcess st) (children st) (timers st) t (sent st) (quitting st).
Definition set_sent (ms : list json) (st : state) : state :=
  mkState (mainWindow st) (pythonProcess st) (children st) (timers st) (now st) ms (quitting st).
Definition set_quitting (b : bool) (st : state) : state :=
  mkState (mainWindow st) (pythonProcess st) (children st) (timers st) (now st) (sent st) b.

(** The state when the script has been loaded and no window exists. *)
Definition initial : state := mkState None None [] [] 0 [] false.

(** *** Operations of the runtime on a child *)

(** [spawn(cmd, args, {stdio: pipe})]: a new child with an open stdin.
    A missing executable is not seen here; it shows later, on the
    streams. *)
Definition fresh_child : ChildProcess := mkChild true [] 0 false.

Definition update_child (p : pid) (f : ChildProcess -> ChildProcess) (st : state) : state :=
  match children st !! p with
  | Some c => set_children (<[p := f c]> (children st)) st
  | None => st
  end.

Definition accept_chunk (data : string) (c : ChildProcess) : ChildProcess :=
  mkChild (stdin_writable c) (stdin_data c ++ [data]) (kills c) (closed c).

(** [stdin.write(data)]: [None] is a write that fails, on a stream that
    is not writable. *)
Definition stdin_write (data : string) (c : ChildProcess) : option ChildProcess :=
  if stdin_writable c then Some (accept_chunk data c) else None.

(** [child.kill()] *)
Definition kill (c : ChildProcess) : ChildProcess :=
  mkChild (stdin_writable c) (stdin_data c) (S (kills c)) (closed c).

(** *** The script *)

(** [mainWindow && !mainWindow.isDestroyed()] *)
Definition window_live (st : state) : bool :=
  match mainWindow st with
  | Some w => negb (isDestroyed w)
  | None => false
  end.

(** [mainWindow.webContents.send("backend-event", msg)] *)
Definition webContents_send (msg : json) (st : state) : state :=
  set_sent (sent st ++ [msg]) st.

(** [createWindow()] *)
Definition createWindow (st : state) : state :=
  set_mainWindow (Some (mkWindow false)) st.

(** [findPython()]: the first of the candidate names, not checked. *)
Definition findPython : string := hd "python" ["python"; "python3"; "py"].

(** [spawnPython()]: the three listeners it registers are [rl_on_line],
    [stderr_on_data] and [on_close] below; they reach the state through
    the global variables only. *)
Definition spawnPython (st : state) : state :=
  match pythonProcess st with
  | Some _ => st
  | None =>
      set_pythonProcess (Some (length (children st)))
        (set_children (children st ++ [fresh_child]) st)
  end.

(** [rl.on("line", ...)] *)
Definition rl_on_line (line : string) (st : state) : state :=
  match parse line with
  | Some msg => if window_live st then webContents_send msg st else st
  | None => st                       (* catch (e): ignore non-JSON output *)
  end.

Definition error_event (message : string) : json :=
  JObj [("event", JStr "error"); ("message", JStr message)].

(** [pythonProcess.stderr.on("data", ...)] *)
Definition stderr_on_data (data : string) (st : state) : state :=
  let errMsg := Str.trim data in
  if negb (Str.is_empty errMsg) && window_live st
  then webContents_send (error_event errMsg) st
  else st.

(** The exit code of a child: a number, or [null] when a signal ended it. *)
Definition code_value (code : option Z) : json :=
  match code with
  | Some n => JNum n 0
  | None => JNull
  end.

Definition process_exit_event (code : option Z) : json :=
  JObj [("event", JStr "process-exit"); ("code", code_value code)].

(** [pythonProcess.on("close", ...)] *)
Definition on_close (code : option Z) (st : state) : state :=
  let st := set_pythonProcess None st in
  if window_live st then webContents_send (process_exit_event code) st else st.

(** [sendToPython(cmd)] *)
Definition sendToPython (cmd : Command) (st : state) : state :=
  let st := match pythonProcess st with
            | None => spawnPython st
            | Some _ => st
            end in
  match pythonProcess st with
  | Some p =>
      match children st !! p with
      | Some c =>
          if stdin_writable c
          then update_child p (accept_chunk (encode cmd)) st
          else st
      | None => st
      end
  | None => st
  end.

(** The callback [killPython] hands to [setTimeout]. *)
Definition kill_timeout (st : state) : state :=
  match pythonProcess st with
  | Some p => set_pythonProcess None (update_child p kill st)
  | None => st
  end.

Definition grace_ms : Z := 1000.

(** [killPython()] *)
Definition killPython (st : state) : state :=
  match pythonProcess st with
  | Some p =>
      let st :=
        match children st !! p with
        | Some c =>
            match stdin_write (encode CmdQuit) c with
            | Some c' => set_children (<[p := c']> (children st)) st
            | None => st             (* catch (e): ignore *)
            end
        | None => st
        end in
      set_timers (timers st ++ [now st + grace_ms]) st
  | None => st
  end.

(** [ipcMain.handle("start-scan", ...)]: the new state and the value the
    handler returns. *)
Definition start_scan (source output : string) (threshold : Z) (st : state)
  : state * bool :=
  let st := spawnPython st in
  let st := sendToPython (CmdScan source output threshold) st in
  (st, true).

(** [ipcMain.handle("cancel-scan", ...)] *)
Definition cancel_scan (st : state) : state * bool :=
  let st := sendToPython CmdCancel st in
  (st, true).

(** [mainWindow.on("closed", ...)] *)
Definition on_window_closed (st : state) : state :=
  killPython (set_mainWindow None st).

(** [app.on("window-all-closed", ...)] *)
Definition on_window_all_closed (st : state) : state :=
  set_quitting true (killPython st).

(** [app.on("activate", ...)]: [windows] is the number of open windows. *)
Definition on_activate (windows : nat) (st : state) : state :=
  if Nat.eqb windows 0 then createWindow st else st.

(** *** The runtime around the script *)

(** The window is destroyed; its [closed] event follows. *)
Definition destroy_window (st : state) : state :=
  match mainWindow st with
  | Some _ => set_mainWindow (Some (mkWindow true)) st
  | None => st
  end.

(** The reference [pythonProcess], when set, names a child of the table
    that has not closed. *)
Definition worker_open (st : state) : Prop :=
  forall p, pythonProcess st = Some p ->
    exists c, children st !! p = Some c /\ closed c = false.

(** The timers that are due fire in the order they were set; all are set
    with the same delay, so this is the order of their deadlines. *)
Definition due (t : Z) (deadline : Z) : bool := deadline <=? t.

Definition run_timers (st : state) : state :=
  let ready := List.filter (due (now st)) (timers st) in
  let later := List.filter (fun d => negb (due (now st) d)) (timers st) in
  fold_left (fun s _ => kill_timeout s) ready (set_timers later st).

(** What reaches the main process. A child emits on its streams and
    closes only while it is open, and closes once: the runtime emits
    [close] after the process has ended and its streams have closed.
    IPC calls and events of the window and the application follow. *)
Inductive input : Type :=
| StdoutLine (p : pid) (line : string)
| StderrData (p : pid) (data : string)
| Close (p : pid) (code : option Z)
| StdinBroken (p : pid)
| Elapse (dt : Z)
| IpcStartScan (source output : string) (threshold : Z)
| IpcCancelScan
| Ready
| Activate (windows : nat)
| WindowDestroyed
| WindowClosed
| WindowAllClosed.

Definition is_open (p : pid) (st : state) : bool :=
  match children st !! p with
  | Some c => negb (closed c)
  | None => false
  end.

(** Child [p] exists and has emitted [close]. *)
Definition has_closed (p : pid) (st : state) : bool :=
  match children st !! p with
  | Some c => closed c
  | None => false
  end.

(** An operation on a child that never reopens it. *)
Definition keeps_closed (f : ChildProcess -> ChildProcess) : Prop :=
  forall c, closed c = true -> closed (f c) = true.

Definition mark_closed (c : ChildProcess) : ChildProcess :=
  mkChild false (stdin_data c) (kills c) true.

Definition break_stdin (c : ChildProcess) : ChildProcess :=
  mkChild false (stdin_data c) (kills c) (closed c).

Definition step (i : input) (st : state) : state :=
  match i with
  | StdoutLine p line => if is_open p st then rl_on_line line st else st
  | StderrData p data => if is_open p st then stderr_on_data data st else st
  | Close p code => if is_open p st then on_close code (update_child p mark_closed st) else st
  | StdinBroken p => update_child p break_stdin st
  | Elapse dt => run_timers (set_now (now st + Z.max 0 dt) st)
  | IpcStartScan source output threshold => fst (start_scan source output threshold st)
  | IpcCancelScan => fst (cancel_scan st)
  | Ready => createWindow st
  | Activate windows => on_activate windows st
  | WindowDestroyed => destroy_window st
  | WindowClosed => on_window_closed st
  | WindowAllClosed => on_window_all_closed st
  end.

Definition run (inputs : list input) (st : state) : state :=
  fold_left (fun s i => step i s) inputs st.

(** The stdout of child [p] delivering [lines], in order. *)
Definition stdout_lines (p : pid) (lines : list string) (st : state) : state :=
  run (map (StdoutLine p) lines) st.

(** The messages a sequence of lines decodes to: those of the lines that
    parse, in order. *)
Definition decoded (lines : list string) : list json := omap parse lines.

(** Several commands sent one after the other. *)
Definition send_all (cmds : list Command) (st : state) : state :=
  fold_left (fun s cmd => sendToPython cmd s) cmds st.

(** The inputs that create a window. *)
Definition opens_window (i : input) : bool :=
  match i with
  | Ready => true
  | Activate windows => Nat.eqb windows 0
  | _ => false
  end.

(** Every pending deadline lies ahead, by the grace period at most. *)
Definition timers_in_grace (st : state) : Prop :=
  Forall (fun d => now st < d <= now st + grace_ms) (timers st).

(** Every child has been killed once at most, and the child that
    [pythonProcess] names exists, has not closed and has not been killed. *)
Definition lifecycle_ok (st : state) : Prop :=
  (forall p, pythonProcess st = Some p -> is_Some (children st !! p))
  /\ (forall p c, children st !! p = Some c ->
        (kills c <= 1)%nat
        /\ (pythonProcess st = Some p -> closed c = false /\ kills c = 0%nat)).

(** The object a handler passes to [JSON.stringify]: the object literal
    of the command, as a JSON value. *)
Definition command_object (cmd : Command) : json :=
  match cmd with
  | CmdScan source output threshold =>
      JObj [("cmd", JStr "scan"); ("source", JStr source);
            ("output", JStr output); ("threshold", JNum threshold 0)]
  | CmdCancel => JObj [("cmd", JStr "cancel")]
  | CmdQuit => JObj [("cmd", JStr "quit")]
  end.

(** A state with a window and a worker that has been sent one scan. *)
Definition scanning : state :=
  fst (start_scan "/a" "/b" 15 (createWindow initial)).

End Main.

(* ===================================================================== *)
(** ** The page the renderer scripts act on *)
(* ===================================================================== *)

Module Dom.

(** [el.classList] *)
Definition contains (c : string) (l : list string) : bool :=
  existsb (String.eqb c) l.
Definition add (c : string) (l : list string) : list string :=
  if contains c l then l else l ++ [c].
Definition remove (c : string) (l : list string) : list string :=
  List.filter (fun x => negb (String.eqb c x)) l.
Definition toggle (c : string) (force : bool) (l : list string) : list string :=
  if force then add c l else remove c l.

(** A child of the log container: the notice [clearLog] puts there, or a
    line appended by [addLog] (its time stamp is left out: the clock of
    the page is not modelled). *)
Inductive LogNode : Type :=
| Notice (className text : string)
| Line (className message : string).

(** The [disabled] property of the form controls. *)
Record Controls : Type := mkControls {
  btnStart_disabled : bool;
  btnCancel_disabled : bool;
  sourcePath_disabled : bool;
  outputPath_disabled : bool;
  btnSource_disabled : bool;
  btnOutput_disabled : bool;
  thresholdSlider_disabled : bool
}.

(** The variables of a renderer script and the part of the document it
    reads or writes. A width is [None] until a script sets it, and then
    the number of percent it was set to (an exact rational: the script
    computes it in doubles). *)
Record state : Type := mkState {
  sourcePath_value : string;                (* [sourcePath.value] *)
  outputPath_value : string;                (* [outputPath.value] *)
  thresholdSlider_value : Z;                (* [parseInt(thresholdSlider.value)] *)
  isScanning : bool;                        (* [let isScanning] *)
  logStarted : bool;                        (* [let logStarted] *)
  controls : Controls;                      (* the [disabled] flags *)
  statusText : string;                      (* [statusText.textContent] *)
  progressBar_width : option Q;             (* [progressBar.style.width], in percent *)
  progressGlow_width : option Q;            (* [progressGlow.style.width], in percent *)
  progressCount : string;                   (* [progressCount.textContent] *)
  progressSection : list string;            (* [progressSection.classList] *)
  logContainer : list LogNode;              (* the children of [logContainer] *)
  summaryBanner : list string;              (* [summaryBanner.classList] *)
  summaryText : string;                     (* [summaryText.textContent] *)
  shaken : list string                      (* ids of the fields [shake] was called on *)
}.

Definition set_sourcePath_value (v : string) (st : state) : state :=
  mkState v (outputPath_value st) (thresholdSlider_value st) (isScanning st) (logStarted st) (controls st) (statusText st) (progressBar_width st) (progressGlow_width st) (progressCount st) (progressSection st) (logContainer st) (summaryBanner st) (summaryText st) (shaken st).
Definition set_outputPath_value (v : string) (st : state) : state :=
  mkState (sourcePath_value st) v (thresholdSlider_value st) (isScanning st) (logStarted st) (controls st) (statusText st) (progressBar_width st) (progressGlow_width st) (progressCount st) (progressSection st) (logContainer st) (summaryBanner st) (summaryText st) (shaken st).
Definition set_thresholdSlider_value (v : Z) (st : state) : state :=
  mkState (sourcePath_value st) (outputPath_value st) v (isScanning st) (logStarted st) (controls st) (statusText st) (progressBar_width st) (progressGlow_width st) (progressCount st) (progressSection st) (logContainer st) (summaryBanner st) (summaryText st) (shaken st).
Definition set_isScanning (v : bool) (st : state) : state :=
  mkState (sourcePath_value st) (outputPath_value st) (thresholdSlider_value st) v (logStarted st) (controls st) (statusText st) (progressBar_width st) (progressGlow_width st) (progressCount st) (progressSection st) (logContainer st) (summaryBanner st) (summaryText st) (shaken st).
Definition set_logStarted (v : bool) (st : state) : state :=
  mkState (sourcePath_value st) (outputPath_value st) (thresholdSlider_value st) (isScanning st) v (controls st) (statusText st) (progressBar_width st) (progressGlow_width st) (progressCount st) (progressSection st) (logContainer st) (summaryBanner st) (summaryText st) (shaken st).
Definition set_controls (v : Controls) (st : state) : state :=
  mkState (sourcePath_value st) (outputPath_value st) (thresholdSlider_value st) (isScanning st) (logStarted st) v (statusText st) (progressBar_width st) (progressGlow_width st) (progressCount st) (progressSection st) (logContainer st) (summaryBanner st) (summaryText st) (shaken st).
Definition set_statusText (v : string) (st : state) : state :=
  mkState (sourcePath_value st) (outputPath_value st) (thresholdSlider_value st) (isScanning st) (logStarted st) (controls st) v (progressBar_width st) (progressGlow_width st) (progressCount st) (progressSection st) (logContainer st) (summaryBanner st) (summaryText st) (shaken st).
Definition set_progressBar_width (v : option Q) (st : state) : state :=
  mkState (sourcePath_value st) (outputPath_value st) (thresholdSlider_value st) (isScanning st) (logStarted st) (controls st) (statusText st) v (progressGlow_width st) (progressCount st) (progressSection st) (logContainer st) (summaryBanner st) (summaryText st) (shaken st).
Definition set_progressGlow_width (v : option Q) (st : state) : state :=
  mkState (sourcePath_value st) (outputPath_value st) (thresholdSlider_value st) (isScanning st) (logStarted st) (controls st) (statusText st) (progressBar_width st) v (progressCount st) (progressSection st) (logContainer st) (summaryBanner st) (summaryText st) (shaken st).
Definition set_progressCount (v : string) (st : state) : state :=
  mkState (sourcePath_value st) (outputPath_value st) (thresholdSlider_value st) (isScanning st) (logStarted st) (controls st) (statusText st) (progressBar_width st) (progressGlow_width st) v (progressSection st) (logContainer st) (summaryBanner st) (summaryText st) (shaken st).
Definition set_progressSection (v : list string) (st : state) : state :=
  mkState (sourcePath_value st) (outputPath_value st) (thresholdSlider_value st) (isScanning st) (logStarted st) (controls st) (statusText st) (progressBar_width st) (progressGlow_width st) (progressCount st) v (logContainer st) (summaryBanner st) (summaryText st) (shaken st).
Definition set_logContainer (v : list LogNode) (st : state) : state :=
  mkState (sourcePath_value st) (outputPath_value st) (thresholdSlider_value st) (isScanning st) (logStarted st) (controls st) (statusText st) (progressBar_width st) (progressGlow_width st) (progressCount st) (progressSection st) v (summaryBanner st) (summaryText st) (shaken st).
Definition set_summaryBanner (v : list string) (st : state) : state :=
  mkState (sourcePath_value st) (outputPath_value st) (thresholdSlider_value st) (isScanning st) (logStarted st) (controls st) (statusText st) (progressBar_width st) (progressGlow_width st) (progressCount st) (progressSection st) (logContainer st) v (summaryText st) (shaken st).
Definition set_summaryText (v : string) (st : state) : state :=
  mkState (sourcePath_value st) (outputPath_value st) (thresholdSlider_value st) (isScanning st) (logStarted st) (controls st) (statusText st) (progressBar_width st) (progressGlow_width st) (progressCount st) (progressSection st) (logContainer st) (summaryBanner st) v (shaken st).
Definition set_shaken (v : list string) (st : state) : state :=
  mkState (sourcePath_value st) (outputPath_value st) (thresholdSlider_value st) (isScanning st) (logStarted st) (controls st) (statusText st) (progressBar_width st) (progressGlow_width st) (progressCount st) (progressSection st) (logContainer st) (summaryBanner st) (summaryText st) v.

(** What a script asks of the main process through [window.api]. *)
Inductive call : Type :=
| StartScan (source output : string) (threshold : Z)
| CancelScan.

(** A message of the [backend-event] channel, read as the [switch] of the
    callback reads it: by its [event] member, with the members the chosen
    case uses. [EvOther] is a message whose [event] matches no case. *)
Inductive Event : Type :=
| EvStatus (message : string)
| EvLog (message : string)
| EvProgress (current total : Z)
| EvComplete (summary : string) (errors : Z)
| EvCancelled
| EvError (message : string)
| EvProcessExit (code : option Z)
| EvOther.

(** What reaches the page: the user at the form, and messages of the main
    process. A control that is disabled takes no input and dispatches no
    click. *)
Inductive input : Type :=
| EditSource (text : string)
| EditOutput (text : string)
| BrowseSource (folder : option string)
| BrowseOutput (folder : option string)
| Slide (value : Z)
| ClickStart
| ClickCancel
| ClickClearLog
| Backend (data : Event).

(** The events that end a scan: [complete], [cancelled] and
    [process-exit]. *)
Definition terminal (e : Event) : bool :=
  match e with
  | EvComplete _ _ | EvCancelled | EvProcessExit _ => true
  | _ => false
  end.

Definition ends_scan (i : input) : bool :=
  match i with
  | Backend e => terminal e
  | _ => false
  end.


(** The form controls follow the scanning flag: while a scan runs, all
    are disabled but the cancel button; otherwise only that one is. *)
Definition controls_follow (st : state) : Prop :=
  controls st
  = mkControls (isScanning st) (negb (isScanning st)) (isScanning st)
      (isScanning st) (isScanning st) (isScanning st) (isScanning st).

(** What of the page decides the calls it makes: the form, the scanning
    flag and the controls. *)
Definition core (st : state) : string * string * Z * bool * Controls :=
  (sourcePath_value st, outputPath_value st, thresholdSlider_value st,
   isScanning st, controls st).

(** The message of a line of the log; the notice has none. *)
Definition node_message (n : LogNode) : option string :=
  match n with
  | Line _ message => Some message
  | Notice _ _ => None
  end.

(** The message an event adds to the log, when it is one of those that
    always do. *)
Definition logged (e : Event) : option string :=
  match e with
  | EvLog message | EvError message => Some message
  | _ => None
  end.

(** A page with an empty form and nothing disabled but the cancel
    button. The markup of the page is not among the sources; this state
    only serves as a concrete page to run the scripts on. *)
Definition blank : state :=
  mkState EmptyString EmptyString 15 false false
    (mkControls false true false false false false false)
    EmptyString None None EmptyString [] [] ["hidden"] EmptyString [].

(** The same page with two different folders entered. *)
Definition filled : state :=
  set_outputPath_value "/b" (set_sourcePath_value "/a" blank).

(** [(current / total) * 100] *)
Definition percent (current total : Z) : Q :=
  ((inject_Z current / inject_Z total) * 100)%Q.

(** [width !== "0%"]: a number prints as [0] exactly when it is zero. *)
Definition width_not_zero (w : option Q) : bool :=
  match w with
  | Some q => negb (Qeq_bool q 0)
  | None => true
  end.

End Dom.

(* ===================================================================== *)
(** ** The renderer script [src/renderer/renderer.js] *)
(* ===================================================================== *)

Module Renderer.
Import Dom.

(** [shake(el)]: the animation class is put on the element (and taken
    off by a timer half a second later); the model records the call. *)
Definition shake (el : string) (st : state) : state :=
  set_shaken (shaken st ++ [el]) st.

(** [setScanning(v)] *)
Definition setScanning (v : bool) (st : state) : state :=
  let st := set_isScanning v st in
  let st := set_controls (mkControls v (negb v) v v v v v) st in
  let st := set_progressSection
              (toggle "active" (v || width_not_zero (progressBar_width st))
                 (progressSection st)) st in
  set_progressSection (toggle "scanning" v (progressSection st)) st.

(** [setProgress(cur, total)] *)
Definition setProgress (cur total : Z) (st : state) : state :=
  let pct := if 0 <? total then percent cur total else 0%Q in
  let st := set_progressBar_width (Some pct) st in
  let st := set_progressCount
              (if 0 <? total
               then (Str.of_Z cur ++ " / " ++ Str.of_Z total)%string
               else EmptyString) st in
  set_progressSection (add "active" (progressSection st)) st.

(** The class [addLog] gives a message that comes without one. *)
Definition classify (msg : string) : string :=
  if Str.includes "Original (kept)" msg then "accent"
  else if Str.includes "Done!" msg then "success"
  else if Str.includes "Failed" msg || Str.includes "error" msg
          || Str.includes "Error" msg then "error"
  else EmptyString.

(** [addLog(msg, type)]; a missing [type] is the empty string. *)
Definition addLog (msg type : string) (st : state) : state :=
  let st := if logStarted st then st
            else set_logStarted true (set_logContainer [] st) in
  let type := if Str.is_empty type then classify msg else type in
  let className := if Str.is_empty type then "log-line"
                   else ("log-line " ++ type)%string in
  set_logContainer (logContainer st ++ [Line className msg]) st.

(** [clearLog()] *)
Definition clearLog (st : state) : state :=
  set_logStarted false
    (set_logContainer [Notice "log-empty" "No activity yet. Start a scan to begin."] st).

(** [btnSource.onclick], given what the folder dialog returns. *)
Definition btnSource_onclick (f : option string) (st : state) : state :=
  match f with
  | Some folder => if Str.is_empty folder then st else set_sourcePath_value folder st
  | None => st
  end.

(** [btnOutput.onclick] *)
Definition btnOutput_onclick (f : option string) (st : state) : state :=
  match f with
  | Some folder => if Str.is_empty folder then st else set_outputPath_value folder st
  | None => st
  end.

(** [btnStart.onclick]: the new page and the calls made on [window.api]. *)
Definition btnStart_onclick (st : state) : state * list call :=
  let source := Str.trim (sourcePath_value st) in
  let output := Str.trim (outputPath_value st) in
  if Str.is_empty source then (shake "source-path" st, [])
  else if Str.is_empty output then (shake "output-path" st, [])
  else if String.eqb source output then
    (addLog "Source and output folders cannot be the same." "error" st, [])
  else
    let st := setScanning true st in
    let st := clearLog st in
    let st := set_summaryBanner (add "hidden" (summaryBanner st)) st in
    let st := setProgress 0 0 st in
    (st, [StartScan source output (thresholdSlider_value st)]).

(** [btnCancel.onclick] *)
Definition btnCancel_onclick (st : state) : state * list call :=
  (set_statusText "Cancelling..." st, [CancelScan]).

(** The callback given to [window.api.onBackendEvent]. *)
Definition onBackendEvent (data : Event) (st : state) : state :=
  match data with
  | EvStatus message => set_statusText message st
  | EvLog message => addLog message EmptyString st
  | EvProgress current total => setProgress current total st
  | EvComplete summary errors =>
      let st := setScanning false st in
      let st := set_summaryBanner
                  (remove "has-errors" (remove "hidden" (summaryBanner st))) st in
      let st := if 0 <? errors
                then set_summaryBanner (add "has-errors" (summaryBanner st)) st
                else st in
      set_summaryText summary st
  | EvCancelled => setScanning false st
  | EvError message => addLog message "error" st
  | EvProcessExit _ =>
      if isScanning st then
        let st := setScanning false st in
        let st := addLog "Backend process exited unexpectedly." "error" st in
        set_statusText "Error" st
      else st
  | EvOther => st
  end.

(** One input at the page. *)
Definition step (i : input) (st : state) : state * list call :=
  match i with
  | EditSource text =>
      (if sourcePath_disabled (controls st) then st else set_sourcePath_value text st, [])
  | EditOutput text =>
      (if outputPath_disabled (controls st) then st else set_outputPath_value text st, [])
  | BrowseSource f =>
      (if btnSource_disabled (controls st) then st else btnSource_onclick f st, [])
  | BrowseOutput f =>
      (if btnOutput_disabled (controls st) then st else btnOutput_onclick f st, [])
  | Slide value =>
      (if thresholdSlider_disabled (controls st) then st
       else set_thresholdSlider_value value st, [])
  | ClickStart =>
      if btnStart_disabled (controls st) then (st, []) else btnStart_onclick st
  | ClickCancel =>
      if btnCancel_disabled (controls st) then (st, []) else btnCancel_onclick st
  | ClickClearLog => (clearLog st, [])
  | Backend data => (onBackendEvent data st, [])
  end.

(** The page after a start click on the filled form. *)
Definition scanning : state := fst (btnStart_onclick filled).

End Renderer.

(* ===================================================================== *)
(** ** The renderer script [src/unnamed/part_000] *)
(* ===================================================================== *)

Module Part000.
Import Dom.

(** [shakeElement(el)]: restarts the animation and marks the border (a
    timer clears the mark); the model records the call. *)
Definition shakeElement (el : string) (st : state) : state :=
  set_shaken (shaken st ++ [el]) st.

(** [setScanning(scanning)] *)
Definition setScanning (scanning : bool) (st : state) : state :=
  let st := set_isScanning scanning st in
  let st := set_controls
              (mkControls scanning (negb scanning) scanning scanning scanning
                 scanning scanning) st in
  if scanning
  then set_progressSection (add "scanning" (add "active" (progressSection st))) st
  else set_progressSection (remove "scanning" (progressSection st)) st.

(** [setProgress(current, total)] *)
Definition setProgress (current total : Z) (st : state) : state :=
  let pct := if 0 <? total then percent current total else 0%Q in
  let st := set_progressBar_width (Some pct) st in
  let st := set_progressGlow_width (Some pct) st in
  let st := set_progressCount
              (Str.of_Z current ++ " / " ++ Str.of_Z total)%string st in
  set_progressSection (add "active" (progressSection st)) st.

(** The class [addLog] gives a message that comes without one. *)
Definition classify (message : string) : string :=
  if Str.includes "Original (kept)" message then "highlight"
  else if Str.includes "Done!" message then "success"
  else if Str.includes "Failed" message || Str.includes "error" message
          || Str.includes "Error" message then "error"
  else EmptyString.

(** [addLog(message, type = "")] *)
Definition addLog (message type : string) (st : state) : state :=
  let st := if logStarted st then st
            else set_logStarted true (set_logContainer [] st) in
  let className := if Str.is_empty type then "log-entry"
                   else ("log-entry " ++ type)%string in
  let entryType := if Str.is_empty type then classify message else type in
  let className := if Str.is_empty entryType then className
                   else ("log-entry " ++ entryType)%string in
  set_logContainer (logContainer st ++ [Line className message]) st.

(** [clearLog()] *)
Definition clearLog (st : state) : state :=
  set_logStarted false
    (set_logContainer [Notice "log-placeholder" "Waiting for scan to start..."] st).

(** The click listener of [btnSource], given what the dialog returns. *)
Definition btnSource_click (folder : option string) (st : state) : state :=
  match folder with
  | Some f => if Str.is_empty f then st else set_sourcePath_value f st
  | None => st
  end.

(** The click listener of [btnOutput]. *)
Definition btnOutput_click (folder : option string) (st : state) : state :=
  match folder with
  | Some f => if Str.is_empty f then st else set_outputPath_value f st
  | None => st
  end.

(** The click listener of [btnStart]. *)
Definition btnStart_click (st : state) : state * list call :=
  let source := Str.trim (sourcePath_value st) in
  let output := Str.trim (outputPath_value st) in
  if Str.is_empty source then (shakeElement "source-path" st, [])
  else if Str.is_empty output then (shakeElement "output-path" st, [])
  else if String.eqb source output then
    (addLog "Source and output folders cannot be the same." "error" st, [])
  else
    let st := setScanning true st in
    let st := clearLog st in
    let st := set_summaryBanner (add "hidden" (summaryBanner st)) st in
    let st := setProgress 0 0 st in
    (st, [StartScan source output (thresholdSlider_value st)]).

(** The click listener of [btnCancel]. *)
Definition btnCancel_click (st : state) : state * list call :=
  (set_statusText "Cancelling..." st, [CancelScan]).

(** The callback given to [window.api.onBackendEvent]. *)
Definition onBackendEvent (data : Event) (st : state) : state :=
  match data with
  | EvStatus message => set_statusText message st
  | EvLog message => addLog message EmptyString st
  | EvProgress current total => setProgress current total st
  | EvComplete summary errors =>
      let st := setScanning false st in
      let st := set_summaryBanner
                  (remove "error-summary" (remove "hidden" (summaryBanner st))) st in
      let st := if 0 <? errors
                then set_summaryBanner (add "error-summary" (summaryBanner st)) st
                else st in
      set_summaryText summary st
  | EvCancelled => setScanning false st
  | EvError message => addLog message "error" st
  | EvProcessExit _ =>
      if isScanning st then
        let st := setScanning false st in
        let st := addLog "Backend process exited unexpectedly." "error" st in
        set_statusText "Error - process exited" st
      else st
  | EvOther => st
  end.

(** One input at the page. *)
Definition step (i : input) (st : state) : state * list call :=
  match i with
  | EditSource text =>
      (if sourcePath_disabled (controls st) then st else set_sourcePath_value text st, [])
  | EditOutput text =>
      (if outputPath_disabled (controls st) then st else set_outputPath_value text st, [])
  | BrowseSource f =>
      (if btnSource_disabled (controls st) then st else btnSource_click f st, [])
  | BrowseOutput f =>
      (if btnOutput_disabled (controls st) then st else btnOutput_click f st, [])
  | Slide value =>
      (if thresholdSlider_disabled (controls st) then st
       else set_thresholdSlider_value value st, [])
  | ClickStart =>
      if btnStart_disabled (controls st) then (st, []) else btnStart_click st
  | ClickCancel =>
      if btnCancel_disabled (controls st) then (st, []) else btnCancel_click st
  | ClickClearLog => (clearLog st, [])
  | Backend data => (onBackendEvent data st, [])
  end.

(** The page after a start click on the filled form. *)
Definition scanning : state := fst (btnStart_click filled).

End Part000.

(* ===================================================================== *)
(** ** The page and the main process together *)
(* ===================================================================== *)

Module App.

(** Which of the two renderer scripts the page runs. *)
Inductive script : Type :=
| RendererJs
| Part000Js.

Definition page_step (s : script)
  : Dom.input -> Dom.state -> Dom.state * list Dom.call :=
  match s with
  | RendererJs => Renderer.step
  | Part000Js => Part000.step
  end.

(** The preload bridge: [window.api.startScan(opts)] invokes the handler
    of [start-scan], [window.api.cancelScan()] that of [cancel-scan]. *)
Definition invoke (c : Dom.call) (m : Main.state) : Main.state * bool :=
  match c with
  | Dom.StartScan source output threshold => Main.start_scan source output threshold m
  | Dom.CancelScan => Main.cancel_scan m
  end.

(** The callback of [backend-event] in either script, and a sequence of
    messages delivered to it. *)
Definition on_event (s : script) : Dom.Event -> Dom.state -> Dom.state :=
  match s with
  | RendererJs => Renderer.onBackendEvent
  | Part000Js => Part000.onBackendEvent
  end.

Definition deliver (s : script) (events : list Dom.Event) (pg : Dom.state)
  : Dom.state :=
  fold_left (fun a e => on_event s e a) events pg.

(** The class either script puts on the summary banner after a scan
    with errors. *)
Definition error_class (s : script) : string :=
  match s with
  | RendererJs => "has-errors"
  | Part000Js => "error-summary"
  end.

(** The handler of the start button in either script. *)
Definition start_handler (s : script) : Dom.state -> Dom.state * list Dom.call :=
  match s with
  | RendererJs => Renderer.btnStart_onclick
  | Part000Js => Part000.btnStart_click
  end.

Record state : Type := mkApp {
  page : Dom.state;
  main : Main.state
}.

(** One input at the page, with the calls it makes carried out in the
    main process. *)
Definition ui (s : script) (i : Dom.input) (st : state) : state :=
  let '(pg, calls) := page_step s i (page st) in
  mkApp pg (fold_left (fun m c => fst (invoke c m)) calls (main st)).

Definition run (s : script) (inputs : list Dom.input) (st : state) : state :=
  fold_left (fun a i => ui s i a) inputs st.

End App.

(* ===================================================================== *)
(** * Properties of the main process *)
(* ===================================================================== *)

Section MainFacts.
Import JSON Main.

Lemma window_live_set_sent ms st : window_live (set_sent ms st) = window_live st.
Proof. reflexivity. Qed.

Lemma rl_on_line_sent line st :
  sent (rl_on_line line st)
  = sent st ++ (if window_live st then decoded [line] else []).
Proof.
  unfold rl_on_line, decoded. simpl.
  destruct (parse line) as [msg|]; destruct (window_live st); simpl;
    now rewrite ?app_nil_r.
Qed.

Lemma rl_on_line_frame line st :
  mainWindow (rl_on_line line st) = mainWindow st
  /\ pythonProcess (rl_on_line line st) = pythonProcess st
  /\ children (rl_on_line line st) = children st
  /\ timers (rl_on_line line st) = timers st
  /\ now (rl_on_line line st) = now st.
Proof.
  unfold rl_on_line.
  destruct (parse line); destruct (window_live st); repeat split; reflexivity.
Qed.

Lemma rl_on_line_bad line st : parse line = None -> rl_on_line line st = st.
Proof. intros H. unfold rl_on_line. now rewrite H. Qed.








Lemma stderr_on_data_sent data st :
  sent (stderr_on_data data st)
  = sent st ++ (if negb (Str.is_empty (Str.trim data)) && window_live st
                then [error_event (Str.trim data)] else []).
Proof.
  unfold stderr_on_data.
  destruct (negb (Str.is_empty (Str.trim data)) && window_live st); simpl;
    now rewrite ?app_nil_r.
Qed.

Lemma on_close_sent code st :
  sent (on_close code st)
  = sent st ++ (if window_live st then [process_exit_event code] else []).
Proof.
  unfold on_close.
  change (window_live (set_pythonProcess None st)) with (window_live st).
  destruct (window_live st); simpl; now rewrite ?app_nil_r.
Qed.

Lemma on_close_pythonProcess code st : pythonProcess (on_close code st) = None.
Proof.
  unfold on_close. now destruct (window_live (set_pythonProcess None st)).
Qed.

Lemma on_close_children code st : children (on_close code st) = children st.
Proof.
  unfold on_close. now destruct (window_live (set_pythonProcess None st)).
Qed.

(** C10. The three listeners forward their event exactly when the main
    window exists and is not destroyed; without such a window the event is
    dropped without a trace: the line and the stderr listeners leave the
    state as it was, and the close listener only clears the reference, so
    nothing is kept for later. *)
Theorem forwarded_only_to_live_window (st : state) :
  (forall line, sent (rl_on_line line st)
                = sent st ++ (if window_live st then decoded [line] else []))
  /\ (forall data, sent (stderr_on_data data st)
                  = sent st ++ (if negb (Str.is_empty (Str.trim data)) && window_live st
                                then [error_event (Str.trim data)] else []))
  /\ (forall code, sent (on_close code st)
                  = sent st ++ (if window_live st then [process_exit_event code] else []))
  /\ (window_live st = false ->
      (forall line, rl_on_line line st = st)
      /\ (forall data, stderr_on_data data st = st)
      /\ (forall code, on_close code st = set_pythonProcess None st)).
Proof.
  split; [|split; [|split]].
  - intros line. apply rl_on_line_sent.
  - intros data. apply stderr_on_data_sent.
  - intros code. apply on_close_sent.
  - intros Hdead. repeat split.
    + intros line. unfold rl_on_line. rewrite Hdead. now destruct (parse line).
    + intros data. unfold stderr_on_data. rewrite Hdead.
      now rewrite andb_false_r.
    + intros code. unfold on_close.
      change (window_live (set_pythonProcess None st)) with (window_live st).
      now rewrite Hdead.
Qed.

(** The witness of [forwarded_only_to_live_window]: the scanning state
    after its window has been closed. *)
Lemma forwarded_only_to_live_window_witness :
  window_live (on_window_closed scanning) = false
  /\ rl_on_line "42" (on_window_closed scanning) = on_window_closed scanning.
Proof.
  assert (H : window_live (on_window_closed scanning) = false) by reflexivity.
  split; [exact H|].
  exact (proj1 (proj2 (proj2 (proj2
           (forwarded_only_to_live_window (on_window_closed scanning)))) H) "42").
Defined.

Lemma spawnPython_fresh st :
  pythonProcess st = None ->
  spawnPython st
  = mkState (mainWindow st) (Some (length (children st)))
      (children st ++ [fresh_child]) (timers st) (now st) (sent st) (quitting st).
Proof. intros H. unfold spawnPython. now rewrite H. Qed.

Lemma spawnPython_live st p : pythonProcess st = Some p -> spawnPython st = st.
Proof. intros H. unfold spawnPython. now rewrite H. Qed.

Lemma sendToPython_fresh cmd st :
  pythonProcess st = None ->
  sendToPython cmd st
  = mkState (mainWindow st) (Some (length (children st)))
      (children st ++ [mkChild true [encode cmd] 0 false])
      (timers st) (now st) (sent st) (quitting st).
Proof.
  intros H. unfold sendToPython. rewrite H, (spawnPython_fresh _ H).
  cbn [pythonProcess children]. unfold update_child. cbn [children].
  rewrite list_lookup_middle by reflexivity. cbn [stdin_writable fresh_child].
  unfold set_children. cbn.
  rewrite <- (Nat.add_0_r (length (children st))) at 2.
  now rewrite insert_app_r.
Qed.

(** C9. With no worker referenced, the handler of [cancel-scan] is not a
    no-op: it spawns a new child, makes it the worker, writes the cancel
    command to its stdin, and returns [true]. *)
Theorem cancel_without_worker_spawns (st : state) :
  pythonProcess st = None ->
  cancel_scan st
  = (mkState (mainWindow st) (Some (length (children st)))
       (children st ++ [mkChild true [encode CmdCancel] 0 false])
       (timers st) (now st) (sent st) (quitting st), true)
  /\ fst (cancel_scan st) <> st.
Proof.
  intros H. unfold cancel_scan. rewrite (sendToPython_fresh _ _ H).
  split; [reflexivity|]. cbn [fst]. intros E.
  rewrite <- E in H. discriminate H.
Qed.

(** The witness of [cancel_without_worker_spawns]: a cancel as the very
    first command. *)
Lemma cancel_without_worker_spawns_witness :
  pythonProcess (createWindow initial) = None
  /\ children (fst (cancel_scan (createWindow initial)))
     = [mkChild true [encode CmdCancel] 0 false].
Proof.
  split; [reflexivity|].
  now rewrite (proj1 (cancel_without_worker_spawns (createWindow initial) eq_refl)).
Defined.

(** C7 as the code has it. A command for a worker whose stdin is not
    writable is skipped: nothing is written, nothing is sent to the window,
    no fault is raised and nothing tells the caller, for [sendToPython]
    returns nothing and both handlers return [true] as they always do. *)
Theorem unwritable_send_is_silent (st : state) (p : pid) (c : ChildProcess) :
  pythonProcess st = Some p ->
  children st !! p = Some c ->
  stdin_writable c = false ->
  (forall cmd, sendToPython cmd st = st)
  /\ (forall source output threshold,
        start_scan source output threshold st = (st, true))
  /\ cancel_scan st = (st, true).
Proof.
  intros Hp Hc Hw.
  assert (Hsend : forall cmd, sendToPython cmd st = st).
  { intros cmd. unfold sendToPython. rewrite Hp. cbv beta iota zeta.
    now rewrite Hp, Hc, Hw. }
  repeat split; auto.
  - intros. unfold start_scan. now rewrite (spawnPython_live _ _ Hp), Hsend.
  - unfold cancel_scan. now rewrite Hsend.
Qed.

(** The scanning state after the pipe to the worker has broken. *)
Lemma unwritable_send_is_silent_witness :
  start_scan "/a" "/b" 15 (step (StdinBroken 0%nat) scanning)
  = (step (StdinBroken 0%nat) scanning, true).
Proof.
  exact (proj1 (proj2 (unwritable_send_is_silent
           (step (StdinBroken 0%nat) scanning) 0%nat _ eq_refl eq_refl eq_refl))
           "/a" "/b" 15).
Defined.

(** C7, refuted as stated: with the pipe broken, the handler of
    [start-scan] still answers [true], the answer it gives when the command
    is written, while nothing is written and nothing is sent to the window. *)
Lemma unwritable_send_not_reported :
  let st := step (StdinBroken 0%nat) scanning in
  snd (start_scan "/x" "/y" 15 st) = snd (start_scan "/x" "/y" 15 scanning)
  /\ snd (start_scan "/x" "/y" 15 st) = true
  /\ children (fst (start_scan "/x" "/y" 15 st)) = children st
  /\ sent (fst (start_scan "/x" "/y" 15 st)) = sent st
  /\ children (fst (start_scan "/x" "/y" 15 scanning)) <> children scanning.
Proof. vm_compute. repeat split; try reflexivity. discriminate. Qed.

(** *** Shutdown *)

Lemma kill_timeout_idle st : pythonProcess st = None -> kill_timeout st = st.
Proof. intros H. unfold kill_timeout. now rewrite H. Qed.

Lemma kill_timeout_live st p c :
  pythonProcess st = Some p -> children st !! p = Some c ->
  kill_timeout st
  = mkState (mainWindow st) None (<[p := kill c]> (children st))
      (timers st) (now st) (sent st) (quitting st).
Proof.
  intros Hp Hc. unfold kill_timeout, update_child. now rewrite Hp, Hc.
Qed.

Lemma fire_idle (ready : list Z) : forall st,
  pythonProcess st = None ->
  fold_left (fun s _ => kill_timeout s) ready st = st.
Proof.
  induction ready as [|d ready IH]; intros st H; simpl; [reflexivity|].
  rewrite (kill_timeout_idle _ H). now apply IH.
Qed.

Lemma run_timers_idle st :
  pythonProcess st = None ->
  run_timers st
  = set_timers (List.filter (fun d => negb (due (now st) d)) (timers st)) st.
Proof. intros H. unfold run_timers. now apply fire_idle. Qed.

Lemma run_timers_live st p c :
  pythonProcess st = Some p -> children st !! p = Some c ->
  existsb (due (now st)) (timers st) = true ->
  run_timers st
  = mkState (mainWindow st) None (<[p := kill c]> (children st))
      (List.filter (fun d => negb (due (now st) d)) (timers st))
      (now st) (sent st) (quitting st).
Proof.
  intros Hp Hc Hdue. unfold run_timers.
  destruct (List.filter (due (now st)) (timers st)) as [|d ready] eqn:E.
  - exfalso. apply existsb_exists in Hdue as (d & Hin & Hd).
    assert (Hf : In d (List.filter (due (now st)) (timers st)))
      by (apply filter_In; auto).
    rewrite E in Hf. destruct Hf.
  - simpl fold_left.
    rewrite (kill_timeout_live _ p c) by assumption.
    now rewrite fire_idle.
Qed.

Lemma run_timers_none_due st :
  existsb (due (now st)) (timers st) = false -> run_timers st = st.
Proof.
  intros H. unfold run_timers.
  assert (Hready : List.filter (due (now st)) (timers st) = []).
  { destruct (List.filter (due (now st)) (timers st)) as [|d l] eqn:E; [reflexivity|].
    assert (Hin : In d (List.filter (due (now st)) (timers st)))
      by (rewrite E; now left).
    apply filter_In in Hin as [Hin Hd].
    assert (existsb (due (now st)) (timers st) = true)
      by (apply existsb_exists; eauto).
    congruence. }
  assert (Hlater : List.filter (fun d => negb (due (now st) d)) (timers st) = timers st).
  { clear Hready. induction (timers st) as [|d l IH]; [reflexivity|].
    simpl in H. apply orb_false_iff in H as [Hd Hl].
    simpl. rewrite Hd. simpl. now rewrite IH. }
  rewrite Hready, Hlater. now destruct st.
Qed.

Lemma killPython_idle st : pythonProcess st = None -> killPython st = st.
Proof. intros H. unfold killPython. now rewrite H. Qed.

(** What [killPython] leaves of the worker: the quit line is on its stdin
    when the stream took it. *)
Lemma killPython_live st p c :
  pythonProcess st = Some p -> children st !! p = Some c ->
  killPython st
  = mkState (mainWindow st) (Some p)
      (<[p := if stdin_writable c then accept_chunk (encode CmdQuit) c else c]>
         (children st))
      (timers st ++ [now st + grace_ms]) (now st) (sent st) (quitting st).
Proof.
  intros Hp Hc. unfold killPython, stdin_write. rewrite Hp, Hc.
  destruct st as [w pp cs ts t ms q]. cbn in Hp, Hc. subst pp.
  destruct (stdin_writable c); [reflexivity|].
  unfold set_timers. cbn. f_equal. symmetry. now apply list_insert_id.
Qed.

Lemma lookup_insert_here (cs : list ChildProcess) p c c' :
  cs !! p = Some c -> <[p := c']> cs !! p = Some c'.
Proof. intros H. apply list_lookup_insert_eq. now apply lookup_lt_Some in H. Qed.

Lemma elapse_kills st p c dt :
  pythonProcess st = Some p -> children st !! p = Some c ->
  existsb (due (now st + Z.max 0 dt)) (timers st) = true ->
  pythonProcess (step (Elapse dt) st) = None
  /\ children (step (Elapse dt) st) = <[p := kill c]> (children st).
Proof.
  intros Hp Hc Hdue. cbn [step].
  rewrite (run_timers_live (set_now (now st + Z.max 0 dt) st) p c); auto.
Qed.

Lemma elapse_idle st dt :
  pythonProcess st = None ->
  pythonProcess (step (Elapse dt) st) = None
  /\ children (step (Elapse dt) st) = children st.
Proof.
  intros Hp. cbn [step]. rewrite run_timers_idle by exact Hp. now split.
Qed.

Lemma elapse_early st dt :
  existsb (due (now st + Z.max 0 dt)) (timers st) = false ->
  step (Elapse dt) st = set_now (now st + Z.max 0 dt) st.
Proof. intros H. cbn [step]. now rewrite run_timers_none_due. Qed.

Lemma close_open st p c code :
  children st !! p = Some c -> closed c = false ->
  step (Close p code) st
  = on_close code (set_children (<[p := mark_closed c]> (children st)) st).
Proof.
  intros Hc Hopen. cbn [step]. unfold is_open, update_child.
  now rewrite Hc, Hopen.
Qed.

Lemma due_grace t dt : 1000 <= dt -> due (t + Z.max 0 dt) (t + grace_ms) = true.
Proof. intros H. unfold due, grace_ms. apply Z.leb_le. lia. Qed.

Lemma not_due_grace t dt : dt < 1000 -> due (t + Z.max 0 dt) (t + grace_ms) = false.
Proof. intros H. unfold due, grace_ms. apply Z.leb_gt. lia. Qed.

(** C4. [killPython] on a live worker writes the quit line when the
    stream takes it (a failed write is ignored) and arms a timer of 1000 ms.
    When the timer fires and the worker is still referenced, the worker is
    killed once and the reference cleared; before the deadline nothing is
    killed. When the worker has closed first, the timer kills nothing. A
    second call before the deadline does not lead to a second kill. With no
    worker referenced, [killPython] does nothing at all. *)
Theorem shutdown_grace (st : state) (p : pid) (c : ChildProcess) :
  pythonProcess st = Some p ->
  children st !! p = Some c ->
  closed c = false ->
  let c1 := if stdin_writable c then accept_chunk (encode CmdQuit) c else c in
  let st1 := killPython st in
  st1 = mkState (mainWindow st) (Some p) (<[p := c1]> (children st))
          (timers st ++ [now st + 1000]) (now st) (sent st) (quitting st)
  /\ (forall dt, 1000 <= dt ->
        pythonProcess (step (Elapse dt) st1) = None
        /\ children (step (Elapse dt) st1) = <[p := kill c1]> (children st))
  /\ (forall dt, dt < 1000 -> timers st = [] ->
        pythonProcess (step (Elapse dt) st1) = Some p
        /\ children (step (Elapse dt) st1) = children st1)
  /\ (forall code dt,
        pythonProcess (step (Elapse dt) (step (Close p code) st1)) = None
        /\ children (step (Elapse dt) (step (Close p code) st1))
           = <[p := mark_closed c1]> (children st)
        /\ kills (mark_closed c1) = kills c)
  /\ (forall dt, 1000 <= dt ->
        pythonProcess (step (Elapse dt) (killPython st1)) = None
        /\ kills <$> children (step (Elapse dt) (killPython st1)) !! p
           = Some (S (kills c)))
  /\ (forall s, pythonProcess s = None ->
        killPython s = s /\ killPython (killPython s) = killPython s).
Proof.
  intros Hp Hc Hopen c1 st1.
  assert (E1 : st1 = mkState (mainWindow st) (Some p) (<[p := c1]> (children st))
                 (timers st ++ [now st + 1000]) (now st) (sent st) (quitting st))
    by (apply killPython_live; assumption).
  assert (Hp1 : pythonProcess st1 = Some p) by now rewrite E1.
  assert (Hc1 : children st1 !! p = Some c1)
    by (rewrite E1; cbn [children]; now apply (lookup_insert_here _ _ c)).
  assert (Hcs1 : children st1 = <[p := c1]> (children st)) by now rewrite E1.
  assert (Ht1 : timers st1 = timers st ++ [now st + grace_ms]) by now rewrite E1.
  assert (Hn1 : now st1 = now st) by now rewrite E1.
  assert (Hk1 : kills c1 = kills c) by (subst c1; now destruct (stdin_writable c)).
  assert (Ho1 : closed c1 = false) by (subst c1; now destruct (stdin_writable c)).
  split; [exact E1|]. split; [|split; [|split; [|split]]].
  - intros dt Hdt.
    destruct (elapse_kills st1 p c1 dt Hp1 Hc1) as [Hq Hcs].
    { rewrite Ht1, Hn1, existsb_app. cbn [existsb].
      rewrite (due_grace _ _ Hdt). now rewrite orb_true_r. }
    split; [exact Hq|]. rewrite Hcs, Hcs1. apply list_insert_insert_eq.
  - intros dt Hdt Hnone.
    rewrite elapse_early; [now split|].
    rewrite Ht1, Hn1, Hnone. cbn [app existsb].
    now rewrite (not_due_grace _ _ Hdt).
  - intros code dt.
    rewrite (close_open st1 p c1 code Hc1 Ho1).
    destruct (elapse_idle
                (on_close code (set_children (<[p := mark_closed c1]> (children st1)) st1))
                dt (on_close_pythonProcess _ _)) as [Hq Hcs].
    split; [exact Hq|]. split.
    + rewrite Hcs, on_close_children. cbn [children set_children].
      rewrite Hcs1. apply list_insert_insert_eq.
    + exact Hk1.
  - intros dt Hdt.
    pose (c2 := if stdin_writable c1 then accept_chunk (encode CmdQuit) c1 else c1).
    assert (E2 := killPython_live st1 p c1 Hp1 Hc1). fold c2 in E2.
    assert (Hk2 : kills c2 = kills c)
      by (subst c2; rewrite <- Hk1; now destruct (stdin_writable c1)).
    destruct (elapse_kills (killPython st1) p c2 dt) as [Hq Hcs].
    + now rewrite E2.
    + rewrite E2. cbn [children]. now apply (lookup_insert_here _ _ c1).
    + rewrite E2. cbn [timers now]. rewrite existsb_app. cbn [existsb].
      rewrite Hn1, (due_grace _ _ Hdt). now rewrite orb_true_r.
    + split; [exact Hq|]. rewrite Hcs.
      rewrite (lookup_insert_here _ _ c2 (kill c2)).
      * cbn. now rewrite Hk2.
      * rewrite E2. cbn [children]. now apply (lookup_insert_here _ _ c1).
  - intros s Hs. rewrite !(killPython_idle _ Hs). now split.
Qed.

(** The witness of [shutdown_grace]: the scanning state, shut down, and
    the clock moved on by the grace period. *)
Lemma shutdown_grace_witness :
  pythonProcess (step (Elapse 1000) (killPython scanning)) = None
  /\ (kills <$> children (step (Elapse 1000) (killPython scanning)) !! 0%nat) = Some 1%nat.
Proof.
  destruct (shutdown_grace scanning 0%nat
              (mkChild true [encode (CmdScan "/a" "/b" 15)] 0 false)
              eq_refl eq_refl eq_refl) as (_ & Hfire & _).
  destruct (Hfire 1000 ltac:(lia)) as [Hq Hcs].
  split; [exact Hq|]. rewrite Hcs. reflexivity.
Defined.

(** *** Termination of the worker *)

Lemma has_closed_insert p q c' st :
  has_closed p st = true ->
  (forall c, children st !! q = Some c -> closed c = true -> closed c' = true) ->
  has_closed p (set_children (<[q := c']> (children st)) st) = true.
Proof.
  unfold has_closed. cbn [children set_children]. intros H Hf.
  destruct (children st !! p) as [c|] eqn:Hc; [|discriminate].
  destruct (decide (q = p)) as [->|Hne].
  - rewrite (lookup_insert_here _ _ c c' Hc). eauto.
  - rewrite list_lookup_insert_ne by exact Hne. now rewrite Hc.
Qed.

Lemma has_closed_update p q f st :
  keeps_closed f -> has_closed p st = true ->
  has_closed p (update_child q f st) = true.
Proof.
  intros Hf H. unfold update_child.
  destruct (children st !! q) as [c|] eqn:Hq; [|exact H].
  apply has_closed_insert; [exact H|].
  intros c0 Hc0 Hcl. rewrite Hq in Hc0. injection Hc0 as <-. now apply Hf.
Qed.

Lemma has_closed_spawnPython p st :
  has_closed p st = true -> has_closed p (spawnPython st) = true.
Proof.
  unfold spawnPython, has_closed. intros H.
  destruct (pythonProcess st); [exact H|]. cbn [children set_children set_pythonProcess].
  destruct (children st !! p) as [c|] eqn:Hc; [|discriminate].
  rewrite lookup_app_l by (now apply lookup_lt_Some in Hc). now rewrite Hc.
Qed.

Lemma has_closed_sendToPython p cmd st :
  has_closed p st = true -> has_closed p (sendToPython cmd st) = true.
Proof.
  intros H. unfold sendToPython.
  set (st0 := match pythonProcess st with None => spawnPython st | Some _ => st end).
  assert (H0 : has_closed p st0 = true).
  { subst st0. destruct (pythonProcess st); [exact H|]. now apply has_closed_spawnPython. }
  destruct (pythonProcess st0) as [q|]; [|exact H0].
  destruct (children st0 !! q) as [c|]; [|exact H0].
  destruct (stdin_writable c); [|exact H0].
  apply has_closed_update; [|exact H0]. now intros c0.
Qed.

Lemma has_closed_kill_timeout p st :
  has_closed p st = true -> has_closed p (kill_timeout st) = true.
Proof.
  intros H. unfold kill_timeout. destruct (pythonProcess st) as [q|]; [|exact H].
  change (has_closed p (update_child q kill st) = true).
  apply has_closed_update; [|exact H]. now intros c0.
Qed.

Lemma has_closed_killPython p st :
  has_closed p st = true -> has_closed p (killPython st) = true.
Proof.
  intros H. unfold killPython. destruct (pythonProcess st) as [q|]; [|exact H].
  destruct (children st !! q) as [c|] eqn:Hq; [|exact H].
  unfold stdin_write. destruct (stdin_writable c); [|exact H].
  change (has_closed p (set_children (<[q := accept_chunk (encode CmdQuit) c]> (children st)) st)
          = true).
  apply has_closed_insert; [exact H|].
  intros c0 Hc0 Hcl. rewrite Hq in Hc0. now injection Hc0 as <-.
Qed.

Lemma has_closed_run_timers p st :
  has_closed p st = true -> has_closed p (run_timers st) = true.
Proof.
  intros H. unfold run_timers.
  set (s0 := set_timers _ st). assert (H0 : has_closed p s0 = true) by exact H.
  clearbody s0. revert s0 H0.
  induction (List.filter (due (now st)) (timers st)) as [|d l IH]; intros s0 H0.
  - exact H0.
  - cbn [fold_left]. apply IH. now apply has_closed_kill_timeout.
Qed.

Lemma has_closed_on_close p code st :
  has_closed p (on_close code st) = has_closed p st.
Proof. unfold has_closed. now rewrite on_close_children. Qed.

Lemma has_closed_step p i st :
  has_closed p st = true -> has_closed p (step i st) = true.
Proof.
  intros H.
  destruct i as [q line|q data|q code|q|dt|source output threshold| | |n| | |];
    cbn [step].
  - destruct (is_open q st); [|exact H].
    unfold has_closed. destruct (rl_on_line_frame line st) as (_ & _ & -> & _). exact H.
  - destruct (is_open q st); [|exact H].
    unfold stderr_on_data.
    now destruct (negb (Str.is_empty (Str.trim data)) && window_live st).
  - destruct (is_open q st); [|exact H].
    rewrite has_closed_on_close. apply has_closed_update; [|exact H]. now intros c0.
  - apply has_closed_update; [|exact H]. now intros c0.
  - now apply has_closed_run_timers.
  - unfold start_scan. cbn [fst].
    now apply has_closed_sendToPython, has_closed_spawnPython.
  - unfold cancel_scan. cbn [fst]. now apply has_closed_sendToPython.
  - exact H.
  - unfold on_activate. now destruct (Nat.eqb n 0).
  - unfold destroy_window. now destruct (mainWindow st).
  - unfold on_window_closed. now apply has_closed_killPython.
  - unfold on_window_all_closed.
    change (has_closed p (killPython st) = true). now apply has_closed_killPython.
Qed.

Lemma has_closed_run p inputs : forall st,
  has_closed p st = true -> has_closed p (run inputs st) = true.
Proof.
  induction inputs as [|i inputs IH]; intros st H; [exact H|].
  apply IH. now apply has_closed_step.
Qed.

Lemma closed_child_is_silent p st :
  has_closed p st = true ->
  (forall line, step (StdoutLine p line) st = st)
  /\ (forall data, step (StderrData p data) st = st)
  /\ (forall code, step (Close p code) st = st).
Proof.
  intros H.
  assert (Ho : is_open p st = false).
  { unfold has_closed in H. unfold is_open.
    destruct (children st !! p) as [c|]; [now rewrite H|reflexivity]. }
  repeat split; intros; cbn [step]; now rewrite Ho.
Qed.

(** C5 as the code has it. When a child closes, the listener clears the
    worker reference whatever it pointed to, and sends one [process-exit]
    message with the exit code if the main window is live, none if it is
    not. Nothing of that child is handled afterwards, whatever happens
    next, and the next command goes to a child spawned for it. *)
Theorem close_clears_and_notifies (st : state) (p : pid) (c : ChildProcess)
    (code : option Z) :
  children st !! p = Some c ->
  closed c = false ->
  let st' := step (Close p code) st in
  pythonProcess st' = None
  /\ sent st' = sent st ++ (if window_live st then [process_exit_event code] else [])
  /\ (forall inputs,
        (forall line, step (StdoutLine p line) (run inputs st') = run inputs st')
        /\ (forall data, step (StderrData p data) (run inputs st') = run inputs st')
        /\ (forall code', step (Close p code') (run inputs st') = run inputs st'))
  /\ (forall cmd,
        sendToPython cmd st'
        = mkState (mainWindow st') (Some (length (children st')))
            (children st' ++ [mkChild true [encode cmd] 0 false])
            (timers st') (now st') (sent st') (quitting st')
        /\ length (children st') <> p).
Proof.
  intros Hc Hopen st'.
  assert (E : st' = on_close code (set_children (<[p := mark_closed c]> (children st)) st))
    by (apply close_open; assumption).
  assert (Hq : pythonProcess st' = None) by (rewrite E; apply on_close_pythonProcess).
  assert (Hcs : children st' = <[p := mark_closed c]> (children st))
    by (rewrite E; now rewrite on_close_children).
  assert (Hcl : has_closed p st' = true).
  { unfold has_closed. rewrite Hcs, (lookup_insert_here _ _ c _ Hc). reflexivity. }
  split; [exact Hq|]. split; [|split].
  - rewrite E, on_close_sent. reflexivity.
  - intros inputs. apply closed_child_is_silent. now apply has_closed_run.
  - intros cmd. split; [now apply sendToPython_fresh|].
    rewrite Hcs, length_insert. apply lookup_lt_Some in Hc. lia.
Qed.

(** The witness of [close_clears_and_notifies]: the worker of the
    scanning state exits with code 1. *)
Lemma close_clears_and_notifies_witness :
  pythonProcess (step (Close 0%nat (Some 1)) scanning) = None
  /\ sent (step (Close 0%nat (Some 1)) scanning) = [process_exit_event (Some 1)].
Proof.
  destruct (close_clears_and_notifies scanning 0%nat
              (mkChild true [encode (CmdScan "/a" "/b" 15)] 0 false) (Some 1)
              eq_refl eq_refl) as (Hq & Hs & _).
  split; [exact Hq | exact Hs].
Defined.

(** C5, refuted as stated: the window is closed, which shuts the worker
    down; the worker then terminates, and no [process-exit] message is
    sent at all. *)
Lemma close_without_window_is_silent :
  let st := step WindowClosed scanning in
  is_open 0%nat st = true
  /\ pythonProcess st = Some 0%nat
  /\ sent (step (Close 0%nat (Some 0)) st) = []
  /\ pythonProcess (step (Close 0%nat (Some 0)) st) = None.
Proof. vm_compute. repeat split; reflexivity. Qed.

(** *** The worker reference in reachable states *)

Lemma worker_open_idle st : pythonProcess st = None -> worker_open st.
Proof. intros H p Hp. congruence. Qed.

Lemma worker_open_frame st st' :
  pythonProcess st' = pythonProcess st -> children st' = children st ->
  worker_open st -> worker_open st'.
Proof. intros Hp Hc H p. rewrite Hp, Hc. apply H. Qed.

Lemma worker_open_insert q c c' st :
  children st !! q = Some c -> closed c' = closed c ->
  worker_open st ->
  worker_open (set_children (<[q := c']> (children st)) st).
Proof.
  intros Hq Hk H p Hp. cbn [pythonProcess set_children] in Hp.
  destruct (H p Hp) as (c0 & Hc0 & Ho). cbn [children set_children].
  destruct (decide (q = p)) as [->|Hne].
  - exists c'. rewrite (lookup_insert_here _ _ c c' Hq). split; [reflexivity|].
    rewrite Hq in Hc0. injection Hc0 as <-. congruence.
  - exists c0. now rewrite list_lookup_insert_ne.
Qed.

Lemma worker_open_update q f st :
  (forall c, closed (f c) = closed c) ->
  worker_open st -> worker_open (update_child q f st).
Proof.
  intros Hf H. unfold update_child.
  destruct (children st !! q) as [c|] eqn:Hq; [|exact H].
  now apply (worker_open_insert q c).
Qed.

Lemma worker_open_spawnPython st : worker_open st -> worker_open (spawnPython st).
Proof.
  intros H. unfold spawnPython. destruct (pythonProcess st) as [q|] eqn:Hq; [exact H|].
  intros p Hp. cbn in Hp. injection Hp as <-. exists fresh_child.
  cbn [children set_children set_pythonProcess].
  now rewrite list_lookup_middle.
Qed.

Lemma worker_open_sendToPython cmd st :
  worker_open st -> worker_open (sendToPython cmd st).
Proof.
  intros H. unfold sendToPython.
  set (st0 := match pythonProcess st with None => spawnPython st | Some _ => st end).
  assert (H0 : worker_open st0).
  { subst st0. destruct (pythonProcess st); [exact H|]. now apply worker_open_spawnPython. }
  destruct (pythonProcess st0) as [q|]; [|exact H0].
  destruct (children st0 !! q) as [c|]; [|exact H0].
  destruct (stdin_writable c); [|exact H0].
  now apply worker_open_update.
Qed.

Lemma worker_open_killPython st : worker_open st -> worker_open (killPython st).
Proof.
  intros H. unfold killPython. destruct (pythonProcess st) as [q|] eqn:Hp; [|exact H].
  apply (worker_open_frame
           (match children st !! q with
            | Some c => match stdin_write (encode CmdQuit) c with
                        | Some c' => set_children (<[q := c']> (children st)) st
                        | None => st
                        end
            | None => st
            end)); try reflexivity.
  destruct (children st !! q) as [c|] eqn:Hq; [|exact H].
  unfold stdin_write. destruct (stdin_writable c); [|exact H].
  now apply (worker_open_insert q c).
Qed.

Lemma worker_open_kill_timeout st : worker_open (kill_timeout st).
Proof.
  unfold kill_timeout. destruct (pythonProcess st) as [q|] eqn:Hp.
  - now apply worker_open_idle.
  - now apply worker_open_idle.
Qed.

Lemma worker_open_run_timers st : worker_open st -> worker_open (run_timers st).
Proof.
  intros H. unfold run_timers.
  destruct (List.filter (due (now st)) (timers st)) as [|d ready].
  - exact H.
  - cbn [fold_left].
    set (s1 := kill_timeout _).
    assert (H1 : pythonProcess s1 = None).
    { subst s1. unfold kill_timeout.
      change (pythonProcess (set_timers
                (List.filter (fun d0 => negb (due (now st) d0)) (timers st)) st))
        with (pythonProcess st).
      destruct (pythonProcess st) eqn:E; [reflexivity|exact E]. }
    rewrite (fire_idle _ _ H1). now apply worker_open_idle.
Qed.

Lemma worker_open_step i st : worker_open st -> worker_open (step i st).
Proof.
  intros H.
  destruct i as [q line|q data|q code|q|dt|source output threshold| | |n| | |];
    cbn [step].
  - destruct (is_open q st); [|exact H].
    destruct (rl_on_line_frame line st) as (_ & Hp & Hc & _).
    now apply (worker_open_frame st).
  - destruct (is_open q st); [|exact H]. unfold stderr_on_data.
    now destruct (negb (Str.is_empty (Str.trim data)) && window_live st).
  - destruct (is_open q st); [|exact H].
    apply worker_open_idle, on_close_pythonProcess.
  - now apply worker_open_update.
  - now apply worker_open_run_timers.
  - unfold start_scan. cbn [fst].
    now apply worker_open_sendToPython, worker_open_spawnPython.
  - unfold cancel_scan. cbn [fst]. now apply worker_open_sendToPython.
  - exact H.
  - unfold on_activate. now destruct (Nat.eqb n 0).
  - unfold destroy_window. now destruct (mainWindow st).
  - unfold on_window_closed. now apply worker_open_killPython.
  - unfold on_window_all_closed.
    apply (worker_open_frame (killPython st)); try reflexivity.
    now apply worker_open_killPython.
Qed.

(** In every state the program reaches, the worker reference, when set,
    names a child that has not closed. *)
Lemma worker_open_reachable inputs : worker_open (run inputs initial).
Proof.
  assert (H : forall st, worker_open st -> worker_open (run inputs st)).
  { induction inputs as [|i inputs IH]; intros st Hst; [exact Hst|].
    apply IH. now apply worker_open_step. }
  apply H. now apply worker_open_idle.
Qed.


(** *** Starting a scan *)

Lemma start_scan_accepts source output threshold st :
  snd (start_scan source output threshold st) = true.
Proof. reflexivity. Qed.


End MainFacts.

(* ===================================================================== *)
(** * Properties of the renderer scripts *)
(* ===================================================================== *)

Section PageFacts.
Import Dom App.

Lemma setScanning_flags v st :
  isScanning (Renderer.setScanning v st) = v
  /\ btnStart_disabled (controls (Renderer.setScanning v st)) = v
  /\ btnCancel_disabled (controls (Renderer.setScanning v st)) = negb v.
Proof. repeat split. Qed.

Lemma setScanning_flags_p0 v st :
  isScanning (Part000.setScanning v st) = v
  /\ btnStart_disabled (controls (Part000.setScanning v st)) = v
  /\ btnCancel_disabled (controls (Part000.setScanning v st)) = negb v.
Proof. destruct v; repeat split. Qed.

(** An event that does not end a scan leaves the scanning flag and the
    controls as they are. *)
Lemma on_event_keeps_controls s e st :
  terminal e = false ->
  isScanning (on_event s e st) = isScanning st
  /\ controls (on_event s e st) = controls st.
Proof.
  intros He. destruct s, e; try discriminate He; cbn [on_event];
    unfold Renderer.onBackendEvent, Part000.onBackendEvent,
      Renderer.addLog, Part000.addLog, Renderer.setProgress, Part000.setProgress;
    try (destruct (logStarted st)); split; reflexivity.
Qed.

(** Every event of the terminal class leaves the page not scanning. *)
Lemma on_event_terminal s e st :
  terminal e = true -> isScanning (on_event s e st) = false.
Proof.
  intros He. destruct s, e; try discriminate He; cbn [on_event];
    unfold Renderer.onBackendEvent, Part000.onBackendEvent.
  all: try reflexivity.
  all: try (destruct (0 <? errors); reflexivity).
  all: destruct (isScanning st) eqn:E; [|exact E].
  all: unfold Renderer.addLog, Part000.addLog; cbn.
  all: destruct (logStarted st); reflexivity.
Qed.

(** No event starts a scan. *)
Lemma on_event_stays_idle s e st :
  isScanning st = false -> isScanning (on_event s e st) = false.
Proof.
  intros H. destruct (terminal e) eqn:He.
  - now apply on_event_terminal.
  - now rewrite (proj1 (on_event_keeps_controls s e st He)).
Qed.

Lemma deliver_app s l1 l2 st :
  deliver s (l1 ++ l2) st = deliver s l2 (deliver s l1 st).
Proof. unfold deliver. now rewrite fold_left_app. Qed.

Lemma deliver_stays_idle s events : forall st,
  isScanning st = false -> isScanning (deliver s events st) = false.
Proof.
  induction events as [|e events IH]; intros st H; [exact H|].
  apply IH. now apply on_event_stays_idle.
Qed.

Lemma deliver_keeps_scanning s events : forall st,
  forallb (fun e => negb (terminal e)) events = true ->
  isScanning (deliver s events st) = isScanning st
  /\ controls (deliver s events st) = controls st.
Proof.
  induction events as [|e events IH]; intros st H; [now split|].
  cbn [forallb] in H. apply andb_true_iff in H as [He Hes].
  apply negb_true_iff in He.
  destruct (IH (on_event s e st) Hes) as [H1 H2].
  destruct (on_event_keeps_controls s e st He) as [H3 H4].
  cbn [deliver fold_left]. unfold deliver in H1, H2. rewrite H1, H2. now split.
Qed.

Lemma process_exit_when_idle s code st :
  isScanning st = false -> on_event s (EvProcessExit code) st = st.
Proof.
  intros H. destruct s; cbn [on_event];
    unfold Renderer.onBackendEvent, Part000.onBackendEvent; now rewrite H.
Qed.

(** C2 as the code has it. Delivered to a page that is scanning, the first
    event among [complete], [cancelled] and [process-exit] ends the scan,
    and the page is not scanning again whatever events follow. A later
    [process-exit] changes nothing at all. The other later events are not
    ignored: the callback handles them as it always does. *)
Theorem first_terminal_event_ends_scan (s : script) (st : Dom.state)
    (before after : list Event) (t : Event) :
  isScanning st = true ->
  forallb (fun e => negb (terminal e)) before = true ->
  terminal t = true ->
  isScanning (deliver s before st) = true
  /\ isScanning (deliver s (before ++ [t]) st) = false
  /\ isScanning (deliver s (before ++ t :: after) st) = false
  /\ btnStart_disabled (controls (deliver s (before ++ [t]) st)) = false
  /\ (forall code,
        on_event s (EvProcessExit code) (deliver s (before ++ t :: after) st)
        = deliver s (before ++ t :: after) st).
Proof.
  intros Hrun Hbefore Ht.
  destruct (deliver_keeps_scanning s before st Hbefore) as [H1 H2].
  assert (H3 : isScanning (deliver s (before ++ [t]) st) = false).
  { rewrite deliver_app. cbn [deliver fold_left]. now apply on_event_terminal. }
  assert (H4 : isScanning (deliver s (before ++ t :: after) st) = false).
  { change (t :: after) with ([t] ++ after). rewrite app_assoc, deliver_app.
    now apply deliver_stays_idle. }
  repeat split.
  - now rewrite H1.
  - exact H3.
  - exact H4.
  - rewrite deliver_app. set (st1 := deliver s before st) in *.
    change (deliver s [t] st1) with (on_event s t st1).
    assert (Hs1 : isScanning st1 = true) by now rewrite H1.
    destruct s, t; try discriminate Ht; cbn [on_event];
      unfold Renderer.onBackendEvent, Part000.onBackendEvent; rewrite ?Hs1;
      try reflexivity; try (destruct (0 <? errors); reflexivity).
    all: unfold Renderer.addLog, Part000.addLog; cbn;
      destruct (logStarted st1); reflexivity.
  - intros code. now apply process_exit_when_idle.
Qed.

(** The witness of [first_terminal_event_ends_scan]: progress, then
    [complete], then the exit of the worker. *)
Lemma first_terminal_event_ends_scan_witness :
  isScanning Renderer.scanning = true
  /\ isScanning (deliver RendererJs
                  ([EvProgress 50 200] ++ EvComplete "Done! 198 kept, 2 skipped" 0
                     :: [EvProcessExit (Some 0)]) Renderer.scanning) = false.
Proof.
  split; [reflexivity|].
  exact (proj1 (proj2 (proj2
    (first_terminal_event_ends_scan RendererJs Renderer.scanning
       [EvProgress 50 200] [EvProcessExit (Some 0)]
       (EvComplete "Done! 198 kept, 2 skipped" 0) eq_refl eq_refl eq_refl)))).
Defined.

(** C2, refuted as stated: after [cancelled] has ended the scan, a
    [complete] and a [log] that follow are handled all the same; each of
    them changes the page. *)
Lemma later_events_still_handled :
  let st1 := Renderer.onBackendEvent EvCancelled Renderer.scanning in
  isScanning Renderer.scanning = true
  /\ isScanning st1 = false
  /\ summaryText (Renderer.onBackendEvent (EvComplete "Done!" 2) st1) = "Done!"
  /\ summaryBanner (Renderer.onBackendEvent (EvComplete "Done!" 2) st1) = ["has-errors"]
  /\ Renderer.onBackendEvent (EvComplete "Done!" 2) st1 <> st1
  /\ Renderer.onBackendEvent (EvLog "late") st1 <> st1.
Proof.
  cbv zeta. repeat split; try reflexivity.
  - intros E. apply (f_equal summaryText) in E. vm_compute in E. discriminate E.
  - intros E. apply (f_equal logContainer) in E. vm_compute in E. discriminate E.
Qed.

(** *** Progress *)

Lemma percent_fraction cur total :
  (percent cur total / 100 == inject_Z cur / inject_Z total)%Q.
Proof. unfold percent. apply Qdiv_mult_l. discriminate. Qed.

Lemma percent_bounds cur total :
  0 < total -> 0 <= cur <= total ->
  (0 <= percent cur total /\ percent cur total <= 100)%Q.
Proof.
  intros Ht [Hlo Hhi]. unfold percent.
  destruct total as [|tp|tp]; try lia.
  unfold Qle, Qdiv, Qinv, inject_Z. cbn.
  rewrite ?Pos.mul_1_r, ?Z.mul_1_r. split; nia.
Qed.

(** C6 as the code has it. For [total > 0] both scripts set the bar to
    [(current / total) * 100] percent, and that lies between 0 and 100
    when [0 <= current <= total]; the value is not clamped. For
    [total <= 0] nothing is divided and the bar is set to 0 percent;
    [renderer.js] then empties the count, the other script prints it. *)
Theorem progress_width (cur total : Z) (st : Dom.state) :
  (0 < total ->
     progressBar_width (Renderer.setProgress cur total st) = Some (percent cur total)
     /\ progressBar_width (Part000.setProgress cur total st) = Some (percent cur total)
     /\ (percent cur total / 100 == inject_Z cur / inject_Z total)%Q
     /\ (0 <= cur <= total -> (0 <= percent cur total /\ percent cur total <= 100)%Q))
  /\ (total <= 0 ->
     progressBar_width (Renderer.setProgress cur total st) = Some 0%Q
     /\ progressCount (Renderer.setProgress cur total st) = EmptyString
     /\ progressBar_width (Part000.setProgress cur total st) = Some 0%Q
     /\ progressCount (Part000.setProgress cur total st)
        = (Str.of_Z cur ++ " / " ++ Str.of_Z total)%string).
Proof.
  split; intros Ht.
  - assert (E : (0 <? total) = true) by (apply Z.ltb_lt; lia).
    unfold Renderer.setProgress, Part000.setProgress. rewrite E.
    repeat split; try reflexivity.
    + apply percent_fraction.
    + now apply percent_bounds.
    + now apply percent_bounds.
  - assert (E : (0 <? total) = false) by (apply Z.ltb_ge; lia).
    unfold Renderer.setProgress, Part000.setProgress. rewrite E.
    repeat split; reflexivity.
Qed.

(** The witness of [progress_width]: 50 of 200, and 0 of 0. *)
Lemma progress_width_witness :
  progressBar_width (Renderer.setProgress 50 200 blank) = Some (percent 50 200)
  /\ progressBar_width (Renderer.setProgress 0 0 blank) = Some 0%Q.
Proof.
  split.
  - exact (proj1 (proj1 (progress_width 50 200 blank) ltac:(lia))).
  - exact (proj1 (proj2 (progress_width 0 0 blank) ltac:(lia))).
Defined.

(** C6, refuted as stated: 300 of 200 sets the bar to 150 percent, a
    fraction of one and a half, and 0 of 0 sets it to the number 0. *)
Lemma progress_not_clamped :
  progressBar_width (Renderer.setProgress 300 200 blank) = Some (percent 300 200)
  /\ (percent 300 200 == 150)%Q
  /\ ~ (percent 300 200 / 100 <= 1)%Q
  /\ progressBar_width (Renderer.setProgress 0 0 blank) = Some 0%Q.
Proof.
  split; [reflexivity|]. split; [reflexivity|]. split; [|reflexivity].
  intros H. vm_compute in H. apply H. reflexivity.
Qed.

End PageFacts.

(* ===================================================================== *)
(** * Properties of the page and the main process together *)
(* ===================================================================== *)

Section AppFacts.
Import Dom App.

Lemma start_handler_same_folder s pg :
  Str.trim (sourcePath_value pg) = Str.trim (outputPath_value pg) ->
  snd (start_handler s pg) = []
  /\ isScanning (fst (start_handler s pg)) = isScanning pg
  /\ controls (fst (start_handler s pg)) = controls pg.
Proof.
  intros H.
  destruct s; cbn [start_handler];
    unfold Renderer.btnStart_onclick, Part000.btnStart_click; rewrite H;
    destruct (Str.is_empty (Str.trim (outputPath_value pg)));
    rewrite ?String.eqb_refl; cbn [fst snd];
    unfold Renderer.addLog, Part000.addLog;
    try (destruct (logStarted pg)); repeat split.
Qed.

Lemma page_step_click_start s pg :
  page_step s ClickStart pg
  = if btnStart_disabled (controls pg) then (pg, []) else start_handler s pg.
Proof. now destruct s. Qed.

Lemma ui_no_calls s i st :
  snd (page_step s i (page st)) = [] -> main (ui s i st) = main st.
Proof.
  unfold ui. destruct (page_step s i (page st)) as [pg calls]. cbn [snd].
  now intros ->.
Qed.

Lemma ui_page s i st : page (ui s i st) = fst (page_step s i (page st)).
Proof. unfold ui. now destruct (page_step s i (page st)). Qed.

Lemma start_scan_fresh source output threshold m :
  Main.pythonProcess m = None ->
  fst (Main.start_scan source output threshold m)
  = Main.mkState (Main.mainWindow m) (Some (length (Main.children m)))
      (Main.children m
       ++ [Main.mkChild true [Main.encode (Main.CmdScan source output threshold)] 0 false])
      (Main.timers m) (Main.now m) (Main.sent m) (Main.quitting m).
Proof.
  intros H. rewrite <- (sendToPython_fresh _ _ H). unfold Main.start_scan. cbn [fst].
  assert (Hs : Main.pythonProcess (Main.spawnPython m) = Some (length (Main.children m)))
    by (unfold Main.spawnPython; now rewrite H).
  unfold Main.sendToPython. rewrite H, Hs. cbv beta iota zeta. now rewrite Hs.
Qed.

Lemma start_scan_live source output threshold m p c :
  Main.pythonProcess m = Some p -> Main.children m !! p = Some c ->
  Main.stdin_writable c = true ->
  fst (Main.start_scan source output threshold m)
  = Main.set_children
      (<[p := Main.accept_chunk (Main.encode (Main.CmdScan source output threshold)) c]>
         (Main.children m)) m.
Proof.
  intros Hp Hc Hw. unfold Main.start_scan. cbn [fst].
  rewrite (spawnPython_live _ _ Hp). unfold Main.sendToPython. rewrite Hp.
  cbv beta iota zeta. rewrite Hp, Hc, Hw. unfold Main.update_child. now rewrite Hc.
Qed.
(** C8 as the code has it. The two folders are compared on the page
    only. A click on the start button when the source folder and the
    output folder of the form are the same (as the handler compares them,
    trimmed) makes no call to the main process: no command is written and
    no worker is spawned, whatever the state of the main process and of the
    worker, and the page does not go scanning. The handler of [start-scan]
    does not compare the folders: a request that names one folder twice is
    answered [true] like any other, and its scan command is written, to a
    new child when no worker is referenced and to the referenced worker
    when its stdin is writable. *)
Theorem same_folder_start_rejected (s : script) :
  (forall st,
     Str.trim (sourcePath_value (page st)) = Str.trim (outputPath_value (page st)) ->
     snd (start_handler s (page st)) = []
     /\ snd (page_step s ClickStart (page st)) = []
     /\ main (ui s ClickStart st) = main st
     /\ isScanning (page (ui s ClickStart st)) = isScanning (page st))
  /\ (forall folder threshold m,
        snd (invoke (StartScan folder folder threshold) m) = true
        /\ (Main.pythonProcess m = None ->
            fst (invoke (StartScan folder folder threshold) m)
            = Main.mkState (Main.mainWindow m) (Some (length (Main.children m)))
                (Main.children m
                 ++ [Main.mkChild true
                       [Main.encode (Main.CmdScan folder folder threshold)] 0 false])
                (Main.timers m) (Main.now m) (Main.sent m) (Main.quitting m))
        /\ (forall p c,
              Main.pythonProcess m = Some p -> Main.children m !! p = Some c ->
              Main.stdin_writable c = true ->
              fst (invoke (StartScan folder folder threshold) m)
              = Main.set_children
                  (<[p := Main.accept_chunk
                            (Main.encode (Main.CmdScan folder folder threshold)) c]>
                     (Main.children m)) m)).
Proof.
  split.
  - intros st H.
    destruct (start_handler_same_folder s (page st) H) as (Hc & Hs & _).
    assert (Hstep : snd (page_step s ClickStart (page st)) = []).
    { rewrite page_step_click_start.
      now destruct (btnStart_disabled (controls (page st))). }
    repeat split; auto using ui_no_calls.
    rewrite ui_page, page_step_click_start.
    now destruct (btnStart_disabled (controls (page st))).
  - intros folder threshold m. cbn [invoke]. split; [reflexivity|]. split.
    + apply start_scan_fresh.
    + apply start_scan_live.
Qed.

(** The witness of [same_folder_start_rejected]: the same folder entered
    twice, once with a blank before it and a no-break space after it,
    while a worker is scanning. *)
Lemma same_folder_start_rejected_witness :
  main (ui RendererJs ClickStart
          (mkApp (set_outputPath_value "/x"
                    (set_sourcePath_value (" /x" ++ Str.nbsp) blank))
             Main.scanning))
  = Main.scanning.
Proof.
  exact (proj1 (proj2 (proj2
    (proj1 (same_folder_start_rejected RendererJs)
       (mkApp (set_outputPath_value "/x"
                 (set_sourcePath_value (" /x" ++ Str.nbsp) blank))
          Main.scanning) eq_refl)))).
Defined.

(** C8, refuted as stated: a request to start a scan that names the
    folder [/x] as source and as output, made through the bridge of the
    preload script, is not rejected. The handler answers [true], spawns
    the worker and writes the scan command with the two equal folders to
    its stdin. *)
Lemma same_folder_request_is_accepted :
  let request := StartScan "/x" "/x" 15 in
  let m := Main.createWindow Main.initial in
  invoke request m = Main.start_scan "/x" "/x" 15 m
  /\ snd (invoke request m) = true
  /\ Main.pythonProcess (fst (invoke request m)) = Some 0%nat
  /\ (Main.stdin_data <$> Main.children (fst (invoke request m)) !! 0%nat)
     = Some [Main.encode (Main.CmdScan "/x" "/x" 15)]
  /\ JSON.parse (Main.encode (Main.CmdScan "/x" "/x" 15))
     = Some (Main.command_object (Main.CmdScan "/x" "/x" 15)).
Proof. cbv zeta. repeat split. Qed.

Lemma start_handler_accepts s pg :
  Str.is_empty (Str.trim (sourcePath_value pg)) = false ->
  Str.is_empty (Str.trim (outputPath_value pg)) = false ->
  Str.trim (sourcePath_value pg) <> Str.trim (outputPath_value pg) ->
  snd (start_handler s pg)
  = [StartScan (Str.trim (sourcePath_value pg)) (Str.trim (outputPath_value pg))
       (thresholdSlider_value pg)]
  /\ isScanning (fst (start_handler s pg)) = true
  /\ btnStart_disabled (controls (fst (start_handler s pg))) = true.
Proof.
  intros Hs Ho Hne. apply String.eqb_neq in Hne.
  destruct s; cbn [start_handler];
    unfold Renderer.btnStart_onclick, Part000.btnStart_click;
    rewrite Hs, Ho, Hne; repeat split.
Qed.






End AppFacts.

(* ===================================================================== *)
(** * The scenarios of the specification, run on the model *)
(* ===================================================================== *)

Section Scenarios.
Import JSON Dom.

(** Scenario A: the first start is accepted, spawns the worker and
    writes one scan line, which reads back as the command object. *)
Example scenario_start :
  Main.start_scan "/a" "/b" 15 (Main.createWindow Main.initial)
  = (Main.scanning, true)
  /\ Main.pythonProcess Main.scanning = Some 0%nat
  /\ (Main.stdin_data <$> Main.children Main.scanning !! 0%nat)
     = Some [Main.encode (Main.CmdScan "/a" "/b" 15)]
  /\ parse (Main.encode (Main.CmdScan "/a" "/b" 15))
     = Some (JObj [("cmd", JStr "scan"); ("source", JStr "/a");
                   ("output", JStr "/b"); ("threshold", JNum 15 0)]).
Proof. repeat split; vm_compute; reflexivity. Qed.

(** Scenario B: progress 50 of 200 shows 25 percent, and [complete] ends
    the scan with its summary. *)
Example scenario_progress_complete :
  let pg := App.deliver App.RendererJs
              [EvProgress 50 200; EvComplete "Done! 198 kept, 2 skipped" 0]
              Renderer.scanning in
  (percent 50 200 == 25)%Q
  /\ progressBar_width pg = Some (percent 50 200)
  /\ progressCount pg = "50 / 200"
  /\ summaryText pg = "Done! 198 kept, 2 skipped"
  /\ summaryBanner pg = []
  /\ isScanning pg = false.
Proof. cbv zeta. repeat split. Qed.

(** Scenario D: the worker exits during a scan; the page reports it and
    the start button is enabled again. *)
Example scenario_unexpected_exit :
  let pg := Renderer.onBackendEvent (EvProcessExit (Some 1)) Renderer.scanning in
  isScanning pg = false
  /\ btnStart_disabled (controls pg) = false
  /\ statusText pg = "Error"
  /\ logContainer pg
     = [Line "log-line error" "Backend process exited unexpectedly."].
Proof. cbv zeta. repeat split. Qed.

(** What the line listener takes for JSON: a traceback is not, a bare
    number is, and is forwarded as it is. *)
Example lines_on_stdout :
  Main.sent (Main.stdout_lines 0
               ["Traceback (most recent call last):"; "42"; "[1, 2"]
               Main.scanning)
  = [JNum 42 0].
Proof. vm_compute. reflexivity. Qed.

End Scenarios.

(* ===================================================================== *)
(** * The lines written to the worker *)
(* ===================================================================== *)

Section WireFacts.
Import JSON Main.

Lemma append_assoc (a b c : string) : ((a ++ b) ++ c = a ++ (b ++ c))%string.
Proof. induction a as [|x a IH]; cbn; [reflexivity|now rewrite IH]. Qed.

Lemma parse_chars_escape_cons (c : ascii) (s tail : string) :
  parse_chars (escape (String c s) ++ tail)%string
  = match parse_chars (escape s ++ tail)%string with
    | Some (str, out) => Some (String c str, out)
    | None => None
    end.
Proof. destruct c as [[|] [|] [|] [|] [|] [|] [|] [|]]; reflexivity. Qed.

(** Reading back an escaped string gives the string. *)
Lemma parse_chars_escape (s rest : string) :
  parse_chars (escape s ++ String Str.dquote rest)%string = Some (s, rest).
Proof.
  induction s as [|c s IH]; [reflexivity|].
  now rewrite parse_chars_escape_cons, IH.
Qed.

Lemma printable_escape (s : string) : printable (escape s) = true.
Proof.
  induction s as [|c s IH]; [reflexivity|].
  rewrite <- IH. destruct c as [[|] [|] [|] [|] [|] [|] [|] [|]]; reflexivity.
Qed.

Lemma printable_app (a b : string) :
  printable (a ++ b)%string = printable a && printable b.
Proof.
  induction a as [|c a IH]; [reflexivity|].
  cbn [append printable]. now rewrite IH, andb_assoc.
Qed.

Lemma printable_uint (d : Decimal.uint) :
  printable (NilEmpty.string_of_uint d) = true.
Proof. induction d; cbn [NilEmpty.string_of_uint printable]; rewrite ?IHd; reflexivity. Qed.

Lemma printable_nz_uint (d : Decimal.uint) :
  printable (NilZero.string_of_uint d) = true.
Proof.
  unfold NilZero.string_of_uint.
  destruct d; [reflexivity|..]; apply printable_uint.
Qed.

Lemma printable_of_Z (z : Z) : printable (Str.of_Z z) = true.
Proof.
  unfold Str.of_Z, NilZero.string_of_int.
  destruct (Z.to_int z) as [d|d]; [apply printable_nz_uint|].
  cbn [printable]. now rewrite printable_nz_uint.
Qed.

(** *** Numbers *)

Lemma digits_stop (acc : Z) (rest : string) :
  ends_number rest = true -> digits acc rest = (acc, O, rest).
Proof.
  destruct rest as [|c rest]; [reflexivity|]. cbn [ends_number digits].
  intros H. apply negb_true_iff in H.
  apply orb_false_iff in H as [H _]. apply orb_false_iff in H as [H _].
  apply orb_false_iff in H as [H _]. now rewrite H.
Qed.

Lemma digits_uint (d : Decimal.uint) : forall acc rest,
  ends_number rest = true ->
  digits acc (NilEmpty.string_of_uint d ++ rest)%string
  = (uint_value acc d, Decimal.nb_digits d, rest).
Proof.
  induction d; intros acc rest Hrest;
    cbn [NilEmpty.string_of_uint append uint_value Decimal.nb_digits].
  1: now apply digits_stop.
  all: cbn [digits]; change (is_digit _) with true; cbv iota.
  all: rewrite IHd by exact Hrest.
  all: unfold digit_val, Str.code.
  all: match goal with
       | |- context [Z.of_nat (nat_of_ascii ?c) - 48] =>
           let v := eval vm_compute in (Z.of_nat (nat_of_ascii c) - 48) in
           change (Z.of_nat (nat_of_ascii c) - 48) with v
       end.
  all: rewrite ?Z.add_0_r; reflexivity.
Qed.

Lemma uint_value_pos (d : Decimal.uint) : forall a,
  uint_value (Zpos a) d = Zpos (Pos.of_uint_acc d a).
Proof.
  induction d; intros a; cbn [uint_value Pos.of_uint_acc]; [reflexivity|..].
  all: rewrite <- IHd; f_equal; lia.
Qed.

Lemma uint_value_of_uint (d : Decimal.uint) :
  uint_value 0 d = Z.of_N (Pos.of_uint d).
Proof.
  induction d; cbn [uint_value Pos.of_uint]; [reflexivity|exact IHd|..].
  all: rewrite Z.mul_0_l, Z.add_0_l; exact (uint_value_pos d _).
Qed.

Lemma uint_value_to_uint (p : positive) : uint_value 0 (Pos.to_uint p) = Zpos p.
Proof. now rewrite uint_value_of_uint, DecimalPos.Unsigned.of_to. Qed.

Lemma nzhead_not_D0 (u v : Decimal.uint) : Decimal.nzhead u <> Decimal.D0 v.
Proof. induction u; cbn [Decimal.nzhead]; try discriminate; exact IHu. Qed.

(** The decimal digits of a positive number do not start with a zero. *)
Lemma to_uint_head (p : positive) :
  match Pos.to_uint p with
  | Decimal.Nil | Decimal.D0 _ => False
  | _ => True
  end.
Proof.
  assert (Hn : Decimal.unorm (Pos.to_uint p) = Pos.to_uint p).
  { rewrite <- DecimalPos.Unsigned.to_of, DecimalPos.Unsigned.of_to. reflexivity. }
  destruct (Pos.to_uint p) as [|u|u|u|u|u|u|u|u|u|u] eqn:E; try exact I.
  - now apply (DecimalPos.Unsigned.to_uint_nonnil p).
  - rewrite DecimalFacts.unorm_D0 in Hn. unfold Decimal.unorm in Hn.
    destruct (Decimal.nzhead u) eqn:Eu; try discriminate Hn.
    + injection Hn as <-. now apply (DecimalPos.Unsigned.to_uint_nonzero p).
    + now apply (nzhead_not_D0 u u0).
Qed.

Lemma ends_number_inv (c : ascii) (rest : string) :
  ends_number (String c rest) = true ->
  is_digit c = false /\ Nat.eqb (Str.code c) 46 = false
  /\ Nat.eqb (Str.code c) 101 = false /\ Nat.eqb (Str.code c) 69 = false.
Proof.
  cbn [ends_number]. intros H. apply negb_true_iff in H.
  apply orb_false_iff in H as [H H4]. apply orb_false_iff in H as [H H3].
  apply orb_false_iff in H as [H1 H2]. auto.
Qed.

Lemma parse_unsigned_uint (d : Decimal.uint) (rest : string) :
  match d with Decimal.Nil | Decimal.D0 _ => False | _ => True end ->
  ends_number rest = true ->
  parse_unsigned (NilEmpty.string_of_uint d ++ rest)%string
  = Some (uint_value 0 d, 0, rest).
Proof.
  intros Hd Hrest.
  assert (Hdig := digits_uint d 0 rest Hrest).
  destruct d as [|u|u|u|u|u|u|u|u|u|u]; try destruct Hd;
    cbn [NilEmpty.string_of_uint append] in *; unfold parse_unsigned;
    change (is_digit _) with true; cbv iota beta;
    change (negb true) with false; cbv iota;
    change (Nat.eqb (Str.code _) 48) with false; cbv iota; rewrite Hdig;
    (destruct rest as [|c rest];
     [reflexivity
     |destruct (ends_number_inv c rest Hrest) as (_ & H1 & H2 & H3);
      cbv iota beta; rewrite H1; cbv iota beta; rewrite H2, H3; reflexivity]).
Qed.

Lemma parse_number_of_Z (z : Z) (rest : string) :
  ends_number rest = true ->
  parse_number (Str.of_Z z ++ rest)%string = Some (JNum z 0, rest).
Proof.
  intros Hrest. unfold Str.of_Z, NilZero.string_of_int, NilZero.string_of_uint.
  destruct z as [|p|p]; cbn [Z.to_int].
  - change (parse_number (String "0" rest) = Some (JNum 0 0, rest)).
    unfold parse_number, parse_unsigned.
    change (Nat.eqb (Str.code "0") 45) with false; cbv iota beta.
    change (is_digit "0") with true. change (Nat.eqb (Str.code "0") 48) with true.
    cbv iota beta. change (negb true) with false. cbv iota.
    destruct rest as [|c rest]; [reflexivity|].
    destruct (ends_number_inv c rest Hrest) as (_ & H1 & H2 & H3).
    rewrite H1. cbv iota beta. now rewrite H2, H3.
  - assert (Hh := to_uint_head p).
    assert (Hu := parse_unsigned_uint (Pos.to_uint p) rest Hh Hrest).
    rewrite uint_value_to_uint in Hu.
    destruct (Pos.to_uint p) as [|u|u|u|u|u|u|u|u|u|u]; try destruct Hh;
      cbn [NilEmpty.string_of_uint append] in *; unfold parse_number;
      change (Nat.eqb (Str.code _) 45) with false; cbv iota; now rewrite Hu.
  - assert (Hh := to_uint_head p).
    assert (Hu := parse_unsigned_uint (Pos.to_uint p) rest Hh Hrest).
    rewrite uint_value_to_uint in Hu.
    destruct (Pos.to_uint p) as [|u|u|u|u|u|u|u|u|u|u]; try destruct Hh;
      cbn [NilEmpty.string_of_uint append] in *; unfold parse_number;
      change (Nat.eqb (Str.code "-") 45) with true; cbv iota; now rewrite Hu.
Qed.

(** *** Values and members *)

Lemma quote_append (s rest : string) :
  (quote s ++ rest)%string
  = String Str.dquote (escape s ++ String Str.dquote rest)%string.
Proof. unfold quote. cbn [append]. now rewrite append_assoc. Qed.

Lemma parse_value_quote (f : nat) (s rest : string) :
  parse_value (S f) (quote s ++ rest)%string = Some (JStr s, rest).
Proof.
  rewrite quote_append.
  change (parse_value (S f) (String Str.dquote ?t))
    with (match parse_chars (escape s ++ String Str.dquote rest)%string with
          | Some (str, out) => Some (JStr str, out)
          | None => None
          end).
  now rewrite parse_chars_escape.
Qed.

Lemma parse_value_of_Z (f : nat) (z : Z) (rest : string) :
  ends_number rest = true ->
  parse_value (S f) (Str.of_Z z ++ rest)%string = Some (JNum z 0, rest).
Proof.
  intros Hrest. assert (H := parse_number_of_Z z rest Hrest).
  unfold Str.of_Z, NilZero.string_of_int, NilZero.string_of_uint in *.
  destruct z as [|p|p]; cbn [Z.to_int] in *.
  - exact H.
  - assert (Hh := to_uint_head p).
    destruct (Pos.to_uint p) as [|u|u|u|u|u|u|u|u|u|u]; try destruct Hh; exact H.
  - assert (Hh := to_uint_head p).
    destruct (Pos.to_uint p) as [|u|u|u|u|u|u|u|u|u|u]; try destruct Hh; exact H.
Qed.

Lemma parse_members_cons (f : nat) (key text rest out : string) (v : json)
    (ms : list (string * json)) :
  parse_value f (text ++ String "," rest)%string = Some (v, String "," rest) ->
  parse_members f rest = Some (ms, out) ->
  parse_members (S f) (quote key ++ String ":" (text ++ String "," rest))%string
  = Some ((key, v) :: ms, out).
Proof.
  intros Hv Hms. rewrite quote_append.
  cbn [parse_members]. change (skip_ws (String Str.dquote ?t)) with (String Str.dquote t).
  cbv iota beta. change (Nat.eqb (Str.code Str.dquote) 34) with true. cbv iota.
  rewrite parse_chars_escape.
  change (skip_ws (String ":" ?t)) with (String ":" t).
  change (Nat.eqb (Str.code ":") 58) with true. cbv iota beta.
  rewrite Hv. change (skip_ws (String "," rest)) with (String "," rest).
  change (Nat.eqb (Str.code ",") 44) with true. cbv iota beta.
  now rewrite Hms.
Qed.

Lemma parse_members_last (f : nat) (key text out : string) (v : json) :
  parse_value f (text ++ String "}" out)%string = Some (v, String "}" out) ->
  parse_members (S f) (quote key ++ String ":" (text ++ String "}" out))%string
  = Some ([(key, v)], out).
Proof.
  intros Hv. rewrite quote_append.
  cbn [parse_members]. change (skip_ws (String Str.dquote ?t)) with (String Str.dquote t).
  cbv iota beta. change (Nat.eqb (Str.code Str.dquote) 34) with true. cbv iota.
  rewrite parse_chars_escape.
  change (skip_ws (String ":" ?t)) with (String ":" t).
  change (Nat.eqb (Str.code ":") 58) with true. cbv iota beta.
  rewrite Hv. change (skip_ws (String "}" out)) with (String "}" out).
  change (Nat.eqb (Str.code "}") 44) with false.
  change (Nat.eqb (Str.code "}") 125) with true. reflexivity.
Qed.

Lemma parse_value_object (f : nat) (t out : string) (ms : list (string * json)) :
  parse_members f (String Str.dquote t) = Some (ms, out) ->
  parse_value (S f) (String "{" (String Str.dquote t)) = Some (JObj ms, out).
Proof.
  intros H.
  change (parse_value (S f) (String "{" (String Str.dquote t)))
    with (match parse_members f (String Str.dquote t) with
          | Some (ms, out) => Some (JObj ms, out)
          | None => None
          end).
  now rewrite H.
Qed.

(** The text of a command, with the appends put in the order the parser
    reads them. *)
Lemma stringify_scan_text (source output : string) (threshold : Z) (tail : string) :
  (stringify (CmdScan source output threshold) ++ tail)%string
  = String "{"
      (quote "cmd" ++ String ":" (quote "scan" ++ String ","
        (quote "source" ++ String ":" (quote source ++ String ","
          (quote "output" ++ String ":" (quote output ++ String ","
            (quote "threshold" ++ String ":"
               (Str.of_Z threshold ++ String "}" tail))))))))%string.
Proof.
  unfold stringify, member. cbn [append].
  repeat (rewrite !append_assoc; cbn [append]). reflexivity.
Qed.

Lemma stringify_word_text (word tail : string) :
  (("{" ++ member "cmd" (quote word) ++ "}") ++ tail)%string
  = String "{" (quote "cmd" ++ String ":" (quote word ++ String "}" tail))%string.
Proof.
  unfold member. cbn [append].
  repeat (rewrite !append_assoc; cbn [append]). reflexivity.
Qed.

Lemma parse_value_stringify (n : nat) (cmd : Command) (tail : string) :
  parse_value (6 + n) (stringify cmd ++ tail)%string
  = Some (command_object cmd, tail).
Proof.
  destruct cmd as [source output threshold| |].
  - rewrite stringify_scan_text.
    change (6 + n)%nat with (S (S (S (S (S (S n)))))).
    rewrite (quote_append "cmd"). apply parse_value_object.
    rewrite <- (quote_append "cmd").
    apply parse_members_cons; [apply parse_value_quote|].
    apply parse_members_cons; [apply parse_value_quote|].
    apply parse_members_cons; [apply parse_value_quote|].
    apply parse_members_last. now apply parse_value_of_Z.
  - change (stringify CmdCancel) with ("{" ++ member "cmd" (quote "cancel") ++ "}")%string.
    rewrite stringify_word_text.
    change (6 + n)%nat with (S (S (S (S (S (S n)))))).
    rewrite (quote_append "cmd"). apply parse_value_object.
    rewrite <- (quote_append "cmd").
    apply parse_members_last. apply parse_value_quote.
  - change (stringify CmdQuit) with ("{" ++ member "cmd" (quote "quit") ++ "}")%string.
    rewrite stringify_word_text.
    change (6 + n)%nat with (S (S (S (S (S (S n)))))).
    rewrite (quote_append "cmd"). apply parse_value_object.
    rewrite <- (quote_append "cmd").
    apply parse_members_last. apply parse_value_quote.
Qed.

Lemma length_append (a b : string) :
  String.length (a ++ b) = (String.length a + String.length b)%nat.
Proof. induction a as [|c a IH]; cbn [append String.length]; [reflexivity|now rewrite IH]. Qed.

Lemma stringify_length (cmd : Command) (tail : string) :
  (2 <= String.length (stringify cmd ++ tail))%nat.
Proof.
  destruct cmd as [source output threshold| |];
    [rewrite stringify_scan_text
    |change (stringify CmdCancel) with ("{" ++ member "cmd" (quote "cancel") ++ "}")%string;
     rewrite stringify_word_text
    |change (stringify CmdQuit) with ("{" ++ member "cmd" (quote "quit") ++ "}")%string;
     rewrite stringify_word_text];
    rewrite (quote_append "cmd"); cbn [String.length]; lia.
Qed.

Lemma parse_stringify_tail (cmd : Command) (tail : string) :
  skip_ws tail = EmptyString ->
  parse (stringify cmd ++ tail)%string = Some (command_object cmd).
Proof.
  intros Htail. unfold parse.
  assert (Hlen := stringify_length cmd tail).
  replace (2 * String.length (stringify cmd ++ tail) + 2)%nat
    with (6 + (2 * String.length (stringify cmd ++ tail) - 4))%nat by lia.
  rewrite parse_value_stringify. now rewrite Htail.
Qed.

(** Every command line is well-formed JSON: read back by [JSON.parse],
    the text of a command, with or without the newline that ends its
    line, is the object the handler built, whatever characters the folder
    names hold and whatever integer the threshold is. *)
Theorem command_line_round_trip (cmd : Command) :
  parse (stringify cmd) = Some (command_object cmd)
  /\ parse (encode cmd) = Some (command_object cmd).
Proof.
  split.
  - replace (stringify cmd) with (stringify cmd ++ EmptyString)%string.
    + now apply parse_stringify_tail.
    + induction (stringify cmd) as [|c s IH]; cbn [append]; [reflexivity|now rewrite IH].
  - unfold encode. now apply parse_stringify_tail.
Qed.

(** A command takes exactly one line: the text [JSON.stringify] gives
    holds no line break and no other control character, so the newline
    [encode] appends is the only one. *)
Theorem command_is_one_line (cmd : Command) :
  printable (stringify cmd) = true
  /\ encode cmd = (stringify cmd ++ newline)%string.
Proof.
  split; [|reflexivity].
  destruct cmd as [source output threshold| |]; [|reflexivity|reflexivity].
  unfold stringify, member, quote.
  repeat (rewrite ?printable_app; cbn [printable append]).
  now rewrite !printable_escape, printable_of_Z.
Qed.

End WireFacts.

(* ===================================================================== *)
(** * More on the main process *)
(* ===================================================================== *)

Section SupervisorFacts.
Import JSON Main.

(** *** Spawning and sending *)

(** [spawnPython] is idempotent and leaves a worker referenced, and
    [sendToPython] spawns by itself: the call of [spawnPython] in the
    [start-scan] handler changes nothing, so that the handler is
    [sendToPython] with the scan command, answered [true]. *)
Theorem start_scan_is_send (source output : string) (threshold : Z) (st : state) :
  spawnPython (spawnPython st) = spawnPython st
  /\ pythonProcess (spawnPython st) <> None
  /\ sendToPython (CmdScan source output threshold) (spawnPython st)
     = sendToPython (CmdScan source output threshold) st
  /\ start_scan source output threshold st
     = (sendToPython (CmdScan source output threshold) st, true).
Proof.
  assert (Hlive : pythonProcess (spawnPython st) <> None).
  { unfold spawnPython. destruct (pythonProcess st) eqn:E; [now rewrite E|discriminate]. }
  assert (Hidem : spawnPython (spawnPython st) = spawnPython st).
  { destruct (pythonProcess (spawnPython st)) as [q|] eqn:E; [|contradiction].
    now apply (spawnPython_live _ q). }
  assert (Hsend : forall cmd, sendToPython cmd (spawnPython st) = sendToPython cmd st).
  { intros cmd. destruct (pythonProcess st) as [q|] eqn:E.
    - now rewrite (spawnPython_live _ _ E).
    - destruct (pythonProcess (spawnPython st)) as [q|] eqn:E'; [|contradiction].
      unfold sendToPython. rewrite E, E'. cbv beta iota zeta. now rewrite E'. }
  repeat split; auto. unfold start_scan. now rewrite Hsend.
Qed.

Lemma sendToPython_live cmd st p c :
  pythonProcess st = Some p -> children st !! p = Some c ->
  stdin_writable c = true ->
  sendToPython cmd st
  = set_children (<[p := accept_chunk (encode cmd) c]> (children st)) st.
Proof.
  intros Hp Hc Hw. unfold sendToPython. rewrite Hp. cbv beta iota zeta.
  rewrite Hp, Hc, Hw. unfold update_child. now rewrite Hc.
Qed.

Lemma send_all_live cmds : forall st p c,
  pythonProcess st = Some p -> children st !! p = Some c ->
  stdin_writable c = true ->
  send_all cmds st
  = set_children
      (<[p := mkChild true (stdin_data c ++ map encode cmds) (kills c) (closed c)]>
         (children st)) st.
Proof.
  induction cmds as [|cmd cmds IH]; intros st p c Hp Hc Hw.
  - cbn [send_all fold_left map]. rewrite app_nil_r.
    replace (mkChild true (stdin_data c) (kills c) (closed c)) with c
      by (destruct c; cbn in Hw; now subst).
    rewrite (list_insert_id _ _ _ Hc). now destruct st.
  - cbn [send_all fold_left]. fold (send_all cmds (sendToPython cmd st)).
    rewrite (sendToPython_live cmd st p c Hp Hc Hw).
    rewrite (IH _ p (accept_chunk (encode cmd) c)).
    + cbn [children set_children accept_chunk stdin_data kills closed map].
      rewrite list_insert_insert_eq, <- app_assoc. reflexivity.
    + exact Hp.
    + cbn [children set_children]. now apply (lookup_insert_here _ _ c).
    + exact Hw.
Qed.

(** Commands are written in the order they are sent, one line each.
    To a worker whose stdin is writable, the lines are appended to what it
    has been sent and nothing else changes; with no worker referenced, the
    first command spawns one child and all the lines go to it. *)
Theorem commands_written_in_order (cmds : list Command) (st : state) :
  (forall p c,
     pythonProcess st = Some p -> children st !! p = Some c ->
     stdin_writable c = true ->
     send_all cmds st
     = set_children
         (<[p := mkChild true (stdin_data c ++ map encode cmds) (kills c) (closed c)]>
            (children st)) st)
  /\ (pythonProcess st = None -> cmds <> [] ->
      send_all cmds st
      = mkState (mainWindow st) (Some (length (children st)))
          (children st ++ [mkChild true (map encode cmds) 0 false])
          (timers st) (now st) (sent st) (quitting st)).
Proof.
  split; [intros p c; apply send_all_live|].
  intros Hidle Hne. destruct cmds as [|cmd cmds]; [contradiction|].
  cbn [send_all fold_left]. fold (send_all cmds (sendToPython cmd st)).
  rewrite (sendToPython_fresh cmd st Hidle).
  rewrite (send_all_live cmds _ (length (children st))
             (mkChild true [encode cmd] 0 false)).
  - cbn [children set_children stdin_data kills closed map].
    unfold set_children. cbn [mainWindow pythonProcess children timers now sent quitting].
    f_equal.
    rewrite <- (Nat.add_0_r (length (children st))) at 1.
    now rewrite insert_app_r.
  - reflexivity.
  - cbn [children]. now rewrite list_lookup_middle.
  - reflexivity.
Qed.

(** The witness of [commands_written_in_order]: a scan and a cancel sent
    to a fresh main process, and a cancel sent to the scanning one. *)
Lemma commands_written_in_order_witness :
  children (send_all [CmdScan "/a" "/b" 15; CmdCancel] (createWindow initial))
  = [mkChild true [encode (CmdScan "/a" "/b" 15); encode CmdCancel] 0 false]
  /\ children (send_all [CmdCancel] scanning)
     = [mkChild true [encode (CmdScan "/a" "/b" 15); encode CmdCancel] 0 false].
Proof.
  split.
  - now rewrite (proj2 (commands_written_in_order
                          [CmdScan "/a" "/b" 15; CmdCancel] (createWindow initial))
                   eq_refl ltac:(discriminate)).
  - now rewrite (proj1 (commands_written_in_order [CmdCancel] scanning)
                   0%nat (mkChild true [encode (CmdScan "/a" "/b" 15)] 0 false)
                   eq_refl eq_refl eq_refl).
Defined.

(** *** What the operations leave alone *)

Lemma update_child_frame q f st :
  mainWindow (update_child q f st) = mainWindow st
  /\ sent (update_child q f st) = sent st
  /\ timers (update_child q f st) = timers st
  /\ now (update_child q f st) = now st
  /\ pythonProcess (update_child q f st) = pythonProcess st.
Proof. unfold update_child. destruct (children st !! q); repeat split. Qed.

Lemma spawnPython_frame st :
  mainWindow (spawnPython st) = mainWindow st
  /\ sent (spawnPython st) = sent st
  /\ timers (spawnPython st) = timers st
  /\ now (spawnPython st) = now st.
Proof. unfold spawnPython. destruct (pythonProcess st); repeat split. Qed.

Lemma sendToPython_frame cmd st :
  mainWindow (sendToPython cmd st) = mainWindow st
  /\ sent (sendToPython cmd st) = sent st
  /\ timers (sendToPython cmd st) = timers st
  /\ now (sendToPython cmd st) = now st.
Proof.
  unfold sendToPython.
  set (st0 := match pythonProcess st with None => spawnPython st | Some _ => st end).
  assert (H0 : mainWindow st0 = mainWindow st /\ sent st0 = sent st
               /\ timers st0 = timers st /\ now st0 = now st).
  { subst st0. destruct (pythonProcess st); [repeat split|apply spawnPython_frame]. }
  destruct H0 as (<- & <- & <- & <-).
  destruct (pythonProcess st0) as [q|]; [|repeat split].
  destruct (children st0 !! q) as [c|]; [|repeat split].
  destruct (stdin_writable c); [|repeat split].
  destruct (update_child_frame q (accept_chunk (encode cmd)) st0) as (-> & -> & -> & -> & _).
  repeat split.
Qed.

Lemma killPython_frame st :
  mainWindow (killPython st) = mainWindow st
  /\ sent (killPython st) = sent st
  /\ now (killPython st) = now st
  /\ timers (killPython st)
     = timers st ++ match pythonProcess st with
                    | Some _ => [now st + grace_ms]
                    | None => []
                    end.
Proof.
  unfold killPython, stdin_write. destruct (pythonProcess st) as [q|].
  - destruct (children st !! q) as [c|]; [destruct (stdin_writable c)|]; repeat split.
  - rewrite app_nil_r. repeat split.
Qed.

Lemma kill_timeout_frame st :
  mainWindow (kill_timeout st) = mainWindow st
  /\ sent (kill_timeout st) = sent st
  /\ timers (kill_timeout st) = timers st
  /\ now (kill_timeout st) = now st.
Proof.
  unfold kill_timeout. destruct (pythonProcess st) as [q|]; [|repeat split].
  destruct (update_child_frame q kill st) as (H1 & H2 & H3 & H4 & _).
  repeat split; assumption.
Qed.

Lemma fire_frame (ready : list Z) : forall st,
  mainWindow (fold_left (fun s _ => kill_timeout s) ready st) = mainWindow st
  /\ sent (fold_left (fun s _ => kill_timeout s) ready st) = sent st
  /\ timers (fold_left (fun s _ => kill_timeout s) ready st) = timers st
  /\ now (fold_left (fun s _ => kill_timeout s) ready st) = now st.
Proof.
  induction ready as [|d ready IH]; intros st; [repeat split|].
  cbn [fold_left]. destruct (IH (kill_timeout st)) as (-> & -> & -> & ->).
  apply kill_timeout_frame.
Qed.

Lemma run_timers_frame st :
  mainWindow (run_timers st) = mainWindow st
  /\ sent (run_timers st) = sent st
  /\ now (run_timers st) = now st
  /\ timers (run_timers st)
     = List.filter (fun d => negb (due (now st) d)) (timers st).
Proof.
  unfold run_timers.
  destruct (fire_frame (List.filter (due (now st)) (timers st))
              (set_timers (List.filter (fun d => negb (due (now st) d)) (timers st)) st))
    as (-> & -> & -> & ->).
  repeat split.
Qed.

(** *** After the window has closed *)

Lemma step_without_window i st :
  mainWindow st = None -> opens_window i = false ->
  mainWindow (step i st) = None /\ sent (step i st) = sent st.
Proof.
  intros Hw Hi.
  assert (Hdead : window_live st = false) by (unfold window_live; now rewrite Hw).
  destruct i as [q line|q data|q code|q|dt|source output threshold| | |n| | |];
    try discriminate Hi; cbn [step].
  - destruct (is_open q st); [|now split].
    unfold rl_on_line. rewrite Hdead. destruct (parse line); now split.
  - destruct (is_open q st); [|now split].
    unfold stderr_on_data. rewrite Hdead, andb_false_r. now split.
  - destruct (is_open q st); [|now split].
    unfold on_close.
    change (window_live (set_pythonProcess None (update_child q mark_closed st)))
      with (window_live (update_child q mark_closed st)).
    unfold window_live.
    destruct (update_child_frame q mark_closed st) as (H1 & H2 & _).
    rewrite H1, Hw. cbn [mainWindow sent set_pythonProcess]. now rewrite H1, H2, Hw.
  - destruct (update_child_frame q break_stdin st) as (-> & -> & _). now split.
  - destruct (run_timers_frame (set_now (now st + Z.max 0 dt) st)) as (-> & -> & _).
    now split.
  - unfold start_scan. cbn [fst].
    destruct (sendToPython_frame (CmdScan source output threshold) (spawnPython st))
      as (-> & -> & _).
    destruct (spawnPython_frame st) as (-> & -> & _). now split.
  - unfold cancel_scan. cbn [fst].
    destruct (sendToPython_frame CmdCancel st) as (-> & -> & _). now split.
  - unfold on_activate. cbn [opens_window] in Hi. rewrite Hi. now split.
  - unfold destroy_window. rewrite Hw. now split.
  - unfold on_window_closed.
    destruct (killPython_frame (set_mainWindow None st)) as (-> & -> & _). now split.
  - unfold on_window_all_closed. cbn [mainWindow sent set_quitting].
    destruct (killPython_frame st) as (-> & -> & _). now split.
Qed.

(** Once the window has closed and until a window is created again,
    nothing is sent, whatever the worker prints and however it ends. *)
Theorem nothing_sent_without_window (inputs : list input) (st : state) :
  forallb (fun i => negb (opens_window i)) inputs = true ->
  mainWindow (run inputs (on_window_closed st)) = None
  /\ sent (run inputs (on_window_closed st)) = sent st.
Proof.
  intros Hin.
  assert (H0 : mainWindow (on_window_closed st) = None
               /\ sent (on_window_closed st) = sent st).
  { unfold on_window_closed.
    destruct (killPython_frame (set_mainWindow None st)) as (-> & -> & _). now split. }
  destruct H0 as [Hw Hs]. rewrite <- Hs. clear Hs.
  generalize dependent (on_window_closed st). clear st.
  induction inputs as [|i inputs IH]; intros st Hw; [now split|].
  cbn [forallb] in Hin. apply andb_true_iff in Hin as [Hi Hin].
  apply negb_true_iff in Hi.
  destruct (step_without_window i st Hw Hi) as [Hw' Hs'].
  destruct (IH Hin (step i st) Hw') as [H1 H2].
  cbn [run fold_left]. fold (run inputs (step i st)). now rewrite H1, H2, Hs'.
Qed.

(** The witness of [nothing_sent_without_window]: the worker goes on
    printing and then exits after the window of the scanning state has
    closed. *)
Lemma nothing_sent_without_window_witness :
  sent (run [StdoutLine 0 "42"; StderrData 0 "late"; Close 0 (Some 0); Elapse 1000]
          (on_window_closed scanning)) = sent scanning.
Proof.
  exact (proj2 (nothing_sent_without_window
                  [StdoutLine 0 "42"; StderrData 0 "late"; Close 0 (Some 0); Elapse 1000]
                  scanning eq_refl)).
Defined.

(** *** The grace timers *)

Lemma timers_in_grace_frame st st' :
  timers st' = timers st -> now st' = now st ->
  timers_in_grace st -> timers_in_grace st'.
Proof. unfold timers_in_grace. now intros -> ->. Qed.

Lemma timers_in_grace_killPython st :
  timers_in_grace st -> timers_in_grace (killPython st).
Proof.
  unfold timers_in_grace. destruct (killPython_frame st) as (_ & _ & -> & ->).
  intros H. apply Forall_app. split; [exact H|].
  destruct (pythonProcess st); constructor; [unfold grace_ms; lia|constructor].
Qed.

Lemma timers_in_grace_elapse dt st :
  timers_in_grace st -> timers_in_grace (step (Elapse dt) st).
Proof.
  unfold timers_in_grace. cbn [step].
  destruct (run_timers_frame (set_now (now st + Z.max 0 dt) st)) as (_ & _ & -> & ->).
  cbn [now timers set_now]. intros H.
  induction H as [|d l Hd Hl IH]; cbn [List.filter]; [constructor|].
  destruct (due (now st + Z.max 0 dt) d) eqn:E; cbn [negb]; [exact IH|].
  constructor; [|exact IH]. unfold due in E. apply Z.leb_gt in E. lia.
Qed.

Lemma timers_in_grace_step i st :
  timers_in_grace st -> timers_in_grace (step i st).
Proof.
  intros H.
  destruct i as [q line|q data|q code|q|dt|source output threshold| | |n| | |];
    try (now apply timers_in_grace_elapse); cbn [step].
  - destruct (is_open q st); [|exact H].
    destruct (rl_on_line_frame line st) as (_ & _ & _ & Ht & Hn).
    now apply (timers_in_grace_frame st).
  - destruct (is_open q st); [|exact H]. unfold stderr_on_data.
    now destruct (negb (Str.is_empty (Str.trim data)) && window_live st).
  - destruct (is_open q st); [|exact H]. unfold on_close.
    destruct (update_child_frame q mark_closed st) as (_ & _ & Ht & Hn & _).
    destruct (window_live _); now apply (timers_in_grace_frame st).
  - destruct (update_child_frame q break_stdin st) as (_ & _ & Ht & Hn & _).
    now apply (timers_in_grace_frame st).
  - unfold start_scan. cbn [fst].
    destruct (sendToPython_frame (CmdScan source output threshold) (spawnPython st))
      as (_ & _ & Ht & Hn).
    destruct (spawnPython_frame st) as (_ & _ & Ht' & Hn').
    apply (timers_in_grace_frame st); congruence.
  - unfold cancel_scan. cbn [fst].
    destruct (sendToPython_frame CmdCancel st) as (_ & _ & Ht & Hn).
    now apply (timers_in_grace_frame st).
  - exact H.
  - unfold on_activate. now destruct (Nat.eqb n 0).
  - unfold destroy_window. now destruct (mainWindow st).
  - unfold on_window_closed.
    now apply (timers_in_grace_killPython (set_mainWindow None st)).
  - unfold on_window_all_closed.
    apply (timers_in_grace_frame (killPython st)); try reflexivity.
    now apply timers_in_grace_killPython.
Qed.

Lemma timers_in_grace_run inputs : forall st,
  timers_in_grace st -> timers_in_grace (run inputs st).
Proof.
  induction inputs as [|i inputs IH]; intros st H; [exact H|].
  apply IH. now apply timers_in_grace_step.
Qed.

Lemma all_due_after_grace st :
  timers_in_grace st ->
  List.filter (fun d => negb (due (now st + grace_ms) d)) (timers st) = []
  /\ (timers st <> [] -> existsb (due (now st + grace_ms)) (timers st) = true).
Proof.
  unfold timers_in_grace. intros H. induction H as [|d l Hd Hl [IH1 IH2]].
  - split; [reflexivity|contradiction].
  - assert (E : due (now st + grace_ms) d = true) by (unfold due; apply Z.leb_le; lia).
    cbn [List.filter existsb]. rewrite E. cbn [negb orb]. now split.
Qed.

(** No shutdown waits longer than the grace period. In every state the
    main process reaches, each pending deadline lies ahead and at most
    1000 ms ahead; so 1000 ms later no timer is pending, and if one was
    pending the worker reference has been cleared. *)
Theorem shutdown_settles_in_grace (inputs : list input) :
  let st := run inputs initial in
  Forall (fun d => now st < d <= now st + 1000) (timers st)
  /\ timers (step (Elapse 1000) st) = []
  /\ (timers st <> [] -> pythonProcess (step (Elapse 1000) st) = None).
Proof.
  intros st.
  assert (H : timers_in_grace st)
    by (apply timers_in_grace_run; constructor).
  destruct (all_due_after_grace st H) as [Hnone Hdue].
  split; [exact H|]. split.
  - cbn [step].
    destruct (run_timers_frame (set_now (now st + Z.max 0 1000) st)) as (_ & _ & _ & ->).
    exact Hnone.
  - intros Hne. specialize (Hdue Hne). cbn [step].
    destruct (pythonProcess st) as [p|] eqn:Hp.
    + destruct (worker_open_reachable inputs p Hp) as (c & Hc & _).
      now rewrite (run_timers_live (set_now (now st + Z.max 0 1000) st) p c).
    + now rewrite run_timers_idle.
Qed.

(** The witness of [shutdown_settles_in_grace]: the window closed during
    a scan, which arms one timer. *)
Lemma shutdown_settles_in_grace_witness :
  timers (run [Ready; IpcCancelScan; WindowClosed] initial) = [1000]
  /\ pythonProcess (step (Elapse 1000) (run [Ready; IpcCancelScan; WindowClosed] initial))
     = None.
Proof.
  split; [reflexivity|].
  exact (proj2 (proj2 (shutdown_settles_in_grace [Ready; IpcCancelScan; WindowClosed]))
           ltac:(discriminate)).
Defined.

(** *** The life of a child *)

Lemma lifecycle_frame st st' :
  pythonProcess st' = pythonProcess st -> children st' = children st ->
  lifecycle_ok st -> lifecycle_ok st'.
Proof. unfold lifecycle_ok. now intros -> ->. Qed.

Lemma lifecycle_insert q c c' st :
  children st !! q = Some c ->
  kills c' = kills c -> closed c' = closed c ->
  lifecycle_ok st ->
  lifecycle_ok (set_children (<[q := c']> (children st)) st).
Proof.
  intros Hq Hk Hcl [H1 H2]. split; cbn [pythonProcess children set_children].
  - intros p Hp. destruct (H1 p Hp) as [c0 Hc0].
    destruct (decide (q = p)) as [->|Hne].
    + exists c'. now apply (lookup_insert_here _ _ c0).
    + exists c0. now rewrite list_lookup_insert_ne.
  - intros p c0 Hc0. destruct (decide (q = p)) as [->|Hne].
    + rewrite (lookup_insert_here _ _ c c' Hq) in Hc0. injection Hc0 as <-.
      rewrite Hk, Hcl. now apply H2.
    + rewrite list_lookup_insert_ne in Hc0 by exact Hne. now apply H2.
Qed.

Lemma lifecycle_update q f st :
  (forall c, kills (f c) = kills c) -> (forall c, closed (f c) = closed c) ->
  lifecycle_ok st -> lifecycle_ok (update_child q f st).
Proof.
  intros Hk Hcl H. unfold update_child.
  destruct (children st !! q) as [c|] eqn:Hq; [|exact H].
  now apply (lifecycle_insert q c).
Qed.

(** With the reference cleared, a child may be marked in any way that
    keeps its count of kills. *)
Lemma lifecycle_release q f st :
  (forall c, kills (f c) = kills c) ->
  lifecycle_ok st -> lifecycle_ok (set_pythonProcess None (update_child q f st)).
Proof.
  intros Hk [_ H2]. split; cbn [pythonProcess set_pythonProcess]; [discriminate|].
  intros p c0 Hc0. split; [|discriminate].
  cbn [children set_pythonProcess] in Hc0. unfold update_child in Hc0.
  destruct (children st !! q) as [c|] eqn:Hq; [|now apply (H2 p)].
  cbn [children set_children] in Hc0.
  destruct (decide (q = p)) as [->|Hne].
  - rewrite (lookup_insert_here _ _ c _ Hq) in Hc0. injection Hc0 as <-.
    rewrite Hk. now apply (H2 p).
  - rewrite list_lookup_insert_ne in Hc0 by exact Hne. now apply (H2 p).
Qed.

Lemma lifecycle_kill_timeout st : lifecycle_ok st -> lifecycle_ok (kill_timeout st).
Proof.
  intros H. unfold kill_timeout. destruct (pythonProcess st) as [q|] eqn:Hp; [|exact H].
  destruct H as [H1 H2].
  split; cbn [pythonProcess set_pythonProcess]; [discriminate|].
  intros p c0 Hc0. split; [|discriminate].
  cbn [children set_pythonProcess] in Hc0. unfold update_child in Hc0.
  destruct (children st !! q) as [c|] eqn:Hq; [|now apply (H2 p)].
  cbn [children set_children] in Hc0.
  destruct (decide (q = p)) as [->|Hne].
  - rewrite (lookup_insert_here _ _ c _ Hq) in Hc0. injection Hc0 as <-.
    destruct (H2 p c Hq) as [_ Hz]. destruct (Hz Hp) as [_ Hz0].
    cbn [kills kill]. lia.
  - rewrite list_lookup_insert_ne in Hc0 by exact Hne. now apply (H2 p).
Qed.

Lemma lifecycle_spawnPython st : lifecycle_ok st -> lifecycle_ok (spawnPython st).
Proof.
  intros H. unfold spawnPython. destruct (pythonProcess st) as [q|] eqn:Hq; [exact H|].
  destruct H as [_ H2].
  split; cbn [pythonProcess children set_children set_pythonProcess].
  - intros p Hp. injection Hp as <-. exists fresh_child. now apply list_lookup_middle.
  - intros p c Hc. apply lookup_app_Some in Hc as [Hc|[Hge Hc]].
    + destruct (H2 p c Hc) as [Hk _]. split; [exact Hk|].
      intros Hp. injection Hp as <-. apply lookup_lt_Some in Hc. lia.
    + destruct (p - length (children st))%nat as [|n] eqn:En; [|destruct n; discriminate Hc].
      injection Hc as <-. cbn. split; [lia|now split].
Qed.

Lemma lifecycle_sendToPython cmd st :
  lifecycle_ok st -> lifecycle_ok (sendToPython cmd st).
Proof.
  intros H. unfold sendToPython.
  set (st0 := match pythonProcess st with None => spawnPython st | Some _ => st end).
  assert (H0 : lifecycle_ok st0).
  { subst st0. destruct (pythonProcess st); [exact H|]. now apply lifecycle_spawnPython. }
  destruct (pythonProcess st0) as [q|]; [|exact H0].
  destruct (children st0 !! q) as [c|]; [|exact H0].
  destruct (stdin_writable c); [|exact H0].
  now apply lifecycle_update.
Qed.

Lemma lifecycle_killPython st : lifecycle_ok st -> lifecycle_ok (killPython st).
Proof.
  intros H. unfold killPython. destruct (pythonProcess st) as [q|] eqn:Hp; [|exact H].
  apply (lifecycle_frame
           (match children st !! q with
            | Some c => match stdin_write (encode CmdQuit) c with
                        | Some c' => set_children (<[q := c']> (children st)) st
                        | None => st
                        end
            | None => st
            end)); try reflexivity.
  destruct (children st !! q) as [c|] eqn:Hq; [|exact H].
  unfold stdin_write. destruct (stdin_writable c); [|exact H].
  now apply (lifecycle_insert q c).
Qed.

Lemma lifecycle_run_timers st : lifecycle_ok st -> lifecycle_ok (run_timers st).
Proof.
  intros H. unfold run_timers.
  set (s0 := set_timers _ st). assert (H0 : lifecycle_ok s0) by exact H.
  clearbody s0. revert s0 H0.
  induction (List.filter (due (now st)) (timers st)) as [|d l IH]; intros s0 H0.
  - exact H0.
  - cbn [fold_left]. apply IH. now apply lifecycle_kill_timeout.
Qed.

Lemma lifecycle_step i st : lifecycle_ok st -> lifecycle_ok (step i st).
Proof.
  intros H.
  destruct i as [q line|q data|q code|q|dt|source output threshold| | |n| | |];
    cbn [step].
  - destruct (is_open q st); [|exact H].
    destruct (rl_on_line_frame line st) as (_ & Hp & Hc & _).
    now apply (lifecycle_frame st).
  - destruct (is_open q st); [|exact H]. unfold stderr_on_data.
    now destruct (negb (Str.is_empty (Str.trim data)) && window_live st).
  - destruct (is_open q st); [|exact H]. unfold on_close.
    assert (Hr := lifecycle_release q mark_closed st (fun c => eq_refl) H).
    now destruct (window_live _).
  - now apply lifecycle_update.
  - now apply lifecycle_run_timers.
  - unfold start_scan. cbn [fst].
    now apply lifecycle_sendToPython, lifecycle_spawnPython.
  - unfold cancel_scan. cbn [fst]. now apply lifecycle_sendToPython.
  - exact H.
  - unfold on_activate. now destruct (Nat.eqb n 0).
  - unfold destroy_window. now destruct (mainWindow st).
  - unfold on_window_closed. now apply lifecycle_killPython.
  - unfold on_window_all_closed.
    apply (lifecycle_frame (killPython st)); try reflexivity.
    now apply lifecycle_killPython.
Qed.

(** In every state the main process reaches, the child that
    [pythonProcess] names exists, has not closed and has not been killed,
    and no child has been killed more than once. *)
Theorem worker_killed_at_most_once (inputs : list input) (p : pid) (c : ChildProcess) :
  children (run inputs initial) !! p = Some c ->
  (kills c <= 1)%nat
  /\ (pythonProcess (run inputs initial) = Some p ->
      closed c = false /\ kills c = 0%nat).
Proof.
  assert (H : forall st, lifecycle_ok st -> lifecycle_ok (run inputs st)).
  { induction inputs as [|i inputs IH]; intros st Hst; [exact Hst|].
    apply IH. now apply lifecycle_step. }
  assert (H0 : lifecycle_ok initial).
  { split; [discriminate|]. intros q c0 Hc0. discriminate Hc0. }
  intros Hc. exact (proj2 (H initial H0) p c Hc).
Qed.

(** The witness of [worker_killed_at_most_once]: two shutdowns in a row,
    as when the window and then the application close, and both timers
    fired. *)
Lemma worker_killed_at_most_once_witness :
  children (run [Ready; IpcCancelScan; WindowClosed; WindowAllClosed; Elapse 1000]
              initial) !! 0%nat
  = Some (mkChild true [encode CmdCancel; encode CmdQuit; encode CmdQuit] 1 false)
  /\ (kills (mkChild true [encode CmdCancel; encode CmdQuit; encode CmdQuit] 1 false)
      <= 1)%nat.
Proof.
  split; [reflexivity|].
  exact (proj1 (worker_killed_at_most_once
                  [Ready; IpcCancelScan; WindowClosed; WindowAllClosed; Elapse 1000]
                  0%nat
                  (mkChild true [encode CmdCancel; encode CmdQuit; encode CmdQuit] 1 false)
                  eq_refl)).
Defined.

(** *** Empty input *)

Lemma skip_ws_all_ws (s : string) : all_ws s = true -> skip_ws s = EmptyString.
Proof.
  induction s as [|c s IH]; [reflexivity|]. cbn [all_ws skip_ws].
  intros H. apply andb_true_iff in H as [Hc Hs]. rewrite Hc. now apply IH.
Qed.

(** An empty line, or one of white space only, is not JSON: the line
    listener drops it like any other malformed line. *)
Theorem blank_line_dropped (line : string) (st : state) :
  all_ws line = true ->
  parse line = None /\ rl_on_line line st = st.
Proof.
  intros H.
  assert (Hp : parse line = None).
  { unfold parse. rewrite Nat.add_comm. cbn [Nat.add parse_value].
    now rewrite (skip_ws_all_ws line H). }
  split; [exact Hp|]. now apply rl_on_line_bad.
Qed.

(** The witness of [blank_line_dropped]: a line of two blanks. *)
Lemma blank_line_dropped_witness : rl_on_line "  " scanning = scanning.
Proof. exact (proj2 (blank_line_dropped "  " scanning eq_refl)). Defined.

(** *** White space and [trim] *)

Lemma strip_space_length (s r : string) :
  Str.strip_space s = Some r -> (String.length r < String.length s)%nat.
Proof.
  destruct s as [|a [|b [|c r3]]]; cbn [Str.strip_space]; try discriminate.
  - destruct (Str.is_space a); [|discriminate]. intros [= <-]. cbn. lia.
  - destruct (Str.is_space a); [intros [= <-]; cbn; lia|].
    destruct (Str.is_space2 a b); [|discriminate]. intros [= <-]. cbn. lia.
  - destruct (Str.is_space a); [intros [= <-]; cbn; lia|].
    destruct (Str.is_space2 a b); [intros [= <-]; cbn; lia|].
    destruct (Str.is_space3 a b c); [|discriminate]. intros [= <-]. cbn. lia.
Qed.

(** Induction along the white space at the front of a string. *)
Lemma strip_space_ind (P : string -> Prop) :
  (forall s, Str.strip_space s = None -> P s) ->
  (forall s r, Str.strip_space s = Some r -> P r -> P s) ->
  forall s, P s.
Proof.
  intros Hnone Hsome s.
  remember (String.length s) as n eqn:Hn.
  revert s Hn. induction n as [n IH] using lt_wf_ind. intros s ->.
  destruct (Str.strip_space s) as [r|] eqn:E; [|now apply Hnone].
  apply (Hsome s r E). apply (IH (String.length r)); [|reflexivity].
  now apply strip_space_length.
Qed.

Lemma trim_start_strip (s : string) :
  Str.trim_start s
  = match Str.strip_space s with
    | Some r => Str.trim_start r
    | None => s
    end.
Proof.
  destruct s as [|a [|b [|c r3]]]; cbn [Str.trim_start Str.strip_space];
    try reflexivity.
  - now destruct (Str.is_space a).
  - destruct (Str.is_space a); [reflexivity|]. now destruct (Str.is_space2 a b).
  - destruct (Str.is_space a); [reflexivity|].
    destruct (Str.is_space2 a b); [reflexivity|]. now destruct (Str.is_space3 a b c).
Qed.

Lemma all_space_strip (s : string) :
  Str.all_space s
  = match Str.strip_space s with
    | Some r => Str.all_space r
    | None => Str.is_empty s
    end.
Proof.
  destruct s as [|a [|b [|c r3]]]; cbn [Str.all_space Str.strip_space Str.is_empty];
    try reflexivity.
  - now destruct (Str.is_space a).
  - destruct (Str.is_space a); [reflexivity|]. now destruct (Str.is_space2 a b).
  - destruct (Str.is_space a); [reflexivity|].
    destruct (Str.is_space2 a b); [reflexivity|]. now destruct (Str.is_space3 a b c).
Qed.

(** What [trim_start] leaves does not start with white space, and it
    leaves nothing exactly of white space. *)
Lemma trim_start_head (s : string) :
  Str.strip_space (Str.trim_start s) = None
  /\ Str.is_empty (Str.trim_start s) = Str.all_space s.
Proof.
  induction s as [s E|s r E [IH1 IH2]] using strip_space_ind;
    rewrite trim_start_strip, all_space_strip, E; now split.
Qed.

Lemma strip_space_app (s r tail : string) :
  Str.strip_space s = Some r ->
  Str.strip_space (s ++ tail) = Some (r ++ tail)%string.
Proof.
  destruct s as [|a [|b [|c r3]]];
    cbn [Str.strip_space String.append]; try discriminate.
  - destruct (Str.is_space a); [|discriminate]. now intros [= <-].
  - destruct (Str.is_space a); [now intros [= <-]|].
    destruct (Str.is_space2 a b); [|discriminate]. now intros [= <-].
  - destruct (Str.is_space a); [now intros [= <-]|].
    destruct (Str.is_space2 a b); [now intros [= <-]|].
    destruct (Str.is_space3 a b c); [|discriminate]. now intros [= <-].
Qed.

(** [trim_end] keeps a prefix of the string. *)
Lemma trim_end_prefix (s : string) :
  exists tail, s = (Str.trim_end s ++ tail)%string.
Proof.
  induction s as [|c s [tail IH]]; [now exists EmptyString|].
  cbn [Str.trim_end]. cbv zeta.
  destruct (Str.is_space_char (String c (Str.trim_end s))).
  - now exists (String c s).
  - exists tail. cbn [String.append]. now rewrite <- IH.
Qed.

Lemma trim_end_idempotent (s : string) :
  Str.trim_end (Str.trim_end s) = Str.trim_end s.
Proof.
  induction s as [|c s IH]; [reflexivity|]. cbn [Str.trim_end]. cbv zeta.
  destruct (Str.is_space_char (String c (Str.trim_end s))) eqn:E; [reflexivity|].
  cbn [Str.trim_end]. cbv zeta. now rewrite IH, E.
Qed.

(** [trim_end] leaves nothing only of the empty string and of strings
    that start with white space. *)
Lemma trim_end_empty (s : string) :
  Str.trim_end s = EmptyString -> s = EmptyString \/ Str.strip_space s <> None.
Proof.
  destruct s as [|c s]; [now left|]. cbn [Str.trim_end]. cbv zeta.
  destruct (Str.is_space_char (String c (Str.trim_end s))) eqn:E; [|discriminate].
  intros _. right. destruct (trim_end_prefix s) as [tail Ht].
  unfold Str.is_space_char in E.
  destruct (Str.strip_space (String c (Str.trim_end s))) as [r|] eqn:Er;
    [|discriminate].
  rewrite Ht. change (String c (Str.trim_end s ++ tail))
    with (String c (Str.trim_end s) ++ tail)%string.
  now rewrite (strip_space_app _ _ tail Er).
Qed.

(** [trim] gives the empty string exactly on white space, and trimming
    twice is trimming once. *)
Lemma trim_spec (s : string) :
  Str.is_empty (Str.trim s) = Str.all_space s
  /\ Str.trim (Str.trim s) = Str.trim s.
Proof.
  unfold Str.trim. destruct (trim_start_head s) as [Hh He].
  assert (Hkeep : Str.strip_space (Str.trim_end (Str.trim_start s)) = None).
  { destruct (trim_end_prefix (Str.trim_start s)) as [tail Ht].
    destruct (Str.strip_space (Str.trim_end (Str.trim_start s))) as [r|] eqn:E;
      [|reflexivity].
    rewrite Ht, (strip_space_app _ _ tail E) in Hh. discriminate. }
  split.
  - rewrite <- He.
    destruct (Str.trim_end (Str.trim_start s)) eqn:E.
    + destruct (trim_end_empty _ E) as [->|Hn]; [reflexivity|contradiction].
    + destruct (Str.trim_start s); [discriminate E|reflexivity].
  - rewrite (trim_start_strip (Str.trim_end _)), Hkeep.
    apply trim_end_idempotent.
Qed.

Lemma code_inv (a : ascii) (n : nat) : Str.code a = n -> a = ascii_of_nat n.
Proof. intros <-. symmetry. apply ascii_nat_embedding. Qed.

Ltac code_cases :=
  repeat match goal with
         | H : _ \/ _ |- _ => destruct H as [H|H]
         | H : _ /\ _ |- _ => destruct H
         end;
  try match goal with
      | H1 : (128 <= Str.code ?x)%nat, H2 : (Str.code ?x <= 138)%nat |- _ =>
          assert (Hx : (Str.code x = 128 \/ Str.code x = 129 \/ Str.code x = 130
                        \/ Str.code x = 131 \/ Str.code x = 132 \/ Str.code x = 133
                        \/ Str.code x = 134 \/ Str.code x = 135 \/ Str.code x = 136
                        \/ Str.code x = 137 \/ Str.code x = 138)%nat) by lia;
          clear H1 H2;
          repeat destruct Hx as [Hx|Hx]
      end;
  repeat match goal with
         | H : Str.code ?x = _ |- _ => apply code_inv in H; subst x
         end.

(** The byte patterns of [is_space_char] are the UTF-8 encodings of the
    code points of [white_space], and nothing else. *)
Lemma is_space_char_utf8 (s : string) :
  Str.is_space_char s = true
  <-> In s (map (fun u => JSON.utf8 (N.to_nat u)) Str.white_space).
Proof.
  split.
  - intros H. unfold Str.is_space_char, Str.strip_space in H.
    destruct s as [|a [|b [|c [|d r]]]]; [discriminate H| | | |].
    + destruct (Str.is_space a) eqn:E; [clear H|discriminate H].
      unfold Str.is_space in E. cbv zeta in E.
      rewrite orb_true_iff, andb_true_iff, Nat.eqb_eq, !Nat.leb_le in E.
      assert (Hx : (Str.code a = 9 \/ Str.code a = 10 \/ Str.code a = 11
                    \/ Str.code a = 12 \/ Str.code a = 13
                    \/ Str.code a = 32)%nat) by lia.
      clear E. code_cases; vm_compute; repeat (first [left; reflexivity|right]).
    + destruct (Str.is_space a); [discriminate H|].
      destruct (Str.is_space2 a b) eqn:E; [clear H|discriminate H].
      unfold Str.is_space2 in E. rewrite andb_true_iff, !Nat.eqb_eq in E.
      code_cases; vm_compute; repeat (first [left; reflexivity|right]).
    + destruct (Str.is_space a); [discriminate H|].
      destruct (Str.is_space2 a b); [discriminate H|].
      destruct (Str.is_space3 a b c) eqn:E; [clear H|discriminate H].
      unfold Str.is_space3 in E. cbv zeta in E.
      rewrite !orb_true_iff, !andb_true_iff, !orb_true_iff, !andb_true_iff,
        !Nat.eqb_eq, !Nat.leb_le in E.
      code_cases; vm_compute; repeat (first [left; reflexivity|right]).
    + destruct (Str.is_space a); [discriminate H|].
      destruct (Str.is_space2 a b); [discriminate H|].
      destruct (Str.is_space3 a b c); discriminate H.
  - intros H. vm_compute in H.
    repeat (destruct H as [<-|H]; [reflexivity|]). destruct H.
Qed.

Lemma strip_space_split (s r : string) :
  Str.strip_space s = Some r ->
  exists w, s = (w ++ r)%string /\ Str.strip_space w = Some EmptyString.
Proof.
  destruct s as [|a [|b [|c r3]]]; cbn [Str.strip_space]; try discriminate.
  - destruct (Str.is_space a) eqn:Ha; [|discriminate]. intros [= <-].
    exists (String a EmptyString). cbn [Str.strip_space]. now rewrite Ha.
  - destruct (Str.is_space a) eqn:Ha.
    + intros [= <-]. exists (String a EmptyString). cbn [Str.strip_space].
      now rewrite Ha.
    + destruct (Str.is_space2 a b) eqn:Hb; [|discriminate]. intros [= <-].
      exists (String a (String b EmptyString)). cbn [Str.strip_space].
      now rewrite Ha, Hb.
  - destruct (Str.is_space a) eqn:Ha.
    + intros [= <-]. exists (String a EmptyString). cbn [Str.strip_space].
      now rewrite Ha.
    + destruct (Str.is_space2 a b) eqn:Hb.
      * intros [= <-]. exists (String a (String b EmptyString)).
        cbn [Str.strip_space]. now rewrite Ha, Hb.
      * destruct (Str.is_space3 a b c) eqn:Hc; [|discriminate]. intros [= <-].
        exists (String a (String b (String c EmptyString))).
        cbn [Str.strip_space]. now rewrite Ha, Hb, Hc.
Qed.

Lemma all_space_cons (w s : string) :
  Str.strip_space w = Some EmptyString ->
  Str.all_space (w ++ s) = Str.all_space s.
Proof.
  intros H. now rewrite all_space_strip, (strip_space_app _ _ s H).
Qed.

(** [trim_start] removes white space from the front. *)
Lemma trim_start_split (s : string) :
  exists pre, s = (pre ++ Str.trim_start s)%string /\ Str.all_space pre = true.
Proof.
  induction s as [s E|s r E (pre & Hr & Hpre)] using strip_space_ind;
    rewrite trim_start_strip, E.
  - now exists EmptyString.
  - destruct (strip_space_split s r E) as (w & -> & Hw).
    exists (w ++ pre)%string. split.
    + now rewrite append_assoc, <- Hr.
    + now rewrite (all_space_cons _ _ Hw).
Qed.

(** [trim_end] removes white space from the end. *)
Lemma trim_end_split (s : string) :
  exists post, s = (Str.trim_end s ++ post)%string /\ Str.all_space post = true.
Proof.
  induction s as [|c s (post & Hs & Hpost)]; [now exists EmptyString|].
  cbn [Str.trim_end]. cbv zeta.
  destruct (Str.is_space_char (String c (Str.trim_end s))) eqn:E.
  - exists (String c s). split; [reflexivity|].
    unfold Str.is_space_char in E.
    destruct (Str.strip_space (String c (Str.trim_end s))) as [[|]|] eqn:Ew;
      try discriminate.
    rewrite Hs. change (String c (Str.trim_end s ++ post))
      with (String c (Str.trim_end s) ++ post)%string.
    now rewrite (all_space_cons _ _ Ew).
  - exists post. cbn [String.append]. now rewrite <- Hs.
Qed.

(** [trim] takes white space, and nothing else, from the two ends. *)
Lemma trim_split (s : string) :
  exists pre post,
    s = (pre ++ Str.trim s ++ post)%string
    /\ Str.all_space pre = true /\ Str.all_space post = true.
Proof.
  destruct (trim_start_split s) as (pre & Hs & Hpre).
  destruct (trim_end_split (Str.trim_start s)) as (post & Ht & Hpost).
  exists pre, post. unfold Str.trim. now rewrite <- Ht, <- Hs.
Qed.
(** A chunk of white space on the worker's stderr is dropped even with a
    live window; any other chunk is forwarded to a live window as one
    [error] message whose text is the chunk trimmed: the chunk without
    the white space at its two ends, a text that is not empty and that
    trimming leaves as it is. *)
Theorem stderr_chunk_forwarded_trimmed (data : string) (st : state) :
  (Str.all_space data = true -> stderr_on_data data st = st)
  /\ (Str.all_space data = false -> window_live st = true ->
      stderr_on_data data st = webContents_send (error_event (Str.trim data)) st
      /\ Str.trim data <> EmptyString
      /\ Str.trim (Str.trim data) = Str.trim data
      /\ exists pre post,
           data = (pre ++ Str.trim data ++ post)%string
           /\ Str.all_space pre = true /\ Str.all_space post = true).
Proof.
  destruct (trim_spec data) as [He Hi]. unfold stderr_on_data. rewrite He.
  split; intros Hs.
  - now rewrite Hs.
  - intros Hlive. rewrite Hs, Hlive. repeat split; auto using trim_split.
    intros E. rewrite E in He. cbn in He. congruence.
Qed.

(** The witness of [stderr_chunk_forwarded_trimmed]: a warning between
    blanks and no-break spaces, and a chunk that is a no-break space and
    a blank. *)
Lemma stderr_chunk_forwarded_trimmed_witness :
  stderr_on_data (Str.nbsp ++ " ") scanning = scanning
  /\ sent (stderr_on_data (" " ++ Str.nbsp ++ "warning: slow disk" ++ Str.nbsp ++ " ")
             scanning)
     = [error_event "warning: slow disk"].
Proof.
  split.
  - exact (proj1 (stderr_chunk_forwarded_trimmed (Str.nbsp ++ " ") scanning) eq_refl).
  - now rewrite (proj1 (proj2 (stderr_chunk_forwarded_trimmed
                                 (" " ++ Str.nbsp ++ "warning: slow disk" ++ Str.nbsp ++ " ")
                                 scanning) eq_refl eq_refl)).
Defined.

End SupervisorFacts.

(* ===================================================================== *)
(** * More on the renderer scripts *)
(* ===================================================================== *)

Section FormFacts.
Import Dom App.

(** *** The controls and the scanning flag *)

Lemma on_event_controls_follow s e pg :
  controls_follow pg -> controls_follow (on_event s e pg).
Proof.
  unfold controls_follow. intros H.
  destruct (terminal e) eqn:He.
  - destruct s, e; try discriminate He; cbn [on_event];
      unfold Renderer.onBackendEvent, Part000.onBackendEvent.
    all: try reflexivity.
    all: try (destruct (0 <? errors); reflexivity).
    all: destruct (isScanning pg) eqn:E; [|rewrite ?E; exact H].
    all: unfold Renderer.addLog, Part000.addLog; cbn.
    all: destruct (logStarted pg); reflexivity.
  - destruct (on_event_keeps_controls s e pg He) as [-> ->]. exact H.
Qed.

Lemma start_handler_controls_follow s pg :
  controls_follow pg -> controls_follow (fst (start_handler s pg)).
Proof.
  unfold controls_follow. intros H.
  destruct s; cbn [start_handler];
    unfold Renderer.btnStart_onclick, Part000.btnStart_click;
    destruct (Str.is_empty (Str.trim (sourcePath_value pg))); [exact H| |exact H|];
    (destruct (Str.is_empty (Str.trim (outputPath_value pg))); [exact H|]);
    (destruct (String.eqb _ _); [|reflexivity]);
    cbn [fst]; unfold Renderer.addLog, Part000.addLog;
    destruct (logStarted pg); exact H.
Qed.

Lemma page_step_controls_follow s i pg :
  controls_follow pg -> controls_follow (fst (page_step s i pg)).
Proof.
  intros H. destruct i as [text|text|f|f|value| | | |e].
  9: { replace (fst (page_step s (Backend e) pg)) with (on_event s e pg)
         by now destruct s.
       now apply on_event_controls_follow. }
  6: { rewrite page_step_click_start.
       destruct (btnStart_disabled (controls pg)); [exact H|].
       now apply start_handler_controls_follow. }
  all: destruct s; cbn [page_step Renderer.step Part000.step].
  all: try (destruct (sourcePath_disabled (controls pg)); exact H).
  all: try (destruct (outputPath_disabled (controls pg)); exact H).
  all: try (destruct (thresholdSlider_disabled (controls pg)); exact H).
  all: try (destruct (btnCancel_disabled (controls pg)); exact H).
  all: try exact H.
  all: try (destruct (btnSource_disabled (controls pg)); [exact H|];
            destruct f as [folder|]; [|exact H];
            unfold Renderer.btnSource_onclick, Part000.btnSource_click;
            destruct (Str.is_empty folder); exact H).
  all: try (destruct (btnOutput_disabled (controls pg)); [exact H|];
            destruct f as [folder|]; [|exact H];
            unfold Renderer.btnOutput_onclick, Part000.btnOutput_click;
            destruct (Str.is_empty folder); exact H).
Qed.

(** In both scripts the controls follow the scanning flag through every
    input: once they agree with it they always do. So a start click is
    taken only when no scan runs, a cancel click only while one runs, and
    the form cannot be edited during a scan. *)
Theorem controls_follow_scanning (s : script) (inputs : list input) (st : App.state) :
  controls_follow (page st) ->
  controls_follow (page (run s inputs st))
  /\ (isScanning (page (run s inputs st)) = true ->
      forall text,
        ui s ClickStart (run s inputs st) = run s inputs st
        /\ ui s (EditSource text) (run s inputs st) = run s inputs st
        /\ ui s (EditOutput text) (run s inputs st) = run s inputs st)
  /\ (isScanning (page (run s inputs st)) = false ->
      ui s ClickCancel (run s inputs st) = run s inputs st).
Proof.
  intros H.
  assert (Hrun : controls_follow (page (run s inputs st))).
  { revert st H. induction inputs as [|i inputs IH]; intros st H; [exact H|].
    cbn [run fold_left]. apply (IH (ui s i st)). rewrite ui_page.
    now apply page_step_controls_follow. }
  split; [exact Hrun|]. set (st' := run s inputs st) in *. clearbody st'.
  unfold controls_follow in Hrun. split.
  - intros Hs text. rewrite Hs in Hrun.
    repeat split; unfold ui; destruct s; cbn [page_step Renderer.step Part000.step];
      rewrite Hrun; cbn; now destruct st'.
  - intros Hs. rewrite Hs in Hrun.
    unfold ui; destruct s; cbn [page_step Renderer.step Part000.step];
      rewrite Hrun; cbn; now destruct st'.
Qed.

(** The witness of [controls_follow_scanning]: the blank page, after its
    form has been filled and the scan started. *)
Lemma controls_follow_scanning_witness :
  controls_follow
    (page (run RendererJs [EditSource "/a"; EditOutput "/b"; ClickStart]
             (mkApp blank Main.initial))).
Proof.
  exact (proj1 (controls_follow_scanning RendererJs
                  [EditSource "/a"; EditOutput "/b"; ClickStart]
                  (mkApp blank Main.initial) eq_refl)).
Defined.

(** *** What ends a scan *)

Lemma start_handler_keeps_scanning s pg :
  isScanning pg = true -> isScanning (fst (start_handler s pg)) = true.
Proof.
  intros H.
  destruct s; cbn [start_handler];
    unfold Renderer.btnStart_onclick, Part000.btnStart_click;
    destruct (Str.is_empty (Str.trim (sourcePath_value pg))); [exact H| |exact H|];
    (destruct (Str.is_empty (Str.trim (outputPath_value pg))); [exact H|]);
    (destruct (String.eqb _ _); [|reflexivity]);
    cbn [fst]; unfold Renderer.addLog, Part000.addLog;
    destruct (logStarted pg); exact H.
Qed.

Lemma page_step_keeps_scanning s i pg :
  ends_scan i = false -> isScanning pg = true ->
  isScanning (fst (page_step s i pg)) = true.
Proof.
  intros Hi H. destruct i as [text|text|f|f|value| | | |e].
  9: { cbn [ends_scan] in Hi.
       replace (fst (page_step s (Backend e) pg)) with (on_event s e pg)
         by now destruct s.
       now rewrite (proj1 (on_event_keeps_controls s e pg Hi)). }
  6: { rewrite page_step_click_start.
       destruct (btnStart_disabled (controls pg)); [exact H|].
       now apply start_handler_keeps_scanning. }
  all: destruct s; cbn [page_step Renderer.step Part000.step].
  all: try (destruct (sourcePath_disabled (controls pg)); exact H).
  all: try (destruct (outputPath_disabled (controls pg)); exact H).
  all: try (destruct (thresholdSlider_disabled (controls pg)); exact H).
  all: try (destruct (btnCancel_disabled (controls pg)); exact H).
  all: try exact H.
  all: try (destruct (btnSource_disabled (controls pg)); [exact H|];
            destruct f as [folder|]; [|exact H];
            unfold Renderer.btnSource_onclick, Part000.btnSource_click;
            destruct (Str.is_empty folder); exact H).
  all: try (destruct (btnOutput_disabled (controls pg)); [exact H|];
            destruct f as [folder|]; [|exact H];
            unfold Renderer.btnOutput_onclick, Part000.btnOutput_click;
            destruct (Str.is_empty folder); exact H).
Qed.

(** Only a [complete], [cancelled] or [process-exit] message ends a
    scan. A click on the cancel button asks the main process to cancel
    and shows that it did, but the page goes on scanning, for as long as
    none of those messages comes. *)
Theorem scan_ends_only_by_event (s : script) (inputs : list input) (st : App.state) :
  isScanning (page st) = true ->
  forallb (fun i => negb (ends_scan i)) inputs = true ->
  isScanning (page (run s inputs st)) = true
  /\ (btnCancel_disabled (controls (page st)) = false ->
      page (ui s ClickCancel st) = set_statusText "Cancelling..." (page st)
      /\ main (ui s ClickCancel st) = fst (Main.cancel_scan (main st))).
Proof.
  intros H Hin. split.
  - revert st H. induction inputs as [|i inputs IH]; intros st H; [exact H|].
    cbn [forallb] in Hin. apply andb_true_iff in Hin as [Hi Hin].
    apply negb_true_iff in Hi.
    cbn [run fold_left]. apply (IH Hin (ui s i st)). rewrite ui_page.
    now apply page_step_keeps_scanning.
  - intros Hc. unfold ui.
    destruct s; cbn [page_step Renderer.step Part000.step]; rewrite Hc; now split.
Qed.

(** The witness of [scan_ends_only_by_event]: cancel clicked twice during
    a scan, with progress still coming in. *)
Lemma scan_ends_only_by_event_witness :
  isScanning (page (run RendererJs
                      [ClickCancel; Backend (EvProgress 3 9); ClickCancel]
                      (mkApp Renderer.scanning Main.scanning))) = true.
Proof.
  exact (proj1 (scan_ends_only_by_event RendererJs
                  [ClickCancel; Backend (EvProgress 3 9); ClickCancel]
                  (mkApp Renderer.scanning Main.scanning) eq_refl eq_refl)).
Defined.

(** *** The requests the page makes *)

Lemma is_empty_false (s : string) : Str.is_empty s = false <-> s <> EmptyString.
Proof. destruct s; cbn; split; congruence. Qed.

Lemma trim_idempotent (s : string) : Str.trim (Str.trim s) = Str.trim s.
Proof. exact (proj2 (trim_spec s)). Qed.

(** Every request to start a scan that the page makes, in either script
    and on any input, names two folders that are trimmed, not empty and
    different, with the threshold of the slider; and the start handler
    makes a request exactly when the trimmed folders of the form are not
    empty and differ. *)
Theorem start_request_well_formed (s : script) (pg : Dom.state) :
  (forall i source output threshold,
     In (StartScan source output threshold) (snd (page_step s i pg)) ->
     source <> EmptyString /\ output <> EmptyString /\ source <> output
     /\ Str.trim source = source /\ Str.trim output = output
     /\ threshold = thresholdSlider_value pg)
  /\ (snd (start_handler s pg) <> []
      <-> Str.trim (sourcePath_value pg) <> EmptyString
          /\ Str.trim (outputPath_value pg) <> EmptyString
          /\ Str.trim (sourcePath_value pg) <> Str.trim (outputPath_value pg)).
Proof.
  assert (Hh : forall source output threshold,
             In (StartScan source output threshold) (snd (start_handler s pg)) ->
             source <> EmptyString /\ output <> EmptyString /\ source <> output
             /\ Str.trim source = source /\ Str.trim output = output
             /\ threshold = thresholdSlider_value pg).
  { intros source output threshold Hin.
    destruct (Str.is_empty (Str.trim (sourcePath_value pg))) eqn:Es;
      [|destruct (Str.is_empty (Str.trim (outputPath_value pg))) eqn:Eo;
        [|destruct (String.eqb (Str.trim (sourcePath_value pg))
                      (Str.trim (outputPath_value pg))) eqn:Ee]].
    1-3: destruct s; cbn [start_handler] in Hin;
         unfold Renderer.btnStart_onclick, Part000.btnStart_click in Hin;
         rewrite ?Es, ?Eo, ?Ee in Hin; destruct Hin.
    assert (Hc := proj1 (start_handler_accepts s pg Es Eo
                           (proj1 (String.eqb_neq _ _) Ee))).
    rewrite Hc in Hin. destruct Hin as [Hin|[]].
    injection Hin as <- <- <-.
    apply is_empty_false in Es, Eo. apply String.eqb_neq in Ee.
    repeat split; auto using trim_idempotent. }
  split.
  - intros i source output threshold Hin.
    destruct i as [text|text|f|f|value| | | |e];
      try (destruct s; destruct Hin).
    + rewrite page_step_click_start in Hin.
      destruct (btnStart_disabled (controls pg)); [destruct Hin|]. now apply Hh.
    + exfalso. destruct s; cbn [page_step Renderer.step Part000.step] in Hin;
        destruct (btnCancel_disabled (controls pg)); cbn in Hin;
        try contradiction; destruct Hin as [Hin|[]]; discriminate Hin.
  - split.
    + intros Hne.
      destruct (Str.is_empty (Str.trim (sourcePath_value pg))) eqn:Es;
        [exfalso
        |destruct (Str.is_empty (Str.trim (outputPath_value pg))) eqn:Eo;
         [exfalso
         |destruct (String.eqb (Str.trim (sourcePath_value pg))
                      (Str.trim (outputPath_value pg))) eqn:Ee; [exfalso|]]].
      1-3: apply Hne; destruct s; cbn [start_handler];
           unfold Renderer.btnStart_onclick, Part000.btnStart_click;
           rewrite ?Es, ?Eo, ?Ee; reflexivity.
      apply is_empty_false in Es, Eo. apply String.eqb_neq in Ee. auto.
    + intros (Hs & Ho & Hne). apply is_empty_false in Hs, Ho.
      now rewrite (proj1 (start_handler_accepts s pg Hs Ho Hne)).
Qed.

(** The witness of [start_request_well_formed]: the request made by a
    click on the filled form, whose source folder is entered with a blank
    before it and a no-break space after it. *)
Lemma start_request_well_formed_witness :
  In (StartScan "/a" "/b" 15)
     (snd (page_step RendererJs ClickStart (set_sourcePath_value (" /a" ++ Str.nbsp) filled)))
  /\ "/a" <> "/b".
Proof.
  assert (Hin : In (StartScan "/a" "/b" 15)
                  (snd (page_step RendererJs ClickStart
                          (set_sourcePath_value (" /a" ++ Str.nbsp) filled))))
    by (now left).
  split; [exact Hin|].
  exact (proj1 (proj2 (proj2 (proj1 (start_request_well_formed RendererJs
           (set_sourcePath_value (" /a" ++ Str.nbsp) filled)) ClickStart "/a" "/b" 15 Hin)))).
Defined.

(** *** The log *)

Lemma on_event_log s e pg :
  terminal e = false ->
  match logged e with
  | Some m =>
      logStarted (on_event s e pg) = true
      /\ map node_message (logContainer (on_event s e pg))
         = map node_message (if logStarted pg then logContainer pg else []) ++ [Some m]
  | None =>
      logStarted (on_event s e pg) = logStarted pg
      /\ logContainer (on_event s e pg) = logContainer pg
  end.
Proof.
  intros He.
  destruct s, e; try discriminate He; cbn [logged on_event];
    unfold Renderer.onBackendEvent, Part000.onBackendEvent,
      Renderer.addLog, Part000.addLog;
    try (split; reflexivity).
  all: destruct (logStarted pg) eqn:E; cbn; rewrite ?E, ?map_app; split; reflexivity.
Qed.

Lemma deliver_log s events : forall pg,
  forallb (fun e => negb (terminal e)) events = true ->
  match omap logged events with
  | [] =>
      logStarted (deliver s events pg) = logStarted pg
      /\ logContainer (deliver s events pg) = logContainer pg
  | ms =>
      logStarted (deliver s events pg) = true
      /\ map node_message (logContainer (deliver s events pg))
         = map node_message (if logStarted pg then logContainer pg else [])
           ++ map Some ms
  end.
Proof.
  induction events as [|e events IH]; intros pg Hin; [now split|].
  cbn [forallb] in Hin. apply andb_true_iff in Hin as [He Hin].
  apply negb_true_iff in He.
  assert (H1 := on_event_log s e pg He). specialize (IH (on_event s e pg) Hin).
  cbn [deliver fold_left]. fold (deliver s events (on_event s e pg)).
  change (omap logged (e :: events))
    with (match logged e with
          | Some y => y :: omap logged events
          | None => omap logged events
          end).
  destruct (logged e) as [m|].
  - destruct H1 as [Hs Hc].
    destruct (omap logged events) as [|m' ms].
    + destruct IH as [-> ->]. now split.
    + destruct IH as [-> ->]. split; [reflexivity|].
      rewrite Hs, Hc, <- app_assoc. reflexivity.
  - destruct H1 as [Hs Hc]. rewrite Hs, Hc in IH. exact IH.
Qed.

(** The log keeps the messages in the order they arrive. Of a run of
    messages that do not end the scan, those of kind [log] and [error] are
    appended, one line each and none left out; the first line written
    after a clearing takes the place of the notice. *)
Theorem log_in_arrival_order (s : script) (events : list Event) (pg : Dom.state) :
  forallb (fun e => negb (terminal e)) events = true ->
  omap logged events <> [] ->
  logStarted (deliver s events pg) = true
  /\ map node_message (logContainer (deliver s events pg))
     = map node_message (if logStarted pg then logContainer pg else [])
       ++ map Some (omap logged events).
Proof.
  intros Hin Hne. assert (H := deliver_log s events pg Hin).
  destruct (omap logged events) as [|m ms]; [contradiction|exact H].
Qed.

(** The witness of [log_in_arrival_order]: three messages during a scan,
    two of which go to the log. *)
Lemma log_in_arrival_order_witness :
  map node_message
    (logContainer (deliver Part000Js
                     [EvLog "one"; EvProgress 1 2; EvError "two"] Part000.scanning))
  = [Some "one"; Some "two"].
Proof.
  exact (proj2 (log_in_arrival_order Part000Js
                  [EvLog "one"; EvProgress 1 2; EvError "two"] Part000.scanning
                  eq_refl ltac:(discriminate))).
Defined.

(** *** The two scripts *)

Lemma step_agree i pg1 pg2 :
  core pg1 = core pg2 ->
  snd (Renderer.step i pg1) = snd (Part000.step i pg2)
  /\ core (fst (Renderer.step i pg1)) = core (fst (Part000.step i pg2)).
Proof.
  intros H. unfold core in H.
  destruct pg1 as [s1 o1 t1 sc1 ls1 c1 st1 bw1 gw1 pc1 ps1 lc1 sb1 sx1 sh1].
  destruct pg2 as [s2 o2 t2 sc2 ls2 c2 st2 bw2 gw2 pc2 ps2 lc2 sb2 sx2 sh2].
  cbn in H. injection H as -> -> -> -> ->.
  destruct c2 as [b1 b2 b3 b4 b5 b6 b7].
  destruct i as [text|text|f|f|value| | | |e].
  1-5, 7-8: cbn;
    unfold Renderer.btnSource_onclick, Part000.btnSource_click,
      Renderer.btnOutput_onclick, Part000.btnOutput_click;
    repeat match goal with
                        | |- context [if ?b then _ else _] => destruct b
                        | |- context [match ?f with Some _ => _ | None => _ end] =>
                            destruct f
                        end; cbn; split; reflexivity.
  - cbn [Renderer.step Part000.step controls btnStart_disabled].
    destruct b1; [split; reflexivity|].
    unfold Renderer.btnStart_onclick, Part000.btnStart_click.
    cbn [sourcePath_value outputPath_value].
    destruct (Str.is_empty (Str.trim s2)); [split; reflexivity|].
    destruct (Str.is_empty (Str.trim o2)); [split; reflexivity|].
    destruct (String.eqb (Str.trim s2) (Str.trim o2)).
    + unfold Renderer.addLog, Part000.addLog. cbn.
      destruct ls1, ls2; split; reflexivity.
    + split; reflexivity.
  - cbn [Renderer.step Part000.step fst snd]. split; [reflexivity|].
    destruct e; unfold Renderer.onBackendEvent, Part000.onBackendEvent,
      Renderer.addLog, Part000.addLog; cbn;
      repeat match goal with
             | |- context [if ?b then _ else _] => destruct b
             end; reflexivity.
Qed.

(** Towards the main process the two scripts are the same: fed the same
    inputs from pages with the same form, scanning flag and controls, they
    make the same calls, so that the main process ends in the same state,
    and their forms, flags and controls stay the same. *)
Theorem scripts_agree (inputs : list input) (pg1 pg2 : Dom.state) (m : Main.state) :
  core pg1 = core pg2 ->
  main (run RendererJs inputs (mkApp pg1 m)) = main (run Part000Js inputs (mkApp pg2 m))
  /\ core (page (run RendererJs inputs (mkApp pg1 m)))
     = core (page (run Part000Js inputs (mkApp pg2 m))).
Proof.
  revert pg1 pg2 m. induction inputs as [|i inputs IH]; intros pg1 pg2 m H;
    [now split|].
  assert (Hui : exists pg1' pg2' m',
             ui RendererJs i (mkApp pg1 m) = mkApp pg1' m'
             /\ ui Part000Js i (mkApp pg2 m) = mkApp pg2' m'
             /\ core pg1' = core pg2').
  { unfold ui. cbn [page main page_step].
    destruct (step_agree i pg1 pg2 H) as [Hc Hp].
    destruct (Renderer.step i pg1) as [pg1' calls1].
    destruct (Part000.step i pg2) as [pg2' calls2].
    cbn [fst snd] in Hc, Hp. subst calls2.
    exists pg1', pg2'. eexists. split; [reflexivity|split; [reflexivity|exact Hp]]. }
  destruct Hui as (pg1' & pg2' & m' & E1 & E2 & Hc).
  cbn [run fold_left]. rewrite E1, E2. now apply IH.
Qed.

(** The witness of [scripts_agree]: a scan started, cancelled and ended
    on the filled form. *)
Lemma scripts_agree_witness :
  main (run RendererJs [ClickStart; ClickCancel; Backend EvCancelled; ClickStart]
          (mkApp filled Main.initial))
  = main (run Part000Js [ClickStart; ClickCancel; Backend EvCancelled; ClickStart]
            (mkApp filled Main.initial)).
Proof.
  exact (proj1 (scripts_agree [ClickStart; ClickCancel; Backend EvCancelled; ClickStart]
                  filled filled Main.initial eq_refl)).
Defined.

(** *** Class lists *)

Lemma contains_add c d l :
  contains c (add d l) = contains c l || String.eqb c d.
Proof.
  unfold add. destruct (contains d l) eqn:E.
  - destruct (String.eqb c d) eqn:Ecd; [|now rewrite orb_false_r].
    apply String.eqb_eq in Ecd. subst d. now rewrite E.
  - unfold contains. rewrite existsb_app. cbn [existsb]. now rewrite orb_false_r.
Qed.

Lemma contains_remove c d l :
  contains c (remove d l) = contains c l && negb (String.eqb c d).
Proof.
  unfold contains, remove. induction l as [|x l IH]; [reflexivity|].
  cbn [List.filter existsb]. destruct (String.eqb d x) eqn:Edx; cbn [negb].
  - rewrite IH. apply String.eqb_eq in Edx. subst x.
    destruct (String.eqb c d); [now rewrite !andb_false_r|reflexivity].
  - cbn [existsb]. rewrite IH.
    destruct (String.eqb c x) eqn:Ecx; [|reflexivity].
    apply String.eqb_eq in Ecx. subst x.
    rewrite (String.eqb_sym c d), Edx. reflexivity.
Qed.

(** After a [complete] message the summary is shown, whatever the banner
    looked like before: it is not hidden, it carries the error class
    exactly when the count of errors is positive, its text is the summary
    of the message, and the page is not scanning. *)
Theorem complete_shows_summary (s : script) (summary : string) (errors : Z)
    (pg : Dom.state) :
  let pg' := on_event s (EvComplete summary errors) pg in
  summaryText pg' = summary
  /\ contains "hidden" (summaryBanner pg') = false
  /\ contains (error_class s) (summaryBanner pg') = (0 <? errors)
  /\ isScanning pg' = false.
Proof.
  destruct s; cbn [on_event error_class];
    unfold Renderer.onBackendEvent, Part000.onBackendEvent;
    destruct (0 <? errors); cbn [summaryText summaryBanner isScanning
      set_summaryText set_summaryBanner];
    rewrite ?contains_add, ?contains_remove; cbn [String.eqb Ascii.eqb Bool.eqb negb];
    rewrite ?andb_false_r, ?andb_true_r, ?orb_false_r, ?orb_true_r;
    repeat split; try reflexivity.
  all: destruct (contains "hidden" _); reflexivity.
Qed.

(** A start click that is accepted clears what the last scan left on the
    page: the log holds the notice and nothing else, the summary is
    hidden, the bar is at 0 percent, and the progress section is marked
    active and scanning. *)
Theorem accepted_start_resets_display (s : script) (pg : Dom.state) :
  Str.trim (sourcePath_value pg) <> EmptyString ->
  Str.trim (outputPath_value pg) <> EmptyString ->
  Str.trim (sourcePath_value pg) <> Str.trim (outputPath_value pg) ->
  let pg' := fst (start_handler s pg) in
  map node_message (logContainer pg') = [None]
  /\ logStarted pg' = false
  /\ contains "hidden" (summaryBanner pg') = true
  /\ progressBar_width pg' = Some 0%Q
  /\ contains "active" (progressSection pg') = true
  /\ contains "scanning" (progressSection pg') = true.
Proof.
  intros Hs Ho Hne. apply is_empty_false in Hs, Ho. apply String.eqb_neq in Hne.
  destruct s; cbn [start_handler];
    unfold Renderer.btnStart_onclick, Part000.btnStart_click;
    rewrite Hs, Ho, Hne; cbn [fst];
    unfold Renderer.setProgress, Part000.setProgress, Renderer.clearLog,
      Part000.clearLog, Renderer.setScanning, Part000.setScanning;
    cbn [logContainer logStarted summaryBanner progressBar_width progressSection
         set_isScanning set_controls set_progressSection set_logStarted
         set_logContainer set_summaryBanner set_progressBar_width
         set_progressGlow_width set_progressCount Z.ltb Z.compare orb toggle];
    rewrite ?contains_add; cbn [String.eqb Ascii.eqb Bool.eqb];
    rewrite ?orb_true_r; repeat split; reflexivity.
Qed.

(** The witness of [accepted_start_resets_display]: a second scan
    started after a first one has completed with errors. *)
Lemma accepted_start_resets_display_witness :
  contains "hidden"
    (summaryBanner
       (fst (start_handler RendererJs
               (Renderer.onBackendEvent (EvComplete "Done!" 2) Renderer.scanning))))
  = true.
Proof.
  exact (proj1 (proj2 (proj2 (accepted_start_resets_display RendererJs
           (Renderer.onBackendEvent (EvComplete "Done!" 2) Renderer.scanning)
           ltac:(discriminate) ltac:(discriminate) ltac:(discriminate))))).
Defined.

(** *** From one scan to the next *)

Lemma on_event_keeps_form s e pg :
  sourcePath_value (on_event s e pg) = sourcePath_value pg
  /\ outputPath_value (on_event s e pg) = outputPath_value pg
  /\ thresholdSlider_value (on_event s e pg) = thresholdSlider_value pg.
Proof.
  destruct s, e; cbn [on_event];
    unfold Renderer.onBackendEvent, Part000.onBackendEvent,
      Renderer.addLog, Part000.addLog;
    cbn;
    repeat match goal with
           | |- context [if ?b then _ else _] => destruct b
           end; cbn; repeat split.
Qed.

(** Each of [complete], [cancelled] and [process-exit] leaves the page
    ready for the next scan: on a page whose controls follow the scanning
    flag, the start click that comes after such a message is taken, and
    with two different folders on the form it makes the request. *)
Theorem scan_can_restart (s : script) (t : Event) (pg : Dom.state) :
  controls_follow pg ->
  terminal t = true ->
  Str.trim (sourcePath_value pg) <> EmptyString ->
  Str.trim (outputPath_value pg) <> EmptyString ->
  Str.trim (sourcePath_value pg) <> Str.trim (outputPath_value pg) ->
  snd (page_step s ClickStart (on_event s t pg))
  = [StartScan (Str.trim (sourcePath_value pg)) (Str.trim (outputPath_value pg))
       (thresholdSlider_value pg)]
  /\ isScanning (fst (page_step s ClickStart (on_event s t pg))) = true.
Proof.
  intros Hf Ht Hs Ho Hne.
  assert (Hidle := on_event_terminal s t pg Ht).
  assert (Hf' := on_event_controls_follow s t pg Hf).
  destruct (on_event_keeps_form s t pg) as (Es & Eo & Et).
  unfold controls_follow in Hf'. rewrite Hidle in Hf'.
  rewrite page_step_click_start, Hf'. cbn [btnStart_disabled].
  rewrite <- Es, <- Eo, <- Et in *.
  apply is_empty_false in Hs, Ho.
  destruct (start_handler_accepts s (on_event s t pg) Hs Ho Hne) as (Hc & Hsc & _).
  now split.
Qed.

(** The witness of [scan_can_restart]: the worker exits during a scan
    and the start button is clicked again. *)
Lemma scan_can_restart_witness :
  snd (page_step RendererJs ClickStart
         (on_event RendererJs (EvProcessExit (Some 1)) Renderer.scanning))
  = [StartScan "/a" "/b" 15].
Proof.
  exact (proj1 (scan_can_restart RendererJs (EvProcessExit (Some 1)) Renderer.scanning
                  eq_refl eq_refl ltac:(discriminate) ltac:(discriminate)
                  ltac:(discriminate))).
Defined.

(** From the click to the worker: a start click that is accepted puts
    exactly one line on a worker's stdin, the scan command with the
    trimmed folders and the threshold of the slider. With no worker
    referenced the line is the first of a child spawned for it; with a
    worker whose stdin is writable it follows what that worker was sent. *)
Theorem accepted_click_writes_scan (s : script) (st : App.state) :
  btnStart_disabled (controls (page st)) = false ->
  Str.trim (sourcePath_value (page st)) <> EmptyString ->
  Str.trim (outputPath_value (page st)) <> EmptyString ->
  Str.trim (sourcePath_value (page st)) <> Str.trim (outputPath_value (page st)) ->
  let line := Main.encode (Main.CmdScan (Str.trim (sourcePath_value (page st)))
                             (Str.trim (outputPath_value (page st)))
                             (thresholdSlider_value (page st))) in
  (Main.pythonProcess (main st) = None ->
   Main.children (main (ui s ClickStart st))
   = Main.children (main st) ++ [Main.mkChild true [line] 0 false])
  /\ (forall p c,
        Main.pythonProcess (main st) = Some p ->
        Main.children (main st) !! p = Some c ->
        Main.stdin_writable c = true ->
        Main.children (main (ui s ClickStart st))
        = <[p := Main.accept_chunk line c]> (Main.children (main st))).
Proof.
  intros He Hs Ho Hne line. apply is_empty_false in Hs, Ho.
  destruct (start_handler_accepts s (page st) Hs Ho Hne) as (Hc & _).
  assert (Hmain : main (ui s ClickStart st)
                  = fst (Main.start_scan (Str.trim (sourcePath_value (page st)))
                           (Str.trim (outputPath_value (page st)))
                           (thresholdSlider_value (page st)) (main st))).
  { unfold ui. rewrite page_step_click_start, He.
    destruct (start_handler s (page st)) as [pg calls]. cbn [snd] in Hc. now rewrite Hc. }
  rewrite Hmain. unfold Main.start_scan. cbn [fst]. split.
  - intros Hidle.
    assert (Hsp := spawnPython_fresh (main st) Hidle).
    rewrite (sendToPython_live _ (Main.spawnPython (main st))
               (length (Main.children (main st))) Main.fresh_child).
    + rewrite Hsp. cbn [Main.children Main.set_children].
      rewrite <- (Nat.add_0_r (length (Main.children (main st)))) at 1.
      now rewrite insert_app_r.
    + now rewrite Hsp.
    + rewrite Hsp. cbn [Main.children]. now apply list_lookup_middle.
    + reflexivity.
  - intros p c Hp Hcp Hw.
    rewrite (spawnPython_live _ _ Hp).
    now rewrite (sendToPython_live _ (main st) p c Hp Hcp Hw).
Qed.

(** The witness of [accepted_click_writes_scan]: the first click on the
    filled form of a fresh application. *)
Lemma accepted_click_writes_scan_witness :
  Main.children (main (ui RendererJs ClickStart
                         (mkApp filled (Main.createWindow Main.initial))))
  = [Main.mkChild true [Main.encode (Main.CmdScan "/a" "/b" 15)] 0 false].
Proof.
  exact (proj1 (accepted_click_writes_scan RendererJs
                  (mkApp filled (Main.createWindow Main.initial))
                  eq_refl ltac:(discriminate) ltac:(discriminate) ltac:(discriminate))
           eq_refl).
Defined.

End FormFacts.
